(** * BacPipes: the polling / publishing / write engine and the sink bridge

    A shallow embedding of
    - [worker/mqtt_publisher.py]  (class [MqttPublisher]): [read_with_retry],
      [extract_value], [write_bacnet_value], [execute_write_command],
      [process_write_commands], the MQTT callbacks,
      [publish_individual_topic], [publish_equipment_batch],
      [poll_and_publish];
    - [telegraf/mqtt_to_timescaledb.py]: [on_message],
      [insert_sensor_reading], [main];
    - [worker/discovery.py]: the address computations.

    Conventions.
    - A Python [str] is the list of its code points, [bytes] is a list of
      [byte]; a Python [float] is an IEEE-754 value ([spec_float]).
    - Wall-clock time ([time.time()]) is an exact rational number of seconds;
      the rounding of the interpreter's floating-point arithmetic on time
      stamps is not modelled.
    - Code that can raise returns [result A]; [try/except] is written out.
    - What the BACnet library, the broker, the database and the network
      answer is an explicit argument (an oracle) of the function that asks. *)

From Stdlib Require Import ZArith QArith Qround Lqa Lia List String Ascii.
From Stdlib Require Import Strings.Byte Floats.SpecFloat DecimalString.
From stdpp Require Import gmap strings list.

Set Default Proof Using "Type".

(** ** Python values *)
Module Py.

Local Open Scope Z_scope.

(** [str]: code points. *)
Definition pystr := list Z.

(** A literal, written with its ASCII characters. *)
Definition py (s : string) : pystr :=
  map (fun a => Z.of_N (N_of_ascii a)) (list_ascii_of_string s).

Definition float := spec_float.

Inductive exn :=
| TypeError
| ValueError
| OverflowError
| StructError          (* struct.error *)
| UnicodeDecodeError
| LibraryError.        (* raised inside bacpypes3 *)

Definition result (A : Type) : Type := exn + A.
Definition Ok {A} (a : A) : result A := inr a.
Definition Raise {A} (e : exn) : result A := inl e.

Definition bind {A B} (r : result A) (k : A -> result B) : result B :=
  match r with
  | inl e => inl e
  | inr a => k a
  end.

Notation "'try!' x := r 'in' k" := (bind r (fun x => k))
  (at level 10, x name, r at level 100, k at level 200).

(** Host values that reach the codec, the publisher and the write path.
    [VOther] is any other object (a list, a dict, a library object): only its
    [str()] and its truth value are observed. *)
Inductive pyval :=
| VNone
| VBool (b : bool)
| VInt (n : Z)
| VFloat (x : float)
| VStr (s : pystr)
| VOther (repr : pystr) (truth : bool).

(** [isinstance(v, (int, float, bool))]; [bool] is a subclass of [int]. *)
Definition is_number (v : pyval) : bool :=
  match v with
  | VInt _ | VFloat _ | VBool _ => true
  | _ => false
  end.

(** [isinstance(v, (int, float, bool, str))] *)
Definition is_primitive (v : pyval) : bool :=
  match v with
  | VInt _ | VFloat _ | VBool _ | VStr _ => true
  | _ => false
  end.

Definition float_is_zero (x : float) : bool :=
  match x with
  | S754_zero _ => true
  | _ => false
  end.

(** Truth value of [if v:]. *)
Definition truthy (v : pyval) : bool :=
  match v with
  | VNone => false
  | VBool b => b
  | VInt n => negb (n =? 0)
  | VFloat x => negb (float_is_zero x)
  | VStr s => negb (length s =? 0)%nat
  | VOther _ t => t
  end.

(** *** Strings *)

Fixpoint starts_with (p s : pystr) : bool :=
  match p, s with
  | [], _ => true
  | _ :: _, [] => false
  | a :: p', b :: s' => (a =? b) && starts_with p' s'
  end.

(** [needle in hay] *)
Fixpoint contains (needle hay : pystr) : bool :=
  starts_with needle hay ||
  match hay with
  | [] => false
  | _ :: hay' => contains needle hay'
  end.

(** [str.isspace] for one character. *)
Definition isspace (c : Z) : bool :=
  ((9 <=? c) && (c <=? 13)) || ((28 <=? c) && (c <=? 32)) ||
  (c =? 0x85) || (c =? 0xA0) || (c =? 0x1680) ||
  ((0x2000 <=? c) && (c <=? 0x200A)) ||
  (c =? 0x2028) || (c =? 0x2029) || (c =? 0x202F) || (c =? 0x205F) ||
  (c =? 0x3000).

Fixpoint lstrip (s : pystr) : pystr :=
  match s with
  | [] => []
  | c :: s' => if isspace c then lstrip s' else s
  end.

(** [s.strip()] *)
Definition strip (s : pystr) : pystr := rev (lstrip (rev (lstrip s))).

(** *** Bytes *)

Definition byte_val (b : byte) : Z := Z.of_N (Byte.to_N b).

(** [int.from_bytes(data, byteorder='big')] *)
Definition int_from_bytes (data : list byte) : Z :=
  fold_left (fun acc b => acc * 256 + byte_val b) data 0.

(** [int.from_bytes(data, byteorder='big', signed=True)] *)
Definition int_from_bytes_signed (data : list byte) : Z :=
  let u := int_from_bytes data in
  let bits := 8 * Z.of_nat (length data) in
  if (0 <? bits) && (2 ^ (bits - 1) <=? u) then u - 2 ^ bits else u.

(** [struct.unpack] with one big-endian field: the buffer must have exactly
    the size of the format, [struct.error] otherwise. *)
Definition unpack_H (data : list byte) : result Z :=
  match data with
  | [b0; b1] => Ok (256 * byte_val b0 + byte_val b1)
  | _ => Raise StructError
  end.

Definition unpack_I (data : list byte) : result Z :=
  match data with
  | [b0; b1; b2; b3] =>
      Ok (16777216 * byte_val b0 + 65536 * byte_val b1
          + 256 * byte_val b2 + byte_val b3)
  | _ => Raise StructError
  end.

Definition wrap_signed (bits u : Z) : Z :=
  if u <? 2 ^ (bits - 1) then u else u - 2 ^ bits.

Definition unpack_b (data : list byte) : result Z :=
  match data with
  | [b0] => Ok (wrap_signed 8 (byte_val b0))
  | _ => Raise StructError
  end.

Definition unpack_h (data : list byte) : result Z :=
  try! u := unpack_H data in Ok (wrap_signed 16 u).

Definition unpack_i (data : list byte) : result Z :=
  try! u := unpack_I data in Ok (wrap_signed 32 u).

(** An IEEE-754 interchange format with [ebits] exponent bits and [mbits]
    fraction bits, read from its bit pattern. *)
Definition ieee_of_bits (ebits mbits bits : Z) : float :=
  let sign := Z.testbit bits (ebits + mbits) in
  let e := Z.land (Z.shiftr bits mbits) (2 ^ ebits - 1) in
  let m := Z.land bits (2 ^ mbits - 1) in
  let bias := 2 ^ (ebits - 1) - 1 in
  if e =? 2 ^ ebits - 1 then
    if m =? 0 then S754_infinity sign else S754_nan
  else if e =? 0 then
    match m with
    | Zpos p => S754_finite sign p (1 - bias - mbits)
    | _ => S754_zero sign
    end
  else
    match m + 2 ^ mbits with
    | Zpos p => S754_finite sign p (e - bias - mbits)
    | _ => S754_nan
    end.

(** [struct.unpack('>f', data)[0]] *)
Definition unpack_f (data : list byte) : result float :=
  if (length data =? 4)%nat then Ok (ieee_of_bits 8 23 (int_from_bytes data))
  else Raise StructError.

(** [struct.unpack('>d', data)[0]] *)
Definition unpack_d (data : list byte) : result float :=
  if (length data =? 8)%nat then Ok (ieee_of_bits 11 52 (int_from_bytes data))
  else Raise StructError.

(** *** UTF-8 *)

Definition is_cont (b : Z) : bool := (0x80 <=? b) && (b <=? 0xBF).

(** [data.decode('utf-8')]: strict; overlong forms, surrogates and code
    points above U+10FFFF are refused. [None] is [UnicodeDecodeError]. *)
Fixpoint utf8_decode (data : list byte) : option pystr :=
  match data with
  | [] => Some []
  | c0 :: r0 =>
    let b0 := byte_val c0 in
    if b0 <? 0x80 then
      match utf8_decode r0 with
      | Some s => Some (b0 :: s)
      | None => None
      end
    else if (0xC2 <=? b0) && (b0 <=? 0xDF) then
      match r0 with
      | c1 :: r1 =>
        let b1 := byte_val c1 in
        if is_cont b1 then
          match utf8_decode r1 with
          | Some s => Some (((b0 - 0xC0) * 64 + (b1 - 0x80)) :: s)
          | None => None
          end
        else None
      | _ => None
      end
    else if (0xE0 <=? b0) && (b0 <=? 0xEF) then
      match r0 with
      | c1 :: c2 :: r2 =>
        let b1 := byte_val c1 in
        let b2 := byte_val c2 in
        let cp := (b0 - 0xE0) * 4096 + (b1 - 0x80) * 64 + (b2 - 0x80) in
        if is_cont b1 && is_cont b2 && (0x800 <=? cp)
           && negb ((0xD800 <=? cp) && (cp <=? 0xDFFF)) then
          match utf8_decode r2 with
          | Some s => Some (cp :: s)
          | None => None
          end
        else None
      | _ => None
      end
    else if (0xF0 <=? b0) && (b0 <=? 0xF4) then
      match r0 with
      | c1 :: c2 :: c3 :: r3 =>
        let b1 := byte_val c1 in
        let b2 := byte_val c2 in
        let b3 := byte_val c3 in
        let cp := (b0 - 0xF0) * 262144 + (b1 - 0x80) * 4096
                  + (b2 - 0x80) * 64 + (b3 - 0x80) in
        if is_cont b1 && is_cont b2 && is_cont b3
           && (0x10000 <=? cp) && (cp <=? 0x10FFFF) then
          match utf8_decode r3 with
          | Some s => Some (cp :: s)
          | None => None
          end
        else None
      | _ => None
      end
    else None
  end.

(** *** Numbers *)

(** [float(n)] for an [int]: round to nearest even in binary64,
    [OverflowError] when the result is not finite. *)
Definition float_of_int (n : Z) : result float :=
  match binary_normalize 53 1024 n 0 false with
  | S754_infinity _ | S754_nan => Raise OverflowError
  | x => Ok x
  end.

(** [int(x)] for a [float]: truncation towards zero. *)
Definition int_of_float (x : float) : result Z :=
  match x with
  | S754_zero _ => Ok 0
  | S754_infinity _ => Raise OverflowError
  | S754_nan => Raise ValueError
  | S754_finite s m e =>
      let a := if 0 <=? e then Zpos m * 2 ^ e else Zpos m / 2 ^ (- e) in
      Ok (if s then - a else a)
  end.

Definition is_nan_or_inf (x : float) : bool :=
  match x with
  | S754_nan | S754_infinity _ => true
  | _ => false
  end.

(** [str(n)] for an [int]: its decimal digits. *)
Definition str_of_int (n : Z) : pystr :=
  py (NilZero.string_of_int (Z.to_int n)).

End Py.

(** ** The value codec: [MqttPublisher.extract_value] *)
Module Codec.
Import Py.
Local Open Scope Z_scope.

(** One application tag of a [tagList]. A field is [None] when the object
    has no such attribute (or the attribute is [None]). *)
Record tag := Tag {
  tag_number : option Z;
  tag_data : option (list byte)
}.

(** A library object as [extract_value] observes it: its [.value] attribute,
    its [str()] (the text, or the exception its [__str__] raises), and its
    [.tagList]. *)
Record bacnet_object := BacnetObject {
  attr_value : option pyval;
  str_repr : result pystr;
  attr_tagList : option (list tag)
}.

(** The argument of [extract_value]: a host value, or a library object. *)
Inductive bacnet_value :=
| Prim (v : pyval)
| Obj (o : bacnet_object).

(** [hasattr(tag, 'tag_data') and tag.tag_data and len(tag.tag_data) > 0] *)
Definition has_data (t : tag) : bool :=
  match tag_data t with
  | Some (_ :: _) => true
  | _ => false
  end.

(** The loop that looks for the tag with data, and the fall-back
    [if not data_tag and tag_list: data_tag = tag_list[0]]. *)
Definition find_data_tag (tag_list : list tag) : option tag :=
  match find has_data tag_list with
  | Some t => Some t
  | None => head tag_list
  end.

(** The [if tag_number == ...] chain. *)
Definition decode_tag (tag_number : Z) (tag_data : list byte) : result pyval :=
  if tag_number =? 1 then
    Ok (VBool (negb (byte_val (hd x00 tag_data) =? 0)))
  else if tag_number =? 2 then
    if (length tag_data =? 1)%nat then Ok (VInt (byte_val (hd x00 tag_data)))
    else if (length tag_data =? 2)%nat then
      try! n := unpack_H tag_data in Ok (VInt n)
    else if (length tag_data =? 4)%nat then
      try! n := unpack_I tag_data in Ok (VInt n)
    else Ok (VInt (int_from_bytes tag_data))
  else if tag_number =? 3 then
    if (length tag_data =? 1)%nat then
      try! n := unpack_b tag_data in Ok (VInt n)
    else if (length tag_data =? 2)%nat then
      try! n := unpack_h tag_data in Ok (VInt n)
    else if (length tag_data =? 4)%nat then
      try! n := unpack_i tag_data in Ok (VInt n)
    else Ok (VInt (int_from_bytes_signed tag_data))
  else if tag_number =? 4 then
    try! x := unpack_f tag_data in Ok (VFloat x)
  else if tag_number =? 5 then
    try! x := unpack_d tag_data in Ok (VFloat x)
  else if tag_number =? 7 then
    match utf8_decode tag_data with
    | Some s => Ok (VStr s)
    | None => Raise UnicodeDecodeError
    end
  else if tag_number =? 9 then
    Ok (VInt (int_from_bytes tag_data))
  else
    Ok VNone.                       (* "Unknown BACnet tag type" *)

(** The branch taken when the string form is an object representation. *)
Definition from_tagList (tagList : option (list tag)) : result pyval :=
  match tagList with
  | Some tag_list =>
    if (length tag_list =? 0)%nat then Ok VNone (* falsy: "no tagList" *)
    else
      match find_data_tag tag_list with
      | Some data_tag =>
        match tag_data data_tag, tag_number data_tag with
        | Some td, Some tn =>
          if (length td =? 0)%nat then Ok VNone (* "Empty tag data" *)
          else decode_tag tn td
        | None, Some _ => Ok VNone              (* not tag_data *)
        | _, None => Ok VNone                   (* end of the try block *)
        end
      | None => Ok VNone
      end
  | None => Ok VNone                            (* "no tagList" *)
  end.

Section Parsers.

(** The interpreter's [int(s)] and [float(s)] on a string; [None] is
    [ValueError]. *)
Variable int_of_str : pystr -> option Z.
Variable float_of_str : pystr -> option float.

(** The branch taken when the string form looks clean. *)
Definition from_clean_string (value_str : pystr) : result pyval :=
  let value_clean := strip value_str in
  let parsed :=
    if contains (py ".") value_clean
    then option_map VFloat (float_of_str value_clean)
    else option_map VInt (int_of_str value_clean) in
  match parsed with
  | Some v => Ok v
  | None =>                                     (* except ValueError *)
    if (length value_clean <? 100)%nat then Ok (VStr value_clean)
    else Ok VNone                               (* "String value too long" *)
  end.

Definition is_object_repr (value_str : pystr) : bool :=
  contains (py "bacpypes3") value_str && contains (py "object at") value_str.

Definition from_string (value_str : pystr) (tagList : option (list tag))
  : result pyval :=
  if is_object_repr value_str then from_tagList tagList
  else from_clean_string value_str.

(** The body of the [try] block. *)
Definition extract_value_body (bacnet_value : bacnet_value) : result pyval :=
  match bacnet_value with
  | Prim v =>
    if is_number v then Ok v
    else
      match v with
      | VStr s => from_string s None
      | VOther repr _ => from_string repr None
      | _ => from_string (py "None") None
      end
  | Obj o =>
    match attr_value o with
    | Some extracted =>
      if is_primitive extracted then Ok extracted
      else
        try! value_str := str_repr o in
        from_string value_str (attr_tagList o)
    | None =>
      try! value_str := str_repr o in
      from_string value_str (attr_tagList o)
    end
  end.

(** The f-string of [logger.debug] in the [except] handler formats
    [bacnet_value], that is, takes its [str()] once more, outside any
    [try]. *)
Definition format_in_handler (bacnet_value : bacnet_value) : result unit :=
  match bacnet_value with
  | Prim _ => Ok tt
  | Obj o => try! _ := str_repr o in Ok tt
  end.

(** [extract_value]: the body under [except Exception: ... return None]. *)
Definition extract_value (bacnet_value : bacnet_value) : result pyval :=
  match extract_value_body bacnet_value with
  | inr v => Ok v
  | inl _ => try! _ := format_in_handler bacnet_value in Ok VNone
  end.

End Parsers.

End Codec.

(** ** What the worker asks of bacpypes3 *)
Module Bacnet.
Import Py.
Local Open Scope Z_scope.

(** What [write_bacnet_value] prepares for [request.propertyValue]: what
    [Null()], [Real(x)] and [Unsigned(n)] give. *)
Inductive wire_value :=
| Null
| Real (x : float)
| Unsigned (n : Z).

(** The constructors of the library either build their object or raise.
    [Address] stands for [Address(f"{ip}:{port}")], [ObjectIdentifier] for
    [ObjectIdentifier(f"{type},{instance}")], [Unsigned_accepts] for the
    range check of [Unsigned(n)], and [propertyValue_accepts] for the
    assignment [request.propertyValue = write_value], which encodes the
    value or raises. *)
Record library := Library {
  Address : pyval -> Z -> bool;
  ObjectIdentifier : pyval -> pyval -> bool;
  Unsigned_accepts : Z -> bool;
  propertyValue_accepts : wire_value -> bool
}.

(** [obj_type_map] of [read_with_retry]. *)
Definition obj_type_map_read : list (string * string) :=
  [ ("analog-input", "analogInput");
    ("analog-output", "analogOutput");
    ("analog-value", "analogValue");
    ("binary-input", "binaryInput");
    ("binary-output", "binaryOutput");
    ("binary-value", "binaryValue");
    ("multi-state-input", "multiStateInput");
    ("multi-state-output", "multiStateOutput");
    ("multi-state-value", "multiStateValue");
    ("date-value", "dateValue") ]%string.

(** [obj_type_map] of [write_bacnet_value]. *)
Definition obj_type_map_write : list (string * string) :=
  [ ("analog-input", "analogInput");
    ("analog-output", "analogOutput");
    ("analog-value", "analogValue");
    ("binary-input", "binaryInput");
    ("binary-output", "binaryOutput");
    ("binary-value", "binaryValue");
    ("multi-state-input", "multiStateInput");
    ("multi-state-output", "multiStateOutput");
    ("multi-state-value", "multiStateValue") ]%string.

Definition pystr_eqb (a b : pystr) : bool := bool_decide (a = b).

(** [table.get(key, key)] *)
Fixpoint map_get (table : list (string * string)) (key : pystr) : pystr :=
  match table with
  | [] => key
  | (k, v) :: table' =>
      if pystr_eqb (py k) key then py v else map_get table' key
  end.

(** [obj_type_map.get(object_type, object_type)] when [object_type] may be
    [None] or not a string: only strings can be keys of the table. *)
Definition map_get_val (table : list (string * string)) (object_type : pyval)
  : pyval :=
  match object_type with
  | VStr s => VStr (map_get table s)
  | v => v
  end.

End Bacnet.

(** ** [MqttPublisher.read_with_retry] *)
Module Retry.
Import Py Codec Bacnet.
Local Open Scope Z_scope.

(** The retry configuration set in [__init__]. *)
Record retry_config := RetryConfig {
  max_retries : nat;
  base_timeout : Z;             (* milliseconds *)
  exponential_backoff : bool
}.

Definition self_config : retry_config :=
  {| max_retries := 3; base_timeout := 6000; exponential_backoff := true |}.

(** What one [await asyncio.wait_for(self.bacnet_app.request(request), ...)]
    gives. *)
Inductive reply :=
| TimeoutError                       (* asyncio.TimeoutError *)
| OtherException                     (* any other Exception *)
| NoPropertyValue                    (* falsy, or no [propertyValue] *)
| PropertyValue (v : bacnet_value).  (* [response.propertyValue] *)

(** The network, asked at attempt [attempt] with [timeout] milliseconds. *)
Definition network := nat -> Z -> reply.

(** What the call does that can be observed from outside. *)
Inductive event :=
| Request (attempt : nat) (timeout : Z)
| Sleep (ms : Z).

Section Read.

Variable int_of_str : pystr -> option Z.
Variable float_of_str : pystr -> option float.
Variable self : retry_config.
Variable net : network.

(** "Calculate timeout" *)
Definition timeout_of (attempt : nat) : Z :=
  if exponential_backoff self && (0 <? attempt)%nat
  then base_timeout self * 2 ^ (Z.of_nat attempt - 1)
  else base_timeout self.

(** [if attempt < self.max_retries: await asyncio.sleep(0.5)] *)
Definition sleep_before_retry (attempt : nat) : list event :=
  if (attempt <? max_retries self)%nat then [Sleep 500] else [].

(** The [for attempt in range(...)] loop; after the loop the function
    returns [None]. *)
Fixpoint retry_loop (attempts : list nat) : pyval * list event :=
  match attempts with
  | [] => (VNone, [])
  | attempt :: rest =>
    let timeout := timeout_of attempt in
    match net attempt timeout with
    | PropertyValue pv =>
      match extract_value int_of_str float_of_str pv with
      | inr value => (value, [Request attempt timeout])
      | inl _ =>
        let '(r, tr) := retry_loop rest in
        (r, Request attempt timeout :: sleep_before_retry attempt ++ tr)
      end
    | NoPropertyValue =>
      let '(r, tr) := retry_loop rest in
      (r, Request attempt timeout :: tr)
    | TimeoutError | OtherException =>
      let '(r, tr) := retry_loop rest in
      (r, Request attempt timeout :: sleep_before_retry attempt ++ tr)
    end
  end.

(** [read_with_retry]: the address and the object identifier are built
    before the loop, outside any [try]. *)
Definition read_with_retry (lib : library) (device_ip : pystr)
    (device_port : Z) (object_type : pystr) (object_instance : Z)
  : result pyval * list event :=
  let obj_type_bacnet := map_get obj_type_map_read object_type in
  if negb (Address lib (VStr device_ip) device_port) then
    (Raise LibraryError, [])
  else if negb (ObjectIdentifier lib (VStr obj_type_bacnet)
                  (VInt object_instance)) then
    (Raise LibraryError, [])
  else
    let '(r, tr) := retry_loop (seq 0 (max_retries self + 1)) in
    (Ok r, tr).

End Read.

(** The requests of a trace, in order. *)
Definition requests (tr : list event) : list (nat * Z) :=
  flat_map (fun e => match e with
                     | Request a t => [(a, t)]
                     | Sleep _ => []
                     end) tr.

End Retry.

(** ** [write_bacnet_value] and [execute_write_command] *)
Module Writer.
Import Py Bacnet.
Local Open Scope Z_scope.

Section Write.

Variable int_of_str : pystr -> option Z.
Variable float_of_str : pystr -> option float.
Variable lib : library.

(** [float(value)] *)
Definition py_float (value : pyval) : result float :=
  match value with
  | VNone => Raise TypeError
  | VBool b => float_of_int (if b then 1 else 0)
  | VInt n => float_of_int n
  | VFloat x => Ok x
  | VStr s =>
    match float_of_str s with
    | Some x => Ok x
    | None => Raise ValueError
    end
  | VOther _ _ => Raise TypeError
  end.

(** [int(value)] *)
Definition py_int (value : pyval) : result Z :=
  match value with
  | VNone => Raise TypeError
  | VBool b => Ok (if b then 1 else 0)
  | VInt n => Ok n
  | VFloat x => int_of_float x
  | VStr s =>
    match int_of_str s with
    | Some n => Ok n
    | None => Raise ValueError
    end
  | VOther _ _ => Raise TypeError
  end.

(** [Unsigned(n)] *)
Definition mk_Unsigned (n : Z) : result wire_value :=
  if Unsigned_accepts lib n then Ok (Unsigned n) else Raise LibraryError.

Definition multi_state_types : list pystr :=
  [py "multi-state-input"; py "multi-state-output"; py "multi-state-value"].

(** [object_type in [...]] *)
Definition in_list (s : pystr) (l : list pystr) : bool :=
  existsb (pystr_eqb s) l.

(** "Prepare value based on type and release flag". [object_type] is [None]
    when the command has no string there: [in] then raises [TypeError]. *)
Definition prepare_value (object_type : option pystr) (value release : pyval)
  : result wire_value :=
  if truthy release then Ok Null
  else
    match object_type with
    | None => Raise TypeError
    | Some object_type =>
      if contains (py "analog") object_type
         || in_list object_type multi_state_types then
        if contains (py "multi-state") object_type then
          try! n := py_int value in mk_Unsigned n
        else
          try! x := py_float value in Ok (Real x)
      else if contains (py "binary") object_type then
        mk_Unsigned (if truthy value then 1 else 0)
      else
        try! x := py_float value in Ok (Real x)
    end.

(** A [WritePropertyRequest] on [presentValue] handed to the application. *)
Record write_request := WriteRequest {
  w_device_ip : pyval;
  w_device_port : Z;
  w_object_type : pyval;
  w_object_instance : pyval;
  w_value : wire_value
}.

(** What [await asyncio.wait_for(self.bacnet_app.request(request), 10.0)]
    gives. *)
Inductive write_reply :=
| WriteAnswered
| WriteTimeout
| WriteFailed.

Variable net : write_request -> write_reply.

Inductive write_error :=
| ErrTimeout      (* "BACnet write request timeout (10s)" *)
| ErrWriteFailed  (* "BACnet write failed: ..." *)
| ErrWriteError.  (* "BACnet write error: ..." *)

Definition opt_str (s : option pystr) : pyval :=
  match s with
  | Some s => VStr s
  | None => VNone
  end.

(** [write_bacnet_value]: the result pair and the requests issued. Every
    exception raised before the request is sent ends in the outer [except]:
    "BACnet write error". *)
Definition write_bacnet_value (device_ip : pyval) (device_port : Z)
    (object_type : option pystr) (object_instance value : pyval)
    (priority release : pyval)
  : (bool * option write_error) * list write_request :=
  let obj_type_bacnet := map_get_val obj_type_map_write (opt_str object_type) in
  if negb (Address lib device_ip device_port) then
    ((false, Some ErrWriteError), [])
  else if negb (ObjectIdentifier lib obj_type_bacnet object_instance) then
    ((false, Some ErrWriteError), [])
  else
    match prepare_value object_type value release with
    | inl _ => ((false, Some ErrWriteError), [])
    | inr write_value =>
      (* request.propertyValue = write_value *)
      if negb (propertyValue_accepts lib write_value) then
        ((false, Some ErrWriteError), [])
      else
        let request := {| w_device_ip := device_ip;
                          w_device_port := device_port;
                          w_object_type := obj_type_bacnet;
                          w_object_instance := object_instance;
                          w_value := write_value |} in
        match net request with
        | WriteAnswered => ((true, None), [request])
        | WriteTimeout => ((false, Some ErrTimeout), [request])
        | WriteFailed => ((false, Some ErrWriteFailed), [request])
        end
    end.

(** A command taken from the queue: [command.get(...)] of each key, [None]
    when the key is absent. *)
Record WriteCommand := {
  jobId : option pystr;
  deviceIp : option pystr;
  deviceId : option Z;
  objectType : option pystr;
  objectInstance : option Z;
  value : pyval;
  priority : option Z;
  release : option bool;
  pointName : option pystr
}.

Definition opt_int (n : option Z) : pyval :=
  match n with
  | Some n => VInt n
  | None => VNone
  end.

(** The message published on [bacnet/write/result]. *)
Record WriteResult := {
  r_jobId : option pystr;
  r_success : bool;
  r_error : option write_error;
  r_deviceId : option Z;
  r_pointName : pystr;
  r_value : pyval;
  r_priority : Z;
  r_release : bool
}.

(** [execute_write_command]: the requests issued and the results
    published. *)
Definition execute_write_command (command : WriteCommand)
  : list write_request * list WriteResult :=
  let priority := default 8 (priority command) in
  let release := default false (release command) in
  let point_name := default (py "Unknown") (pointName command) in
  let '((success, error_msg), issued) :=
    write_bacnet_value (opt_str (deviceIp command)) 47808
      (objectType command) (opt_int (objectInstance command))
      (value command) (VInt priority) (VBool release) in
  (issued,
   [ {| r_jobId := jobId command;
        r_success := success;
        r_error := if success then None else error_msg;
        r_deviceId := deviceId command;
        r_pointName := point_name;
        r_value := value command;
        r_priority := priority;
        r_release := release |} ]).

(** [process_write_commands]: the queue is drained front first. *)
Fixpoint process_write_commands (pending : list WriteCommand)
  : list write_request * list WriteResult :=
  match pending with
  | [] => ([], [])
  | command :: rest =>
    let '(i1, p1) := execute_write_command command in
    let '(i2, p2) := process_write_commands rest in
    (i1 ++ i2, p1 ++ p2)
  end.

End Write.

(** *** The validation of section 4.7, step 1, in the words of the
    specification *)

Definition recognized_types : list pystr :=
  map (fun kv => py (fst kv)) obj_type_map_write.

Definition present {A} (o : option A) : bool :=
  match o with
  | Some _ => true
  | None => false
  end.

Definition spec_required_fields_present (c : WriteCommand) : bool :=
  present (jobId c) && present (deviceIp c) && present (deviceId c)
  && present (objectType c) && present (objectInstance c).

Definition spec_objectType_recognized (c : WriteCommand) : bool :=
  match objectType c with
  | Some t => in_list t recognized_types
  | None => false
  end.

Definition spec_objectInstance_ok (c : WriteCommand) : bool :=
  match objectInstance c with
  | Some n => 0 <=? n
  | None => false
  end.

Definition spec_priority_ok (c : WriteCommand) : bool :=
  match priority c with
  | Some p => (1 <=? p) && (p <=? 16)
  | None => true
  end.

Definition spec_valid_command (c : WriteCommand) : bool :=
  spec_required_fields_present c && spec_objectType_recognized c
  && spec_objectInstance_ok c && spec_priority_ok c.

(** The same command with another [priority]. *)
Definition with_priority (p : option Z) (c : WriteCommand) : WriteCommand :=
  {| jobId := jobId c; deviceIp := deviceIp c; deviceId := deviceId c;
     objectType := objectType c; objectInstance := objectInstance c;
     value := value c; priority := p; release := release c;
     pointName := pointName c |}.

(** The three families of the encoding contract, by the names the worker
    knows ([obj_type_map]). *)
Inductive family := Analog | Binary | MultiState.

Definition family_of (object_type : pystr) : option family :=
  if in_list object_type
       [py "analog-input"; py "analog-output"; py "analog-value"]
  then Some Analog
  else if in_list object_type
       [py "binary-input"; py "binary-output"; py "binary-value"]
  then Some Binary
  else if in_list object_type multi_state_types then Some MultiState
  else None.

(** The wire value of the encoding contract for a family:
    [Real(float(value))], [Unsigned(1 if value else 0)],
    [Unsigned(int(value))]. *)
Definition family_value (int_of_str : pystr -> option Z)
    (float_of_str : pystr -> option float) (lib : library) (f : family)
    (value : pyval) : result wire_value :=
  match f with
  | Analog => try! x := py_float float_of_str value in Ok (Real x)
  | Binary => mk_Unsigned lib (if truthy value then 1 else 0)
  | MultiState => try! n := py_int int_of_str value in mk_Unsigned lib n
  end.

End Writer.

(** ** [publish_individual_topic] *)
Module Publisher.
Import Py.
Local Open Scope Z_scope.

(** A row of [get_enabled_points]: a point joined with its device. The
    three equipment tags are texts, as [publish_equipment_batch] declares
    them ([site_id: str, equipment_type: str, equipment_id: str]), or
    [None]. *)
Record Point := {
  id : pystr;
  objectType : pystr;
  objectInstance : Z;
  pointName : pystr;
  dis : pyval;
  units : pyval;
  mqttTopic : option pystr;
  pollInterval : Z;               (* seconds *)
  qos : Z;
  haystackPointName : pyval;
  siteId : option pystr;
  equipmentType : option pystr;
  equipmentId : option pystr;
  deviceId : Z;
  ipAddress : pystr;
  port : Z
}.

(** The dictionary handed to [json.dumps]. *)
Record payload := {
  p_value : pyval;
  p_timestamp : pystr;
  p_units : pyval;
  p_quality : pystr;
  p_dis : pyval;
  p_haystackName : pyval;
  p_deviceIp : pystr;
  p_deviceId : Z;
  p_objectType : pystr;
  p_objectInstance : Z
}.

(** One [mqtt_client.publish(topic, payload, qos, retain)]. *)
Record publication := {
  topic : pystr;
  message : payload;
  pub_qos : Z;
  retain : bool
}.

(** [not point['mqttTopic']] *)
Definition no_topic (point : Point) : bool :=
  match mqttTopic point with
  | None => true
  | Some t => (length t =? 0)%nat
  end.

(** "Ensure value is JSON-serializable": [bool] is an [int], so the first
    branch takes it. *)
Definition clean_value (value : pyval) : result pyval :=
  match value with
  | VInt n => try! x := float_of_int n in Ok (VFloat x)
  | VBool b => try! x := float_of_int (if b then 1 else 0) in Ok (VFloat x)
  | VFloat x => Ok (VFloat x)
  | VStr s => Ok (VStr s)
  | VOther repr _ => Ok (VStr repr)
  | VNone => Ok (VStr (py "None"))
  end.

(** [isinstance(value, str) and ("bacpypes3" in value or "object at" in value)] *)
Definition is_object_string (value : pyval) : bool :=
  match value with
  | VStr s => contains (py "bacpypes3") s || contains (py "object at") s
  | _ => false
  end.

Section Publish.

Variable mqtt_connected : bool.
(** Whether [mqtt_client.publish] takes the message, or raises. *)
Variable broker : publication -> bool.

Definition publish_individual_topic (point : Point) (value : pyval)
    (timestamp : pystr) : bool * list publication :=
  if no_topic point || negb mqtt_connected then (false, [])
  else
    match value with
    | VNone => (false, [])
    | _ =>
      if is_object_string value then (false, [])
      else
        match clean_value value with
        | inl _ => (false, [])
        | inr clean =>
          let pub :=
            {| topic := default [] (mqttTopic point);
               message := {| p_value := clean;
                             p_timestamp := timestamp;
                             p_units := units point;
                             p_quality := py "good";
                             p_dis := dis point;
                             p_haystackName := haystackPointName point;
                             p_deviceIp := ipAddress point;
                             p_deviceId := deviceId point;
                             p_objectType := objectType point;
                             p_objectInstance := objectInstance point |};
               pub_qos := qos point;
               retain := false |} in
          if broker pub then (true, [pub]) else (false, [])
        end
    end.

End Publish.

End Publisher.

(** ** [poll_and_publish]: the per-point scheduler and the equipment
    batches *)
Module Scheduler.
Import Py Bacnet Retry Publisher.

(** One entry of [points_data]. *)
Record point_data := {
  d_name : pystr;
  d_dis : pyval;
  d_haystackName : pyval;
  d_value : pyval;
  d_units : pyval;
  d_quality : pystr;
  d_objectType : pystr;
  d_objectInstance : Z
}.

(** [(site_id, equipment_type, equipment_id)] *)
Definition equipment_key : Type := pystr * pystr * pystr.

(** The dictionary [publish_equipment_batch] hands to [json.dumps]. *)
Record batch_payload := {
  b_timestamp : pystr;
  b_site : pystr;
  b_equipment : pystr;
  b_equipmentType : pystr;
  b_equipmentId : pystr;
  b_points : list point_data;
  b_pollCycle : nat;
  b_totalPoints : nat;
  b_successfulReads : nat;
  b_failedReads : nat;
  b_pollDuration : Q
}.

(** One [mqtt_client.publish] of [publish_equipment_batch]. *)
Record batch_publication := {
  b_topic : pystr;
  b_message : batch_payload;
  b_qos : Z;
  b_retain : bool
}.

(** What the batches of a tick depend on besides the readings. *)
Record batch_settings := {
  enable_batch_publishing : bool;   (* [self.enable_batch_publishing] *)
  poll_cycle : nat;                 (* [self.poll_cycle] when the tick starts *)
  poll_duration : Q;                (* [round(time.time() - cycle_start, 2)] *)
  str_lower : pystr -> pystr;       (* [str.lower] *)
  batch_broker : batch_publication -> bool
    (* whether [json.dumps] and [mqtt_client.publish] take the batch, or
       raise *)
}.

(** [self.point_last_poll], the counters of one tick, [equipment_groups]
    (a dict, so its keys in insertion order), and what the tick sent to the
    BACnet network and to the broker. The update of the [Point] row sits
    in a [try] of its own and touches none of these fields. *)
Record state := State {
  point_last_poll : gmap pystr Q;
  total_reads : nat;
  successful_reads : nat;
  failed_reads : nat;
  skipped_reads : nat;
  individual_publishes : nat;
  bacnet_log : list (pystr * list event);
  mqtt_log : list publication;
  equipment_groups : list (equipment_key * list point_data);
  batch_publishes : nat;
  batch_log : list batch_publication
}.

Definition start_tick (last_poll : gmap pystr Q) : state :=
  State last_poll 0 0 0 0 0 [] [] [] 0 [].

(** [math.ceil(current_time / 60) * 60] *)
Definition next_minute (current_time : Q) : Z :=
  (Qceiling (current_time / 60) * 60)%Z.

Definition Qlt_bool (x y : Q) : bool := negb (Qle_bool y x).

(** [time_since_last_poll < poll_interval] *)
Definition not_yet_due (current_time last_poll : Q) (poll_interval : Z)
  : bool :=
  Qlt_bool (current_time - last_poll) (inject_Z poll_interval).

(** [point['siteId'] and point['equipmentType'] and point['equipmentId']]:
    the key of the group when the three tags are there and not empty. *)
Definition equipment_key_of (point : Point) : option equipment_key :=
  match siteId point, equipmentType point, equipmentId point with
  | Some ((_ :: _) as site_id), Some ((_ :: _) as equipment_type),
    Some ((_ :: _) as equipment_id) =>
    Some (site_id, equipment_type, equipment_id)
  | _, _, _ => None
  end.

(** [float(value) if isinstance(value, (int, float)) else value]; [bool]
    is an [int]. *)
Definition batch_value (value : pyval) : result pyval :=
  match value with
  | VInt n => try! x := float_of_int n in Ok (VFloat x)
  | VBool b => try! x := float_of_int (if b then 1 else 0) in Ok (VFloat x)
  | v => Ok v
  end.

(** [point_data] of "Prepare for batch". *)
Definition point_data_of (point : Point) (value : pyval)
  : result point_data :=
  try! v := batch_value value in
  Ok {| d_name := objectType point ++ str_of_int (objectInstance point);
        d_dis := dis point;
        d_haystackName := haystackPointName point;
        d_value := v;
        d_units := units point;
        d_quality := py "good";
        d_objectType := objectType point;
        d_objectInstance := objectInstance point |}.

(** [equipment_groups[equipment_key].append(point_data)] *)
Fixpoint group_append (key : equipment_key) (d : point_data)
    (groups : list (equipment_key * list point_data))
  : list (equipment_key * list point_data) :=
  match groups with
  | [] => [(key, [d])]
  | (k, ds) :: rest =>
    if decide (k = key) then (k, ds ++ [d]) :: rest
    else (k, ds) :: group_append key d rest
  end.

(** [s.replace(' ', '_')] *)
Definition replace_space (s : pystr) : pystr :=
  map (fun c => if (c =? 32)%Z then 95%Z else c) s.

Section Tick.

Variable int_of_str : pystr -> option Z.
Variable float_of_str : pystr -> option float.
Variable self : retry_config.
Variable lib : library.
Variable net : Point -> network.
Variable mqtt_connected : bool.
Variable broker : publication -> bool.
Variable current_time : Q.
Variable timestamp : pystr.
Variable batch : batch_settings.

Definition skip (st : state) : state :=
  State (point_last_poll st) (total_reads st) (successful_reads st)
        (failed_reads st) (S (skipped_reads st)) (individual_publishes st)
        (bacnet_log st) (mqtt_log st) (equipment_groups st)
        (batch_publishes st) (batch_log st).

(** "Prepare for batch": [float(value)] is not in a [try]; its
    [OverflowError] leaves the loop. *)
Definition prepare_for_batch (point : Point) (value : pyval) (st : state)
  : state * option exn :=
  match equipment_key_of point with
  | None => (st, None)
  | Some key =>
    match point_data_of point value with
    | inl e => (st, Some e)
    | inr d =>
      (State (point_last_poll st) (total_reads st) (successful_reads st)
             (failed_reads st) (skipped_reads st) (individual_publishes st)
             (bacnet_log st) (mqtt_log st)
             (group_append key d (equipment_groups st))
             (batch_publishes st) (batch_log st),
       None)
    end
  end.

(** The body of [for point in points]. The second component is the
    exception that leaves the loop, if any. *)
Definition poll_point (point : Point) (st : state) : state * option exn :=
  let point_id := id point in
  let poll_interval := pollInterval point in
  match point_last_poll st !! point_id with
  | None =>
    (* new point: poll at the next minute boundary, skip now *)
    (skip (State (<[point_id :=
                      inject_Z (next_minute current_time - poll_interval)]>
                    (point_last_poll st))
                 (total_reads st) (successful_reads st) (failed_reads st)
                 (skipped_reads st) (individual_publishes st)
                 (bacnet_log st) (mqtt_log st) (equipment_groups st)
                 (batch_publishes st) (batch_log st)),
     None)
  | Some last_poll =>
    if not_yet_due current_time last_poll poll_interval then (skip st, None)
    else
      let '(r, tr) :=
        read_with_retry int_of_str float_of_str self (net point) lib
          (ipAddress point) (port point) (objectType point)
          (objectInstance point) in
      let log := bacnet_log st ++ [(point_id, tr)] in
      match r with
      | inl e =>
        (State (point_last_poll st) (S (total_reads st))
               (successful_reads st) (failed_reads st) (skipped_reads st)
               (individual_publishes st) log (mqtt_log st)
               (equipment_groups st) (batch_publishes st) (batch_log st),
         Some e)
      | inr VNone =>
        (State (point_last_poll st) (S (total_reads st))
               (successful_reads st) (S (failed_reads st)) (skipped_reads st)
               (individual_publishes st) log (mqtt_log st)
               (equipment_groups st) (batch_publishes st) (batch_log st),
         None)
      | inr value =>
        let '(published, pubs) :=
          publish_individual_topic mqtt_connected broker point value
            timestamp in
        prepare_for_batch point value
          (State (<[point_id := current_time]> (point_last_poll st))
                 (S (total_reads st)) (S (successful_reads st))
                 (failed_reads st) (skipped_reads st)
                 (if published then S (individual_publishes st)
                  else individual_publishes st)
                 log (mqtt_log st ++ pubs)
                 (equipment_groups st) (batch_publishes st) (batch_log st))
      end
  end.

Fixpoint poll_points (points : list Point) (st : state)
  : state * option exn :=
  match points with
  | [] => (st, None)
  | point :: rest =>
    match poll_point point st with
    | (st', None) => poll_points rest st'
    | (st', Some e) => (st', Some e)
    end
  end.

(** [publish_equipment_batch]: [True] and the message sent, or [False]. It
    does not look at [self.mqtt_connected]. *)
Definition publish_equipment_batch (key : equipment_key)
    (points_data : list point_data) : bool * list batch_publication :=
  let '(site_id, equipment_type, equipment_id) := key in
  let site_normalized := replace_space (str_lower batch site_id) in
  let equipment_type_normalized := str_lower batch equipment_type in
  let equipment_name := equipment_type_normalized ++ py "_" ++ equipment_id in
  let batch_topic := site_normalized ++ py "/" ++ equipment_name ++ py "/batch" in
  let pub :=
    {| b_topic := batch_topic;
       b_message := {| b_timestamp := timestamp;
                       b_site := site_id;
                       b_equipment := equipment_name;
                       b_equipmentType := equipment_type;
                       b_equipmentId := equipment_id;
                       b_points := points_data;
                       b_pollCycle := poll_cycle batch;
                       b_totalPoints := length points_data;
                       b_successfulReads := length points_data;
                       b_failedReads := 0;
                       b_pollDuration := poll_duration batch |};
       b_qos := 1;
       b_retain := false |} in
  if batch_broker batch pub then (true, [pub]) else (false, []).

(** One iteration of [for ... in equipment_groups.items()]. *)
Definition publish_group (st : state)
    (group : equipment_key * list point_data) : state :=
  let '(published, pubs) := publish_equipment_batch (fst group) (snd group) in
  State (point_last_poll st) (total_reads st) (successful_reads st)
        (failed_reads st) (skipped_reads st) (individual_publishes st)
        (bacnet_log st) (mqtt_log st) (equipment_groups st)
        (if published then S (batch_publishes st) else batch_publishes st)
        (batch_log st ++ pubs).

(** "Publish equipment batches (only if enabled in settings)" *)
Definition publish_batches (st : state) : state :=
  if enable_batch_publishing batch
  then fold_left publish_group (equipment_groups st) st
  else st.

(** [poll_and_publish] on the points [get_enabled_points] returned, from
    the [point_last_poll] the previous ticks left. An exception that leaves
    the loop leaves the function: no batch is published then. *)
Definition poll_and_publish (points : list Point) (last_poll : gmap pystr Q)
  : state * option exn :=
  match poll_points points (start_tick last_poll) with
  | (st, None) => (publish_batches st, None)
  | (st, Some e) => (st, Some e)
  end.

(** [if total_reads > 0: self.poll_cycle += 1]: [self.poll_cycle] after a
    tick that ended in [st]. *)
Definition poll_cycle_after (st : state) : nat :=
  if (0 <? total_reads st)%nat then S (poll_cycle batch)
  else poll_cycle batch.

End Tick.

(** When the point is next due: the first instant at which
    [time_since_last_poll < poll_interval] is false. *)
Definition next_due (last_poll : Q) (poll_interval : Z) : Q :=
  last_poll + inject_Z poll_interval.

End Scheduler.

(** ** The sink bridge: [mqtt_to_timescaledb.py] *)
Module Sink.
Import Py.

(** The decoded payload of a message. [timestamp] and [haystackName] are a
    string or absent, as the worker publishes them; the other keys are
    copied to the row as they are. *)
Record payload := {
  timestamp : option pystr;
  haystackName : option pystr;
  value : pyval;
  quality : option pystr
}.

(** [msg.payload] after [json.loads]. *)
Inductive message :=
| InvalidJson                 (* json.JSONDecodeError *)
| NotAnObject                 (* no [.get]: AttributeError *)
| Json (p : payload).

Definition key : Type := option pystr * option pystr.

(** [timestamp.replace('Z', '+00:00')] *)
Definition replace_Z (s : pystr) : pystr :=
  flat_map (fun c => if (c =? 90)%Z then py "+00:00" else [c]) s.

(** [timestamp[:19] if timestamp and len(timestamp) >= 19 else timestamp] *)
Definition timestamp_second (timestamp : option pystr) : option pystr :=
  match timestamp with
  | Some s => if (19 <=? length s)%nat then Some (take 19 s) else Some s
  | None => None
  end.

Definition dedup_key (p : payload) : key :=
  (haystackName p, timestamp_second (timestamp p)).

(** [for _ in range(n): seen_messages.pop(next(iter(seen_messages)), None)] *)
Fixpoint pop_oldest (n : nat) (seen : list key) : list key :=
  match n with
  | O => seen
  | S n' => pop_oldest n' (tail seen)
  end.

Section Bridge.

Variable datetime : Type.
(** [datetime.fromisoformat]; [None] is [ValueError]. *)
Variable fromisoformat : pystr -> option datetime.

(** A row of [sensor_readings]. *)
Record row := {
  time : datetime;
  source : payload
}.

(** The globals of the module: [stats], [seen_messages] (a dict, so its
    keys in insertion order), and the table behind [db_conn]. *)
Record state := State {
  messages_received : nat;
  messages_written : nat;
  errors : nat;
  seen_messages : list key;
  sensor_readings : list row
}.

Definition initial : state := State 0 0 0 [] [].

(** What the outside gives while one message is handled: the clock, and
    whether [cursor.execute] succeeds. *)
Record world := {
  utcnow : datetime;
  insert_succeeds : bool
}.

(** [insert_sensor_reading]: the exception is logged, a reconnect is tried,
    nothing is raised. *)
Definition insert_sensor_reading (w : world) (data : row) (table : list row)
  : list row :=
  if insert_succeeds w then table ++ [data] else table.

(** "Parse ISO timestamp": falsy is [None] or the empty string. *)
Definition parse_time (w : world) (timestamp : option pystr)
  : option datetime :=
  match timestamp with
  | Some ((_ :: _) as s) => fromisoformat (replace_Z s)
  | _ => Some (utcnow w)
  end.

Definition on_message (w : world) (msg : message) (st : state) : state :=
  let received := S (messages_received st) in
  let failed :=
    State received (messages_written st) (S (errors st))
          (seen_messages st) (sensor_readings st) in
  match msg with
  | InvalidJson => failed
  | NotAnObject => failed
  | Json p =>
    match parse_time w (timestamp p) with
    | None => failed
    | Some dt =>
      let k := dedup_key p in
      if bool_decide (k ∈ seen_messages st) then
        State received (messages_written st) (errors st)
              (seen_messages st) (sensor_readings st)
      else
        let seen := seen_messages st ++ [k] in
        let seen :=
          if (1000 <? length seen)%nat then pop_oldest 100 seen else seen in
        let data := {| time := dt; source := p |} in
        State received (S (messages_written st)) (errors st) seen
              (insert_sensor_reading w data (sensor_readings st))
    end
  end.

(** The messages of a stream, handled in order. *)
Definition run (stream : list (world * message)) (st : state) : state :=
  fold_left (fun st wm => on_message (fst wm) (snd wm) st) stream st.

(** The key of a message that reaches the de-duplication check. *)
Definition checked_key (w : world) (msg : message) : option key :=
  match msg with
  | Json p =>
    match parse_time w (timestamp p) with
    | Some _ => Some (dedup_key p)
    | None => None
    end
  | _ => None
  end.

Definition stream_keys (stream : list (world * message)) : list key :=
  omap (fun wm => checked_key (fst wm) (snd wm)) stream.

Definition row_key (r : row) : key := dedup_key (source r).

End Bridge.

Arguments time {datetime} _.
Arguments source {datetime} _.
Arguments State {datetime} _ _ _ _ _.
Arguments messages_received {datetime} _.
Arguments messages_written {datetime} _.
Arguments errors {datetime} _.
Arguments seen_messages {datetime} _.
Arguments sensor_readings {datetime} _.
Arguments initial {datetime}.
Arguments utcnow {datetime} _.
Arguments insert_succeeds {datetime} _.
Arguments insert_sensor_reading {datetime} _ _ _.
Arguments parse_time {datetime} _ _ _.
Arguments on_message {datetime} _ _ _ _.
Arguments run {datetime} _ _ _.
Arguments checked_key {datetime} _ _ _.
Arguments stream_keys {datetime} _ _.
Arguments row_key {datetime} _.

End Sink.

(** ** The decoding contract of section 4.1, in the words of the
    specification *)
Module CodecSpec.
Import Py Codec.
Local Open Scope Z_scope.

(** The most significant byte comes first. *)
Fixpoint big_endian_unsigned (data : list byte) : Z :=
  match data with
  | [] => 0
  | b :: rest =>
    byte_val b * 256 ^ Z.of_nat (length rest) + big_endian_unsigned rest
  end.

(** Two's complement on the width of the data. *)
Definition big_endian_signed (data : list byte) : Z :=
  let u := big_endian_unsigned data in
  let width := 8 * Z.of_nat (length data) in
  if u <? 2 ^ (width - 1) then u else u - 2 ^ width.

(** The table of tag numbers; [VNone] is a decode failure. *)
Definition spec_decode (tag_number : Z) (data : list byte) : pyval :=
  match tag_number with
  | 1 => VBool (negb (byte_val (hd x00 data) =? 0))
  | 2 => VInt (big_endian_unsigned data)
  | 3 => VInt (big_endian_signed data)
  | 4 =>
    if (length data =? 4)%nat
    then VFloat (ieee_of_bits 8 23 (big_endian_unsigned data))
    else VNone
  | 5 =>
    if (length data =? 8)%nat
    then VFloat (ieee_of_bits 11 52 (big_endian_unsigned data))
    else VNone
  | 7 =>
    match utf8_decode data with
    | Some s => VStr s
    | None => VNone
    end
  | 9 => VInt (big_endian_unsigned data)
  | _ => VNone
  end.

(** Whether the payload is passed through as a host primitive: it is a
    number, or its [.value] is a number or a string. *)
Definition passed_through (bv : bacnet_value) : bool :=
  match bv with
  | Prim v => is_number v
  | Obj o =>
    match attr_value o with
    | Some v => is_primitive v
    | None => false
    end
  end.

(** The string form of a payload that is not passed through as a host
    primitive, with the tags it carries; there is none when [str()]
    raises. *)
Definition string_form (bv : bacnet_value)
  : option (pystr * option (list tag)) :=
  if passed_through bv then None
  else
    match bv with
    | Prim (VStr s) => Some (s, None)
    | Prim (VOther repr _) => Some (repr, None)
    | Prim _ => Some (py "None", None)
    | Obj o =>
      match str_repr o with
      | inr s => Some (s, attr_tagList o)
      | inl _ => None
      end
    end.

(** [str()] of the payload is needed and raises. *)
Definition str_raises (bv : bacnet_value) : Prop :=
  passed_through bv = false
  /\ match bv with
     | Prim _ => False
     | Obj o => exists e, str_repr o = Raise e
     end.

(** The first tag carrying non-empty [tag_data]. *)
Definition first_tag_with_data (tags : list tag) : option (Z * list byte) :=
  match find has_data tags with
  | Some t =>
    match tag_number t, tag_data t with
    | Some n, Some data => Some (n, data)
    | _, _ => None
    end
  | None => None
  end.

Definition well_formed (t : tag) : Prop :=
  is_Some (tag_number t) /\ is_Some (tag_data t).

(** What the decoder may return. *)
Definition host_or_none (v : pyval) : Prop :=
  match v with
  | VNone | VBool _ | VInt _ | VFloat _ | VStr _ => True
  | VOther _ _ => False
  end.

(** A raised exception read as a decode failure. *)
Definition caught (r : result pyval) : pyval :=
  match r with
  | inr v => v
  | inl _ => VNone
  end.

Section SpecParsers.

Variable int_of_str : pystr -> option Z.
Variable float_of_str : pystr -> option float.

(** "Attempt numeric parse". *)
Definition numeric_parse (c : pystr) : option pyval :=
  if contains (py ".") c
  then option_map VFloat (float_of_str c)
  else option_map VInt (int_of_str c).

(** The decoded value of a payload with string form [s] and tags [tl]. *)
Definition spec_extract (s : pystr) (tl : option (list tag)) : pyval :=
  if contains (py "bacpypes3") s && contains (py "object at") s then
    match tl with
    | Some tags =>
      match first_tag_with_data tags with
      | Some (n, data) => spec_decode n data
      | None => VNone
      end
    | None => VNone
    end
  else
    let c := strip s in
    match numeric_parse c with
    | Some v => v
    | None => if (length c <? 100)%nat then VStr c else VNone
    end.

End SpecParsers.

End CodecSpec.

(** ** Words of the retry policy *)
Module RetrySpec.
Import Retry.

(** The attempt ended in [except]: it timed out or raised. *)
Definition raised (r : reply) : Prop :=
  r = TimeoutError \/ r = OtherException.

(** The answer carries no [propertyValue]. *)
Definition unanswered (r : reply) : Prop :=
  match r with
  | PropertyValue _ => False
  | _ => True
  end.

End RetrySpec.

(** ** The de-duplication window *)
Module SinkSpec.
Import Sink.

(** What the cache and the table satisfy as long as nothing was evicted:
    the cache has no repetition, the keys of the rows have none, and every
    row has its key in the cache. *)
Definition window_invariant {datetime : Type} (st : state datetime) : Prop :=
  NoDup (seen_messages st)
  /\ NoDup (map row_key (sensor_readings st))
  /\ (forall k, k ∈ map row_key (sensor_readings st) -> k ∈ seen_messages st).

(** The number of distinct keys in a list. *)
Definition distinct (keys : list key) : nat :=
  size (list_to_set keys : gset key).

End SinkSpec.

(** ** Concrete inputs *)
Module Examples.
Import Py Codec Bacnet Retry.
Local Open Scope Z_scope.

(** Parsers for inputs on which no string is parsed. *)
Definition refuse_int : pystr -> option Z := fun _ => None.
Definition refuse_float : pystr -> option float := fun _ => None.

(** [struct.pack('>f', x)]: a finite value that rounds beyond the largest
    binary32 number, that is, one of magnitude 2^128 - 2^103 or more, raises
    [OverflowError]. *)
Definition packs_as_single (x : float) : bool :=
  match x with
  | S754_finite _ m e =>
    if 0 <=? e then Zpos m * 2 ^ e <? 2 ^ 128 - 2 ^ 103
    else Zpos m <? (2 ^ 128 - 2 ^ 103) * 2 ^ (- e)
  | _ => true
  end.

(** What bacpypes3 takes as a property value: [Null()] without an argument
    is the class [Null], not a value, and is refused; a [Real] is encoded
    as an IEEE-754 single; an [Unsigned] is taken. *)
Definition encodable (w : wire_value) : bool :=
  match w with
  | Null => false
  | Real x => packs_as_single x
  | Unsigned _ => true
  end.

(** A library that builds every address and object identifier, and
    unsigned values from 0, and takes as property value what bacpypes3
    encodes. *)
Definition permissive : library :=
  {| Address := fun _ _ => true;
     ObjectIdentifier := fun _ _ => true;
     Unsigned_accepts := fun n => 0 <=? n;
     propertyValue_accepts := encodable |}.

(** S1: analog-input 7 answers with tag 4, data 0x42F60000. *)
Definition s1_payload : bacnet_value :=
  Obj {| attr_value := None;
         str_repr :=
           Ok (py "<bacpypes3.constructeddata.Any object at 0x7f3a5c>");
         attr_tagList := Some [ {| tag_number := Some 4;
                                   tag_data := Some [x42; xf6; x00; x00] |} ] |}.

(** An object without [.value] whose [__str__] raises [ValueError]. *)
Definition unprintable : bacnet_value :=
  Obj {| attr_value := None;
         str_repr := Raise ValueError;
         attr_tagList := None |}.

(** S2: the device is unreachable. *)
Definition unreachable : network := fun _ _ => TimeoutError.

(** A device that answers every request with an error PDU, which has no
    [propertyValue]. *)
Definition refusing : network := fun _ _ => NoPropertyValue.

Definition device_ip : pystr := py "192.168.1.50".

(** A device that acknowledges every write. *)
Definition acknowledging : Writer.write_request -> Writer.write_reply :=
  fun _ => Writer.WriteAnswered.

(** S3: release of analog-output 2. *)
Definition s3_command : Writer.WriteCommand :=
  {| Writer.jobId := Some (py "j1");
     Writer.deviceIp := Some device_ip;
     Writer.deviceId := Some 3056496;
     Writer.objectType := Some (py "analog-output");
     Writer.objectInstance := Some 2;
     Writer.value := VNone;
     Writer.priority := Some 8;
     Writer.release := Some true;
     Writer.pointName := None |}.

(** A write of 3 to a multi-state value named as the library names it. *)
Definition camel_case_command : Writer.WriteCommand :=
  {| Writer.jobId := Some (py "j5");
     Writer.deviceIp := Some device_ip;
     Writer.deviceId := Some 3056496;
     Writer.objectType := Some (py "multiStateValue");
     Writer.objectInstance := Some 4;
     Writer.value := VInt 3;
     Writer.priority := None;
     Writer.release := None;
     Writer.pointName := None |}.

(** A write of 21 to analog-output 2 with a priority outside 1..16. *)
Definition priority_99_command : Writer.WriteCommand :=
  {| Writer.jobId := Some (py "j2");
     Writer.deviceIp := Some device_ip;
     Writer.deviceId := Some 3056496;
     Writer.objectType := Some (py "analog-output");
     Writer.objectInstance := Some 2;
     Writer.value := VInt 21;
     Writer.priority := Some 99;
     Writer.release := Some false;
     Writer.pointName := None |}.

(** S1: analog-input 7 of the device at 192.168.1.50, polled every
    minute. *)
Definition s1_point : Publisher.Point :=
  {| Publisher.id := py "point-7";
     Publisher.objectType := py "analog-input";
     Publisher.objectInstance := 7;
     Publisher.pointName := py "Supply Air Temp";
     Publisher.dis := VStr (py "Supply Air Temp");
     Publisher.units := VStr (py "degC");
     Publisher.mqttTopic := Some (py "site/ahu_1/sat/presentValue");
     Publisher.pollInterval := 60;
     Publisher.qos := 1;
     Publisher.haystackPointName := VStr (py "site.ahu.1.sensor.temp");
     Publisher.siteId := Some (py "site");
     Publisher.equipmentType := Some (py "ahu");
     Publisher.equipmentId := Some (py "1");
     Publisher.deviceId := 3001;
     Publisher.ipAddress := device_ip;
     Publisher.port := 47808 |}.

(** A broker that takes every message. *)
Definition accepting : Publisher.publication -> bool := fun _ => true.

Definition s1_timestamp : pystr := py "2024-03-01T10:01:02+08:00".

(** [str.lower] on ASCII text. *)
Definition ascii_lower (s : pystr) : pystr :=
  map (fun c => if (65 <=? c) && (c <=? 90) then c + 32 else c) s.

(** A broker that takes every batch. *)
Definition accepting_batches : Scheduler.batch_publication -> bool :=
  fun _ => true.

(** The worker as it starts: batch publishing is off. *)
Definition no_batches : Scheduler.batch_settings :=
  {| Scheduler.enable_batch_publishing := false;
     Scheduler.poll_cycle := 0;
     Scheduler.poll_duration := 0;
     Scheduler.str_lower := ascii_lower;
     Scheduler.batch_broker := accepting_batches |}.

(** Batch publishing enabled in the settings. *)
Definition batching : Scheduler.batch_settings :=
  {| Scheduler.enable_batch_publishing := true;
     Scheduler.poll_cycle := 0;
     Scheduler.poll_duration := 0;
     Scheduler.str_lower := ascii_lower;
     Scheduler.batch_broker := accepting_batches |}.

(** A device that answers the first request with the payload of S1. *)
Definition answering : Publisher.Point -> network :=
  fun _ _ _ => PropertyValue s1_payload.

(** A device whose answer arrives at the third attempt only. *)
Definition slow : network :=
  fun attempt _ =>
    match attempt with
    | 0%nat => TimeoutError
    | 1%nat => NoPropertyValue
    | _ => PropertyValue s1_payload
    end.

(** A clock for the sink: the time stamp as its ISO text; every text is
    taken as a time. *)
Definition iso_text : pystr -> option pystr := Some.

Definition db_up : Sink.world pystr :=
  {| Sink.utcnow := py "2024-03-01T10:00:05+00:00";
     Sink.insert_succeeds := true |}.

Definition db_down : Sink.world pystr :=
  {| Sink.utcnow := py "2024-03-01T10:00:05+00:00";
     Sink.insert_succeeds := false |}.

Definition reading_payload (name ts : pystr) : Sink.payload :=
  {| Sink.timestamp := Some ts;
     Sink.haystackName := Some name;
     Sink.value := VFloat (S754_finite false 16121856 (-17));
     Sink.quality := Some (py "good") |}.

Definition reading (name ts : pystr) : Sink.message :=
  Sink.Json (reading_payload name ts).

(** S4: the same reading twice within one second. *)
Definition s4_stream : list (Sink.world pystr * Sink.message) :=
  [ (db_up, reading (py "site.ahu.1.sensor.temp")
              (py "2024-03-01T10:00:00.123Z"));
    (db_up, reading (py "site.ahu.1.sensor.temp")
              (py "2024-03-01T10:00:00.987Z")) ].

(** A reading whose insert fails, followed by a thousand readings of other
    points. *)
Definition lost_payload : Sink.payload :=
  reading_payload (py "site.ahu.1.sensor.temp")
    (py "2024-03-01T10:00:00.123Z").

Definition lost_reading : Sink.message := Sink.Json lost_payload.

Definition flood : list (Sink.world pystr * Sink.message) :=
  (db_down, lost_reading)
  :: map (fun i => (db_up, reading [Z.of_nat i]
                             (py "2024-03-01T10:00:01.000Z")))
       (seq 1000 1000).

(** What [datetime.fromisoformat] gives for two texts of the instant
    2024-03-01T10:00:00Z, in seconds since 1970-01-01T00:00:00Z. *)
Definition instant_of (s : pystr) : option Z :=
  if bool_decide (s = py "2024-03-01T10:00:00+00:00") then Some 1709287200
  else if bool_decide (s = py "2024-03-01T18:00:00+08:00")
       then Some 1709287200
  else None.

Definition db_up_at : Sink.world Z :=
  {| Sink.utcnow := 1709287205; Sink.insert_succeeds := true |}.

(** One reading of one point, sent twice: once with the offset of UTC and
    once with the offset of the site. *)
Definition offsets_stream : list (Sink.world Z * Sink.message) :=
  [ (db_up_at, reading (py "site.ahu.1.sensor.temp")
                 (py "2024-03-01T10:00:00Z"));
    (db_up_at, reading (py "site.ahu.1.sensor.temp")
                 (py "2024-03-01T18:00:00+08:00")) ].

End Examples.

(** ** Measures on what a read call does *)
Module RetryMeasure.
Import Retry.
Local Open Scope Z_scope.

(** The longest a trace can take: every request waits at most its timeout,
    every sleep lasts its length (milliseconds). *)
Definition waited (tr : list event) : Z :=
  fold_right (fun e acc => match e with
                           | Request _ t => t + acc
                           | Sleep ms => ms + acc
                           end) 0 tr.

(** The attempts [0 .. k] with their timeouts. *)
Definition attempts_upto (self : retry_config) (k : nat) : list (nat * Z) :=
  map (fun a => (a, timeout_of self a)) (seq 0 (S k)).

(** The budget of a list of attempts: each one its timeout, and the sleep
    that follows it when it is not the last. *)
Definition budget (self : retry_config) (attempts : list nat) : Z :=
  fold_right (fun a acc =>
                timeout_of self a
                + (if (a <? max_retries self)%nat then 500 else 0) + acc)
             0 attempts.

End RetryMeasure.

(** ** Counting in a tick *)
Module TickMeasure.
Import Py Scheduler.

(** 1 when the loop was left by the exception of a read (the library
    refusing the address or the object identifier), which is counted
    neither as a success nor as a failure; 0 when the loop ended, or was
    left by the [OverflowError] of the batch preparation, whose read is
    counted as a success. *)
Definition raised_reads (e : option exn) : nat :=
  match e with
  | Some LibraryError => 1
  | _ => 0
  end.

(** Two states that differ at most in the individual publications. *)
Definition same_but_individual (st1 st2 : state) : Prop :=
  point_last_poll st1 = point_last_poll st2
  /\ total_reads st1 = total_reads st2
  /\ successful_reads st1 = successful_reads st2
  /\ failed_reads st1 = failed_reads st2
  /\ skipped_reads st1 = skipped_reads st2
  /\ bacnet_log st1 = bacnet_log st2
  /\ equipment_groups st1 = equipment_groups st2
  /\ batch_publishes st1 = batch_publishes st2
  /\ batch_log st1 = batch_log st2.

End TickMeasure.

(** ** The MQTT callbacks of the worker *)
Module Plane.
Import Py Bacnet Writer.
Local Open Scope Z_scope.

(** [msg.payload] as [on_mqtt_message] finds it. *)
Inductive command_payload :=
| Undecodable                       (* [msg.payload.decode()] raises *)
| InvalidJson                       (* json.JSONDecodeError *)
| NotAnObject                       (* no [.get]: AttributeError *)
| CommandObject (c : WriteCommand).

(** The fields of [MqttPublisher] the callbacks touch, and the
    subscriptions asked of the broker. *)
Record plane := {
  mqtt_connected : bool;
  subscriptions : list (pystr * Z);
  pending_write_commands : list WriteCommand
}.

Definition command_topic : pystr := py "bacnet/write/command".

Definition on_mqtt_connect (rc : Z) (self : plane) : plane :=
  if rc =? 0 then
    {| mqtt_connected := true;
       subscriptions := subscriptions self ++ [(command_topic, 1)];
       pending_write_commands := pending_write_commands self |}
  else self.

Definition on_mqtt_disconnect (rc : Z) (self : plane) : plane :=
  if negb (rc =? 0) then
    {| mqtt_connected := false;
       subscriptions := subscriptions self;
       pending_write_commands := pending_write_commands self |}
  else self.

Definition on_mqtt_message (topic : pystr) (payload : command_payload)
    (self : plane) : plane :=
  if pystr_eqb topic command_topic then
    match payload with
    | CommandObject command =>
      {| mqtt_connected := mqtt_connected self;
         subscriptions := subscriptions self;
         pending_write_commands := pending_write_commands self ++ [command] |}
    | _ => self
    end
  else self.

(** What the network thread delivers. *)
Inductive mqtt_event :=
| Connected (rc : Z)
| Disconnected (rc : Z)
| Message (topic : pystr) (payload : command_payload).

Definition deliver (self : plane) (e : mqtt_event) : plane :=
  match e with
  | Connected rc => on_mqtt_connect rc self
  | Disconnected rc => on_mqtt_disconnect rc self
  | Message topic payload => on_mqtt_message topic payload self
  end.

(** The events delivered between two iterations of the main loop. *)
Definition deliver_all (events : list mqtt_event) (self : plane) : plane :=
  fold_left deliver events self.

(** The commands among the events, in order of arrival. *)
Definition arrived (events : list mqtt_event) : list WriteCommand :=
  omap (fun e => match e with
                 | Message topic (CommandObject c) =>
                   if pystr_eqb topic command_topic then Some c else None
                 | _ => None
                 end) events.

End Plane.

(** ** [main] of the sink bridge *)
Module SinkMain.
Import Py.
Local Open Scope Z_scope.

Inductive event :=
| ConnectConfigDb
| LoadMqttConfig
| ConnectDb
| MqttConnect (attempt : nat)
| SleepSeconds (s : Z)
| LoopForever.

(** What the outside answers at start-up. *)
Record startup := {
  config_db_ok : bool;          (* [connect_config_db()] *)
  db_ok : bool;                 (* [connect_db()] *)
  broker_ok : nat -> bool       (* [client.connect] at each attempt *)
}.

(** "Connect to MQTT broker (with retry)": [true] when the loop is left by
    [break] or runs out, [false] when it is left by [return]. *)
Fixpoint connect_loop (w : startup) (max_retries : nat) (attempts : list nat)
  : bool * list event :=
  match attempts with
  | [] => (true, [])
  | attempt :: rest =>
    if broker_ok w attempt then (true, [MqttConnect attempt])
    else if (attempt <? max_retries - 1)%nat then
      let '(ok, tr) := connect_loop w max_retries rest in
      (ok, MqttConnect attempt :: SleepSeconds 2 :: tr)
    else (false, [MqttConnect attempt])
  end.

Definition main (w : startup) : list event :=
  (if config_db_ok w then [ConnectConfigDb; LoadMqttConfig]
   else [ConnectConfigDb])
  ++ ConnectDb ::
     (if db_ok w then
        let '(ok, tr) := connect_loop w 5 (seq 0 5) in
        tr ++ (if ok then [LoopForever] else [])
      else []).

Definition connects (tr : list event) : list nat :=
  flat_map (fun e => match e with
                     | MqttConnect a => [a]
                     | _ => []
                     end) tr.

(** The attempts [0 .. n - 1], each followed by the sleep of 2 s. *)
Definition failed_attempts (n : nat) : list event :=
  flat_map (fun a => [MqttConnect a; SleepSeconds 2]) (seq 0 n).

Definition slept (tr : list event) : Z :=
  fold_right (fun e acc => match e with
                           | SleepSeconds s => s + acc
                           | _ => acc
                           end) 0 tr.

End SinkMain.

(** ** String handling of the discovery worker *)
Module Discovery.
Import Py.
Local Open Scope Z_scope.

(** [s.split(sep)] for a separator of one character. *)
Fixpoint split (sep : Z) (s : pystr) : list pystr :=
  match s with
  | [] => [[]]
  | c :: s' =>
    if c =? sep then [] :: split sep s'
    else
      match split sep s' with
      | part :: parts => (c :: part) :: parts
      | [] => [[c]]
      end
  end.

(** "Calculate broadcast address (assumes /24 subnet)"; [None] is the
    [IndexError] of [ip_parts[i]]. *)
Definition broadcast_ip (ip_address : pystr) : option pystr :=
  match split 46 ip_address with
  | p0 :: p1 :: p2 :: _ =>
    Some (p0 ++ py "." ++ p1 ++ py "." ++ p2 ++ py ".255")
  | _ => None
  end.

(** [device_address.split(':')[0] if ':' in device_address else
    device_address] *)
Definition device_ip (device_address : pystr) : pystr :=
  if contains (py ":") device_address
  then hd [] (split 58 device_address)
  else device_address.

End Discovery.

(** ** More concrete inputs *)
Module MoreExamples.
Import Py Codec.
Local Open Scope Z_scope.

Definition object_repr : pystr :=
  py "<bacpypes3.constructeddata.Any object at 0x7f3a5c>".

(** A signed value of two bytes, 0xFFFE. *)
Definition signed_payload : bacnet_value :=
  Obj {| attr_value := None;
         str_repr := Ok object_repr;
         attr_tagList := Some [ {| tag_number := Some 3;
                                   tag_data := Some [xff; xfe] |} ] |}.

Definition empty_tag : tag :=
  {| tag_number := Some 2; tag_data := Some [] |}.

Definition real_tag : tag :=
  {| tag_number := Some 4; tag_data := Some [x42; xf6; x00; x00] |}.

Definition text_tag : tag :=
  {| tag_number := Some 7; tag_data := Some [x41] |}.

(** A device that lets every write time out. *)
Definition timing_out : Writer.write_request -> Writer.write_reply :=
  fun _ => Writer.WriteTimeout.

(** The text "false" written to binary-output 3. *)
Definition binary_text_command : Writer.WriteCommand :=
  {| Writer.jobId := Some (py "j3");
     Writer.deviceIp := Some Examples.device_ip;
     Writer.deviceId := Some 3056496;
     Writer.objectType := Some (py "binary-output");
     Writer.objectInstance := Some 3;
     Writer.value := VStr (py "false");
     Writer.priority := None;
     Writer.release := None;
     Writer.pointName := None |}.

(** 3.5 written to multi-state-value 4. *)
Definition multi_state_command : Writer.WriteCommand :=
  {| Writer.jobId := Some (py "j4");
     Writer.deviceIp := Some Examples.device_ip;
     Writer.deviceId := Some 3056496;
     Writer.objectType := Some (py "multi-state-value");
     Writer.objectInstance := Some 4;
     Writer.value := VFloat (S754_finite false 7 (-1));
     Writer.priority := None;
     Writer.release := None;
     Writer.pointName := None |}.

(** A reading too large for a float: 2^1024. *)
Definition huge : Codec.bacnet_value := Prim (VInt (2 ^ 1024)).

Definition answering_huge : Publisher.Point -> Retry.network :=
  fun _ _ _ => Retry.PropertyValue huge.

(** The request of [Examples.priority_99_command]. *)
Definition analog_request : Writer.write_request :=
  {| Writer.w_device_ip := VStr Examples.device_ip;
     Writer.w_device_port := 47808;
     Writer.w_object_type := VStr (py "analogOutput");
     Writer.w_object_instance := VInt 2;
     Writer.w_value :=
       Bacnet.Real (S754_finite false 5910974510923776 (-48)) |}.

(** The message published for [Examples.s1_point] and the value [x]. *)
Definition s1_publication (x : pyval) : Publisher.publication :=
  {| Publisher.topic := py "site/ahu_1/sat/presentValue";
     Publisher.message :=
       {| Publisher.p_value := x;
          Publisher.p_timestamp := Examples.s1_timestamp;
          Publisher.p_units := VStr (py "degC");
          Publisher.p_quality := py "good";
          Publisher.p_dis := VStr (py "Supply Air Temp");
          Publisher.p_haystackName := VStr (py "site.ahu.1.sensor.temp");
          Publisher.p_deviceIp := Examples.device_ip;
          Publisher.p_deviceId := 3001;
          Publisher.p_objectType := py "analog-input";
          Publisher.p_objectInstance := 7 |};
     Publisher.pub_qos := 1;
     Publisher.retain := false |}.

(** A library that refuses every address. *)
Definition strict : Bacnet.library :=
  {| Bacnet.Address := fun _ _ => false;
     Bacnet.ObjectIdentifier := fun _ _ => true;
     Bacnet.Unsigned_accepts := fun n => 0 <=? n;
     Bacnet.propertyValue_accepts := Examples.encodable |}.

(** No device answers. *)
Definition silent : Publisher.Point -> Retry.network :=
  fun _ => Examples.unreachable.

(** The schedule of [Examples.s1_point] last polled at 0 s. *)
Definition polled_at_0 : gmap pystr Q := {[ Publisher.id Examples.s1_point := 0%Q ]}.

(** Two commands and a message on another topic. *)
Definition two_commands : list Plane.mqtt_event :=
  [ Plane.Message Plane.command_topic
      (Plane.CommandObject Examples.s3_command);
    Plane.Message (py "site/ahu_1/sat/presentValue") Plane.InvalidJson;
    Plane.Message Plane.command_topic
      (Plane.CommandObject Examples.priority_99_command) ].

Definition idle_plane : Plane.plane :=
  {| Plane.mqtt_connected := true;
     Plane.subscriptions := [];
     Plane.pending_write_commands := [] |}.

(** The database is reached, the broker at the third attempt. *)
Definition late_broker : SinkMain.startup :=
  {| SinkMain.config_db_ok := true;
     SinkMain.db_ok := true;
     SinkMain.broker_ok := fun attempt => (2 <=? attempt)%nat |}.

(** The time-series database is not reached. *)
Definition no_database : SinkMain.startup :=
  {| SinkMain.config_db_ok := true;
     SinkMain.db_ok := false;
     SinkMain.broker_ok := fun _ => true |}.

(** A reading that carries no time stamp. *)
Definition untimed (name : pystr) : Sink.payload :=
  {| Sink.timestamp := None;
     Sink.haystackName := Some name;
     Sink.value := VInt 1;
     Sink.quality := None |}.

End MoreExamples.

(** * Theorems *)

Section CodecFacts.
Import Py Codec CodecSpec.
Local Open Scope Z_scope.

Lemma fold_be (data : list byte) (acc : Z) :
  fold_left (fun a b => a * 256 + byte_val b) data acc
  = acc * 256 ^ Z.of_nat (length data) + big_endian_unsigned data.
Proof.
  revert acc. induction data as [|b rest IH]; intros acc.
  - simpl. lia.
  - cbn [fold_left big_endian_unsigned length]. rewrite IH.
    rewrite Nat2Z.inj_succ, Z.pow_succ_r by lia. lia.
Qed.

Lemma int_from_bytes_big_endian (data : list byte) :
  int_from_bytes data = big_endian_unsigned data.
Proof. unfold int_from_bytes. rewrite fold_be. lia. Qed.

Lemma big_endian_unsigned_nonneg (data : list byte) :
  0 <= big_endian_unsigned data.
Proof.
  induction data as [|b rest IH]; simpl; [lia|].
  assert (0 <= byte_val b) by (unfold byte_val; lia).
  assert (0 <= 256 ^ Z.of_nat (length rest)) by (apply Z.pow_nonneg; lia).
  nia.
Qed.

Lemma int_from_bytes_signed_big_endian (data : list byte) :
  data <> [] -> int_from_bytes_signed data = big_endian_signed data.
Proof.
  intros Hne. unfold int_from_bytes_signed, big_endian_signed.
  rewrite int_from_bytes_big_endian.
  assert (0 < 8 * Z.of_nat (length data)) as Hpos
    by (destruct data; [done | simpl length; lia]).
  destruct (Z.ltb_spec 0 (8 * Z.of_nat (length data))) as [_|]; [|lia].
  cbn [andb].
  destruct (Z.leb_spec (2 ^ (8 * Z.of_nat (length data) - 1))
              (big_endian_unsigned data));
    destruct (Z.ltb_spec (big_endian_unsigned data)
                (2 ^ (8 * Z.of_nat (length data) - 1))); lia.
Qed.

End CodecFacts.

Section CodecTheorems.
Import Py Codec CodecSpec.
Local Open Scope Z_scope.

Variable int_of_str : pystr -> option Z.
Variable float_of_str : pystr -> option float.

(** When the handler can format its argument, an exception of the body
    ends in [None]. *)
Lemma extract_value_caught (bv : bacnet_value) :
  format_in_handler bv = Ok tt ->
  extract_value int_of_str float_of_str bv
  = Ok (caught (extract_value_body int_of_str float_of_str bv)).
Proof.
  intros Hfmt. unfold extract_value, caught. rewrite Hfmt.
  by destruct extract_value_body.
Qed.

Lemma string_form_formats (bv : bacnet_value) s tl :
  string_form bv = Some (s, tl) -> format_in_handler bv = Ok tt.
Proof.
  unfold string_form. destruct (passed_through bv); [done|].
  destruct bv as [v|o]; [done|]. cbn [format_in_handler].
  by destruct (str_repr o).
Qed.

Lemma decode_tag_spec (n : Z) (data : list byte) :
  data <> [] -> caught (decode_tag n data) = spec_decode n data.
Proof.
  intros Hne. unfold decode_tag.
  destruct (Z.eqb_spec n 1) as [->|]; [done|].
  destruct (Z.eqb_spec n 2) as [->|].
  { cbn [spec_decode].
    destruct data as [|b0 [|b1 [|b2 [|b3 [|b4 rest]]]]]; try done;
      cbn -[Z.mul Z.add Z.pow int_from_bytes big_endian_unsigned];
      try rewrite int_from_bytes_big_endian; try done;
      f_equal; cbn -[Z.mul Z.add Z.pow]; lia. }
  destruct (Z.eqb_spec n 3) as [->|].
  { cbn [spec_decode].
    destruct data as [|b0 [|b1 [|b2 [|b3 [|b4 rest]]]]]; try done;
      cbn -[Z.mul Z.add Z.pow Z.sub Z.ltb int_from_bytes_signed
            big_endian_signed];
      try (rewrite int_from_bytes_signed_big_endian; done);
      unfold wrap_signed, big_endian_signed; f_equal;
      cbn -[Z.mul Z.add Z.pow Z.sub Z.ltb];
      repeat match goal with
             | |- context [Z.ltb ?a ?b] => destruct (Z.ltb_spec a b)
             end; lia. }
  destruct (Z.eqb_spec n 4) as [->|].
  { cbn [spec_decode]. unfold unpack_f.
    rewrite int_from_bytes_big_endian. by destruct (length data =? 4)%nat. }
  destruct (Z.eqb_spec n 5) as [->|].
  { cbn [spec_decode]. unfold unpack_d.
    rewrite int_from_bytes_big_endian. by destruct (length data =? 8)%nat. }
  destruct (Z.eqb_spec n 7) as [->|].
  { cbn [spec_decode]. by destruct (utf8_decode data). }
  destruct (Z.eqb_spec n 9) as [->|].
  { cbn [spec_decode caught]. by rewrite int_from_bytes_big_endian. }
  cbn [caught]. unfold spec_decode.
  repeat (match goal with
          | |- context [match ?x with _ => _ end] => destruct x
          end; try done).
Qed.

Lemma from_tagList_spec (tl : option (list tag)) :
  caught (from_tagList tl)
  = match tl with
    | Some tags =>
      match first_tag_with_data tags with
      | Some (n, data) => spec_decode n data
      | None => VNone
      end
    | None => VNone
    end.
Proof.
  destruct tl as [tags|]; [|done].
  unfold from_tagList, find_data_tag, first_tag_with_data.
  destruct tags as [|t0 tags]; [done|].
  cbn [length Nat.eqb].
  destruct (find has_data (t0 :: tags)) as [t|] eqn:Hfind.
  - apply find_some in Hfind as [_ Hdata]. unfold has_data in Hdata.
    destruct (tag_data t) as [[|b data]|] eqn:Htd; try done.
    destruct (tag_number t) as [n|]; [|done].
    cbn [length Nat.eqb]. by apply decode_tag_spec.
  - cbn [head].
    assert (has_data t0 = false) as Ht0.
    { cbn [find] in Hfind. by destruct (has_data t0). }
    unfold has_data in Ht0.
    destruct (tag_data t0) as [[|b data]|]; try done;
      by destruct (tag_number t0).
Qed.

Lemma from_string_spec (s : pystr) (tl : option (list tag)) :
  caught (from_string int_of_str float_of_str s tl)
  = spec_extract int_of_str float_of_str s tl.
Proof.
  unfold from_string, spec_extract, is_object_repr.
  destruct (contains (py "bacpypes3") s && contains (py "object at") s).
  - apply from_tagList_spec.
  - unfold from_clean_string, numeric_parse.
    destruct (contains (py ".") (strip s)).
    + destruct (float_of_str (strip s)); [done|].
      by destruct (length (strip s) <? 100)%nat.
    + destruct (int_of_str (strip s)); [done|].
      by destruct (length (strip s) <? 100)%nat.
Qed.

Lemma body_string_form (bv : bacnet_value) s tl :
  string_form bv = Some (s, tl) ->
  extract_value_body int_of_str float_of_str bv
  = from_string int_of_str float_of_str s tl.
Proof.
  unfold string_form. destruct bv as [v|o]; cbn.
  - destruct v; cbn; intros [= <- <-]; done.
  - destruct (attr_value o) as [v|].
    + destruct (is_primitive v); [done|].
      destruct (str_repr o) as [e|r]; [done|]. by intros [= <- <-].
    + destruct (str_repr o) as [e|r]; [done|]. by intros [= <- <-].
Qed.

Lemma body_passed_through (bv : bacnet_value) :
  passed_through bv = true ->
  exists v, extract_value_body int_of_str float_of_str bv = Ok v
            /\ is_primitive v = true.
Proof.
  destruct bv as [v|o]; cbn.
  - intros Hn. rewrite Hn. exists v. split; [done|]. by destruct v.
  - destruct (attr_value o) as [v|]; [|done].
    intros Hp. rewrite Hp. eauto.
Qed.

(** When [str()] is needed and raises, the handler raises again. *)
Lemma body_str_raises (bv : bacnet_value) :
  str_raises bv ->
  exists e, extract_value int_of_str float_of_str bv = Raise e.
Proof.
  intros [Hpass Hraise]. destruct bv as [v|o]; [done|].
  destruct Hraise as [e He]. exists e.
  unfold extract_value, extract_value_body, format_in_handler.
  cbn [passed_through] in Hpass. rewrite He.
  destruct (attr_value o) as [v|]; [rewrite Hpass|]; done.
Qed.

Lemma spec_decode_host (n : Z) (data : list byte) :
  host_or_none (spec_decode n data).
Proof.
  unfold spec_decode.
  repeat (match goal with
          | |- context [match ?x with _ => _ end] => destruct x
          end; try done).
Qed.

Lemma spec_extract_host (s : pystr) (tl : option (list tag)) :
  host_or_none (spec_extract int_of_str float_of_str s tl).
Proof.
  unfold spec_extract.
  destruct (contains (py "bacpypes3") s && contains (py "object at") s).
  - destruct tl as [tags|]; [|done].
    destruct (first_tag_with_data tags) as [[n data]|]; [|done].
    apply spec_decode_host.
  - cbv zeta. unfold numeric_parse.
    destruct (contains (py ".") (strip s)).
    + destruct (float_of_str (strip s)); cbn [option_map]; [done|].
      by destruct (length (strip s) <? 100)%nat.
    + destruct (int_of_str (strip s)); cbn [option_map]; [done|].
      by destruct (length (strip s) <? 100)%nat.
Qed.

(** What [extract_value] returns when it does not go through the string
    form, or when the string form is there. *)
Lemma extract_value_host (bv : bacnet_value) :
  ~ str_raises bv ->
  exists v, extract_value int_of_str float_of_str bv = Ok v
            /\ host_or_none v.
Proof.
  intros Hno.
  destruct (passed_through bv) eqn:Hpass.
  - destruct (body_passed_through _ Hpass) as (v & Hv & Hp).
    exists v. unfold extract_value. rewrite Hv. split; [done|].
    by destruct v.
  - destruct (string_form bv) as [[s tl]|] eqn:Hform.
    + rewrite (extract_value_caught _ (string_form_formats _ _ _ Hform)).
      rewrite (body_string_form _ _ _ Hform), from_string_spec.
      eexists; split; [done|]. apply spec_extract_host.
    + exfalso. apply Hno. split; [done|].
      unfold string_form in Hform. rewrite Hpass in Hform.
      destruct bv as [v|o]; [by destruct v|].
      destruct (str_repr o) as [e|r]; [by exists e|done].
Qed.


End CodecTheorems.

Section RetryTheorems.
Import Py Codec Bacnet Retry RetrySpec.
Local Open Scope Z_scope.

Variable int_of_str : pystr -> option Z.
Variable float_of_str : pystr -> option float.
Variable self : retry_config.
Variable net : network.

Local Abbreviation loop := (retry_loop int_of_str float_of_str self net).

Lemma requests_sleep (attempt : nat) (tr : list event) :
  requests (sleep_before_retry self attempt ++ tr) = requests tr.
Proof. unfold sleep_before_retry. by destruct (_ <? _)%nat. Qed.

(** Every iteration starts with its request. *)
Lemma loop_cons (attempt : nat) (rest : list nat) :
  exists tr, snd (loop (attempt :: rest))
             = Request attempt (timeout_of self attempt) :: tr.
Proof.
  cbn [retry_loop].
  destruct (net attempt (timeout_of self attempt)) as [| | |pv];
    try destruct (extract_value _ _ pv);
    try destruct (loop rest); cbn [snd]; eauto.
Qed.

(** The requests are those of the first iterations, in order. *)
Lemma loop_requests (attempts : list nat) :
  exists later,
    map (fun a => (a, timeout_of self a)) attempts
    = requests (snd (loop attempts)) ++ later.
Proof.
  induction attempts as [|attempt rest [later IH]]; [by exists []|].
  cbn [retry_loop map].
  destruct (net attempt (timeout_of self attempt)) as [| | |pv];
    try destruct (extract_value _ _ pv);
    try destruct (loop rest) as [r tr]; cbn [snd] in *;
    try (exists later; cbn [requests flat_map app];
         fold (requests (sleep_before_retry self attempt ++ tr));
         fold (requests tr);
         rewrite ?requests_sleep, IH; done).
  eexists. cbn. done.
Qed.

(** Without a [propertyValue] in any answer the loop runs out. *)
Lemma loop_exhausted (attempts : list nat) :
  (forall a t, unanswered (net a t)) ->
  fst (loop attempts) = VNone.
Proof.
  intros Hno. induction attempts as [|attempt rest IH]; [done|].
  cbn [retry_loop]. specialize (Hno attempt (timeout_of self attempt)).
  destruct (net attempt (timeout_of self attempt)); [| | |done];
    destruct (loop rest); done.
Qed.

(** The trace of one iteration followed by the rest of the loop. *)
Lemma loop_step (k : nat) (rest : list nat) :
  snd (loop (k :: rest))
  = Request k (timeout_of self k) ::
    match net k (timeout_of self k) with
    | PropertyValue pv =>
      match extract_value int_of_str float_of_str pv with
      | inr _ => []
      | inl _ => sleep_before_retry self k ++ snd (loop rest)
      end
    | NoPropertyValue => snd (loop rest)
    | _ => sleep_before_retry self k ++ snd (loop rest)
    end.
Proof.
  cbn [retry_loop].
  destruct (net k (timeout_of self k)) as [| | |pv];
    try destruct (extract_value _ _ pv);
    try destruct (loop rest); done.
Qed.

(** After an attempt that timed out or raised, and that is not the last
    one, come the sleep and then the next attempt. *)
Lemma loop_sleep (n k : nat) :
  (k + n = max_retries self + 1)%nat ->
  forall (i a : nat) (t : Z),
    snd (loop (seq k n)) !! i = Some (Request a t) ->
    raised (net a t) ->
    (a < max_retries self)%nat ->
    snd (loop (seq k n)) !! S i = Some (Sleep 500)
    /\ snd (loop (seq k n)) !! S (S i)
       = Some (Request (S a) (timeout_of self (S a))).
Proof.
  revert k. induction n as [|n IH]; intros k Hkn i a t Hi Hr Ha; [done|].
  cbn [seq] in *. rewrite loop_step in *.
  set (T := snd (loop (seq (S k) n))) in *.
  assert (forall j, T !! j = Some (Request a t) ->
            T !! S j = Some (Sleep 500)
            /\ T !! S (S j) = Some (Request (S a) (timeout_of self (S a))))
    as IH' by (intros j Hj; apply (IH (S k) ltac:(lia) j a t Hj Hr Ha)).
  assert (forall j,
            (sleep_before_retry self k ++ T) !! j = Some (Request a t) ->
            (sleep_before_retry self k ++ T) !! S j = Some (Sleep 500)
            /\ (sleep_before_retry self k ++ T) !! S (S j)
               = Some (Request (S a) (timeout_of self (S a)))) as IHs.
  { unfold sleep_before_retry. destruct (k <? max_retries self)%nat.
    - intros [|j] Hj; [done|]. apply IH'. exact Hj.
    - exact IH'. }
  assert ((k < max_retries self)%nat ->
          (sleep_before_retry self k ++ T) !! 0%nat = Some (Sleep 500)
          /\ (sleep_before_retry self k ++ T) !! 1%nat
             = Some (Request (S k) (timeout_of self (S k)))) as Hfirst.
  { intros Hk. unfold sleep_before_retry.
    destruct (Nat.ltb_spec k (max_retries self)) as [_|]; [|lia].
    destruct n as [|n]; [lia|]. subst T. cbn [seq].
    destruct (loop_cons (S k) (seq (S (S k)) n)) as [tr ->]. done. }
  destruct i as [|i].
  - cbn in Hi. injection Hi as <- <-.
    destruct Hr as [Hr|Hr]; rewrite Hr; by apply Hfirst.
  - cbn [lookup list_lookup] in Hi |- *.
    change (list_lookup i) with (lookup (M:=list event) i) in Hi.
    change (list_lookup (S i)) with (lookup (M:=list event) (S i)).
    change (list_lookup i) with (lookup (M:=list event) i).
    destruct (net k (timeout_of self k)) as [| | |pv].
    + by apply IHs.
    + by apply IHs.
    + by apply IH'.
    + destruct (extract_value int_of_str float_of_str pv); [by apply IHs|done].
Qed.

End RetryTheorems.

Section RetryPolicy.
Import Py Codec Bacnet Retry RetrySpec Examples.
Local Open Scope Z_scope.

(** C1. A device that answers each request without a [propertyValue] is
    asked four times in a row: no sleep separates the attempts. *)
Lemma read_with_retry_no_sleep :
  read_with_retry refuse_int refuse_float self_config refusing permissive
    device_ip 47808 (py "analog-input") 7
  = (Ok VNone,
     [Request 0 6000; Request 1 6000; Request 2 12000; Request 3 24000])
  /\ ~ (forall i a t a' t',
          snd (read_with_retry refuse_int refuse_float self_config refusing
                 permissive device_ip 47808 (py "analog-input") 7) !! i
          = Some (Request a t) ->
          snd (read_with_retry refuse_int refuse_float self_config refusing
                 permissive device_ip 47808 (py "analog-input") 7) !! S i
          <> Some (Request a' t')).
Proof.
  split; [reflexivity|].
  intros H. by apply (H 0%nat 0%nat 6000 1%nat 6000).
Qed.

(** X26. A call makes at most four attempts, with timeouts 6000, 6000,
    12000 and 24000 ms in this order; after every attempt that timed out or
    raised, other than the last, comes a 500 ms sleep and then the next
    attempt; and when the request can be built and no attempt brings a
    [propertyValue], the call returns [None]. *)
Theorem read_with_retry_policy
    (int_of_str : pystr -> option Z) (float_of_str : pystr -> option float)
    (net : network) (lib : library)
    (ip : pystr) (port : Z) (ty : pystr) (inst : Z) :
  let call := read_with_retry int_of_str float_of_str self_config net lib
                ip port ty inst in
  (exists later,
     [(0%nat, 6000); (1%nat, 6000); (2%nat, 12000); (3%nat, 24000)]
     = requests (snd call) ++ later)
  /\ (forall (i a : nat) (t : Z),
        snd call !! i = Some (Request a t) ->
        raised (net a t) ->
        (a < 3)%nat ->
        snd call !! S i = Some (Sleep 500)
        /\ snd call !! S (S i)
           = Some (Request (S a) (timeout_of self_config (S a))))
  /\ (Address lib (VStr ip) port = true ->
      ObjectIdentifier lib (VStr (map_get obj_type_map_read ty)) (VInt inst)
      = true ->
      (forall a t, unanswered (net a t)) ->
      fst call = Ok VNone).
Proof.
  cbv zeta. unfold read_with_retry.
  destruct (Address lib (VStr ip) port); cbn [negb];
    [|split; [by eexists|split; [intros ? ? ? ?; done|intros; discriminate]]].
  destruct (ObjectIdentifier lib _ _); cbn [negb];
    [|split; [by eexists|split; [intros ? ? ? ?; done|intros; discriminate]]].
  pose proof (loop_requests int_of_str float_of_str self_config net
                (seq 0 4)) as Hreq.
  pose proof (loop_sleep int_of_str float_of_str self_config net 4 0
                eq_refl) as Hsleep.
  pose proof (loop_exhausted int_of_str float_of_str self_config net
                (seq 0 4)) as Hnone.
  change (max_retries self_config + 1)%nat with 4%nat.
  destruct (retry_loop int_of_str float_of_str self_config net (seq 0 4))
    as [r tr].
  cbn [fst snd] in *. split; [exact Hreq|]. split; [exact Hsleep|].
  intros _ _ Hun. by rewrite (Hnone Hun).
Qed.

(** S2: the device is unreachable. *)
Lemma read_with_retry_policy_witness :
  Address permissive (VStr device_ip) 47808 = true
  /\ ObjectIdentifier permissive
       (VStr (map_get obj_type_map_read (py "analog-input"))) (VInt 7) = true
  /\ (forall a t, unanswered (unreachable a t))
  /\ raised (unreachable 0%nat 6000)
  /\ snd (read_with_retry refuse_int refuse_float self_config unreachable
            permissive device_ip 47808 (py "analog-input") 7) !! 1%nat
     = Some (Sleep 500)
  /\ fst (read_with_retry refuse_int refuse_float self_config unreachable
            permissive device_ip 47808 (py "analog-input") 7) = Ok VNone.
Proof.
  destruct (read_with_retry_policy refuse_int refuse_float unreachable
              permissive device_ip 47808 (py "analog-input") 7)
    as (_ & Hsleep & Hnone).
  split; [reflexivity|]. split; [reflexivity|].
  split; [intros a t; exact I|].
  split; [left; reflexivity|].
  split.
  - apply (Hsleep 0%nat 0%nat 6000); [reflexivity|left; reflexivity|lia].
  - apply Hnone; [reflexivity|reflexivity|intros a t; exact I].
Defined.

End RetryPolicy.

Section CodecWitness.
Import Py Codec CodecSpec Examples.



End CodecWitness.

Section WriterTheorems.
Import Py Bacnet Writer Examples.
Local Open Scope Z_scope.

Variable int_of_str : pystr -> option Z.
Variable float_of_str : pystr -> option float.
Variable lib : library.
Variable net : write_request -> write_reply.

Local Abbreviation execute :=
  (execute_write_command int_of_str float_of_str lib net).
Local Abbreviation prepare := (prepare_value int_of_str float_of_str lib).

Lemma in_list_elem (s : pystr) (l : list pystr) :
  in_list s l = true -> s ∈ l.
Proof.
  unfold in_list. rewrite existsb_exists. intros (x & Hx & Heq).
  unfold pystr_eqb in Heq. apply bool_decide_eq_true in Heq as ->.
  by apply list_elem_of_In.
Qed.

Lemma family_of_names (ty : pystr) (f : family) :
  family_of ty = Some f ->
  match f with
  | Analog =>
    ty ∈ [py "analog-input"; py "analog-output"; py "analog-value"]
  | Binary =>
    ty ∈ [py "binary-input"; py "binary-output"; py "binary-value"]
  | MultiState => ty ∈ multi_state_types
  end.
Proof.
  unfold family_of.
  destruct (in_list ty [py "analog-input"; _; _]) eqn:Ha;
    [intros [= <-]; by apply in_list_elem|].
  destruct (in_list ty [py "binary-input"; _; _]) eqn:Hb;
    [intros [= <-]; by apply in_list_elem|].
  destruct (in_list ty multi_state_types) eqn:Hm; [|done].
  intros [= <-]. by apply in_list_elem.
Qed.

(** The value prepared for each family, and for a release. *)
Lemma prepare_value_family (object_type : option pystr) (v rel : pyval) :
  (truthy rel = true -> prepare object_type v rel = Ok Null)
  /\ (truthy rel = false ->
      forall ty, object_type = Some ty ->
        (family_of ty = Some Analog ->
         prepare object_type v rel
         = (try! x := py_float float_of_str v in Ok (Real x)))
        /\ (family_of ty = Some Binary ->
            prepare object_type v rel
            = mk_Unsigned lib (if truthy v then 1 else 0))
        /\ (family_of ty = Some MultiState ->
            prepare object_type v rel
            = (try! n := py_int int_of_str v in mk_Unsigned lib n))).
Proof.
  unfold prepare_value. split; [by intros ->|].
  intros -> ty ->.
  repeat split; intros Hf; apply family_of_names in Hf;
    repeat (apply elem_of_cons in Hf as [->|Hf]; [reflexivity|]);
    by apply elem_of_nil in Hf.
Qed.

(** What [write_bacnet_value] issues: nothing, or the one request built
    from the prepared value. *)
Lemma write_issued (ip : pyval) (port : Z) (ty : option pystr)
    (inst v prio rel : pyval) :
  snd (write_bacnet_value int_of_str float_of_str lib net ip port ty inst v
         prio rel)
  = if Address lib ip port
       && ObjectIdentifier lib
            (map_get_val obj_type_map_write (opt_str ty)) inst
    then
      match prepare ty v rel with
      | inr w =>
        if propertyValue_accepts lib w then
          [ {| w_device_ip := ip; w_device_port := port;
               w_object_type := map_get_val obj_type_map_write (opt_str ty);
               w_object_instance := inst; w_value := w |} ]
        else []
      | inl _ => []
      end
    else [].
Proof.
  unfold write_bacnet_value.
  destruct (Address lib ip port); [|done].
  destruct (ObjectIdentifier lib _ inst); [|done].
  cbn [negb andb]. destruct (prepare ty v rel) as [e|w]; [done|].
  destruct (propertyValue_accepts lib w); [|done]. cbn [negb].
  by destruct (net _).
Qed.

Lemma execute_issued (c : WriteCommand) :
  fst (execute c)
  = snd (write_bacnet_value int_of_str float_of_str lib net
           (opt_str (deviceIp c)) 47808 (objectType c)
           (opt_int (objectInstance c)) (value c)
           (VInt (default 8 (priority c)))
           (VBool (default false (release c)))).
Proof.
  unfold execute_write_command.
  by destruct write_bacnet_value as [[success error_msg] issued].
Qed.

(** C4, as amended. The executor hands every queued command to
    [write_bacnet_value] without a validation step of its own: the priority
    plays no part in what is issued; at most one WriteProperty is issued
    for a command, and none when the library refuses the address or the
    object identifier, when the value cannot be converted, or when the
    library refuses the converted value; and one result is published per
    command. *)
Theorem write_executor_no_validation (c : WriteCommand) :
  (forall p, fst (execute (with_priority p c)) = fst (execute c))
  /\ (length (fst (execute c)) <= 1)%nat
  /\ (Address lib (opt_str (deviceIp c)) 47808 = false
      \/ ObjectIdentifier lib
           (map_get_val obj_type_map_write (opt_str (objectType c)))
           (opt_int (objectInstance c)) = false
      \/ (exists e, prepare (objectType c) (value c)
                      (VBool (default false (release c))) = Raise e)
      \/ (exists w, prepare (objectType c) (value c)
                      (VBool (default false (release c))) = Ok w
                    /\ propertyValue_accepts lib w = false) ->
      fst (execute c) = [])
  /\ length (snd (execute c)) = 1%nat.
Proof.
  split; [|split; [|split]].
  - intros p. by rewrite !execute_issued, !write_issued.
  - rewrite execute_issued, write_issued.
    destruct (_ && _); [|cbn; lia].
    destruct (prepare _ _ _) as [e|w]; [cbn; lia|].
    destruct (propertyValue_accepts lib w); cbn; lia.
  - rewrite execute_issued, write_issued.
    intros [Ha|[Ho|[[e He]|(w & Hw & Hrefused)]]].
    + by rewrite Ha.
    + rewrite Ho. by rewrite andb_false_r.
    + unfold Raise in He. rewrite He. by destruct (_ && _).
    + unfold Ok in Hw. rewrite Hw, Hrefused. by destruct (_ && _).
  - unfold execute_write_command.
    by destruct write_bacnet_value as [[success error_msg] issued].
Qed.

End WriterTheorems.

Section WriterExamples.
Import Py Bacnet Writer Examples.
Local Open Scope Z_scope.

(** C4, counterexample. A command whose priority is 99 fails the
    validation of the specification, and its WriteProperty is issued. *)
Lemma priority_99_is_written :
  spec_valid_command priority_99_command = false
  /\ fst (execute_write_command refuse_int refuse_float permissive
            acknowledging priority_99_command)
     = [ {| w_device_ip := VStr device_ip;
            w_device_port := 47808;
            w_object_type := VStr (py "analogOutput");
            w_object_instance := VInt 2;
            w_value := Real (S754_finite false 5910974510923776 (-48)) |} ].
Proof. split; reflexivity. Qed.

(** The same command sent to a device whose address the library refuses. *)
Lemma write_executor_no_validation_witness :
  Address MoreExamples.strict (opt_str (deviceIp priority_99_command)) 47808
  = false
  /\ fst (execute_write_command refuse_int refuse_float MoreExamples.strict
            acknowledging priority_99_command) = [].
Proof.
  split; [reflexivity|].
  apply (proj1 (proj2 (proj2 (write_executor_no_validation refuse_int
                                refuse_float MoreExamples.strict
                                acknowledging priority_99_command)))).
  left. reflexivity.
Defined.

(** C5. S3: the release is not written. What [Null()] gives is refused as
    a property value; the exception ends in the outer handler, no
    WriteProperty is issued and the result says that the write failed. *)
Theorem release_is_not_written :
  prepare_value refuse_int refuse_float permissive
    (objectType s3_command) (value s3_command) (VBool true) = Ok Null
  /\ execute_write_command refuse_int refuse_float permissive acknowledging
       s3_command
     = ([],
        [ {| r_jobId := Some (py "j1");
             r_success := false;
             r_error := Some ErrWriteError;
             r_deviceId := Some 3056496;
             r_pointName := py "Unknown";
             r_value := VNone;
             r_priority := 8;
             r_release := true |} ]).
Proof. split; reflexivity. Qed.

(** A multi-state type named [multiStateValue] falls to the default
    branch: 3 is written as [Real(3.0)]. *)
Lemma camel_case_multi_state_is_real :
  map w_value
    (fst (execute_write_command refuse_int refuse_float permissive
            acknowledging camel_case_command))
  = [Real (S754_finite false 6755399441055744 (-51))].
Proof. reflexivity. Qed.

End WriterExamples.

Section PublisherTheorems.
Import Py Publisher Examples.

(** C8, counterexample. A NaN is published as it is, with quality
    "good". *)
Lemma nan_published_as_good :
  fst (publish_individual_topic true accepting s1_point (VFloat S754_nan)
         s1_timestamp) = true
  /\ map (fun pub => (p_value (message pub), p_quality (message pub)))
       (snd (publish_individual_topic true accepting s1_point
               (VFloat S754_nan) s1_timestamp))
     = [(VFloat S754_nan, py "good")].
Proof. split; reflexivity. Qed.

(** C8, as amended. Every individual-point payload carries quality "good",
    and a float value, NaN and the infinities included, is carried
    unchanged: nothing is replaced by null. *)
Theorem published_float_unchanged (mqtt_connected : bool)
    (broker : publication -> bool) (point : Point) (value : pyval)
    (timestamp : pystr) (pub : publication) :
  pub ∈ snd (publish_individual_topic mqtt_connected broker point value
               timestamp) ->
  p_quality (message pub) = py "good"
  /\ (forall x, value = VFloat x -> p_value (message pub) = VFloat x).
Proof.
  unfold publish_individual_topic.
  destruct (no_topic point || negb mqtt_connected);
    [by intros ?%elem_of_nil|].
  destruct value as [|b|n|x|s|repr truth]; cbn [is_object_string];
    try (by intros ?%elem_of_nil);
    try destruct (contains _ s || contains _ s);
    try (by intros ?%elem_of_nil);
    (destruct (clean_value _) as [e|clean] eqn:Hclean;
     [by intros ?%elem_of_nil|]);
    (destruct (broker _); [|by intros ?%elem_of_nil]);
    intros ->%list_elem_of_singleton; cbn [message p_quality p_value];
    (split; [done|]); intros y [= <-].
  cbn in Hclean. by injection Hclean as <-.
Qed.

Lemma published_float_unchanged_witness :
  {| topic := py "site/ahu_1/sat/presentValue";
     message := {| p_value := VFloat (S754_infinity true);
                   p_timestamp := s1_timestamp;
                   p_units := VStr (py "degC");
                   p_quality := py "good";
                   p_dis := VStr (py "Supply Air Temp");
                   p_haystackName := VStr (py "site.ahu.1.sensor.temp");
                   p_deviceIp := device_ip;
                   p_deviceId := 3001;
                   p_objectType := py "analog-input";
                   p_objectInstance := 7 |};
     pub_qos := 1;
     retain := false |}
  ∈ snd (publish_individual_topic true accepting s1_point
           (VFloat (S754_infinity true)) s1_timestamp)
  /\ p_quality
       (message
          {| topic := py "site/ahu_1/sat/presentValue";
             message := {| p_value := VFloat (S754_infinity true);
                           p_timestamp := s1_timestamp;
                           p_units := VStr (py "degC");
                           p_quality := py "good";
                           p_dis := VStr (py "Supply Air Temp");
                           p_haystackName :=
                             VStr (py "site.ahu.1.sensor.temp");
                           p_deviceIp := device_ip;
                           p_deviceId := 3001;
                           p_objectType := py "analog-input";
                           p_objectInstance := 7 |};
             pub_qos := 1;
             retain := false |}) = py "good".
Proof.
  match goal with
  | |- ?P /\ _ =>
    assert P as Hin by (apply list_elem_of_singleton; reflexivity)
  end.
  split; [exact Hin|].
  exact (proj1 (published_float_unchanged true accepting s1_point _ _ _ Hin)).
Defined.

End PublisherTheorems.

Section SchedulerFacts.
Import Py Bacnet Retry Publisher Scheduler.
Local Open Scope Q_scope.

(** The point is polled from the instant [last_poll + poll_interval]
    on. *)
Lemma not_yet_due_false (t last_poll : Q) (poll_interval : Z) :
  not_yet_due t last_poll poll_interval = false
  <-> next_due last_poll poll_interval <= t.
Proof.
  unfold not_yet_due, Qlt_bool, next_due.
  rewrite negb_false_iff, Qle_bool_iff. split; intros H; lra.
Qed.

(** [next_minute] is the first multiple of 60 s that is not before the
    given instant. *)
Lemma next_minute_boundary (t : Q) :
  t <= inject_Z (next_minute t)
  /\ inject_Z (next_minute t) < t + 60
  /\ (next_minute t mod 60 = 0)%Z.
Proof.
  unfold next_minute.
  pose proof (Qle_ceiling (t / 60)) as Hle.
  pose proof (Qceiling_lt (t / 60)) as Hlt.
  rewrite inject_Z_mult.
  unfold Z.sub in Hlt. rewrite inject_Z_plus in Hlt.
  rewrite inject_Z_opp in Hlt.
  change (inject_Z 1) with 1 in Hlt.
  change (inject_Z 60) with 60.
  assert (t == t / 60 * 60) as Ht by (field).
  set (c := inject_Z (Qceiling (t / 60))) in *.
  set (X := t / 60) in *.
  split; [|split].
  - lra.
  - lra.
  - apply Z.mod_mul. done.
Qed.

End SchedulerFacts.

Section SchedulerTheorems.
Import Py Bacnet Retry Publisher Scheduler.

Variable int_of_str : pystr -> option Z.
Variable float_of_str : pystr -> option float.
Variable self : retry_config.
Variable lib : library.
Variable net : Point -> network.
Variable mqtt_connected : bool.
Variable broker : publication -> bool.
Variable current_time : Q.
Variable timestamp : pystr.
Variable batch : batch_settings.

Local Abbreviation step :=
  (poll_point int_of_str float_of_str self lib net mqtt_connected broker
     current_time timestamp).
Local Abbreviation steps :=
  (poll_points int_of_str float_of_str self lib net mqtt_connected broker
     current_time timestamp).
Local Abbreviation read p :=
  (read_with_retry int_of_str float_of_str self (net p) lib (ipAddress p)
     (port p) (objectType p) (objectInstance p)).
Local Abbreviation tick :=
  (poll_and_publish int_of_str float_of_str self lib net mqtt_connected
     broker current_time timestamp batch).

Lemma float_of_int_raises (n : Z) (e : exn) :
  float_of_int n = Raise e -> e = OverflowError.
Proof.
  unfold float_of_int.
  destruct (binary_normalize 53 1024 n 0 false); try done;
    by intros [= <-].
Qed.

(** "Prepare for batch" touches the groups only, and raises nothing but
    the [OverflowError] of [float(value)]. *)
Lemma prepare_for_batch_cases (point : Point) (value : pyval) (st : state) :
  exists groups e,
    prepare_for_batch point value st
    = (State (point_last_poll st) (total_reads st) (successful_reads st)
             (failed_reads st) (skipped_reads st) (individual_publishes st)
             (bacnet_log st) (mqtt_log st) groups (batch_publishes st)
             (batch_log st), e)
    /\ (e = None \/ e = Some OverflowError).
Proof.
  unfold prepare_for_batch. destruct (equipment_key_of point) as [key|].
  - destruct (point_data_of point value) as [e|d] eqn:Hd.
    + exists (equipment_groups st), (Some e). split; [by destruct st|].
      right. f_equal. unfold point_data_of, batch_value in Hd.
      destruct value as [|b|n|x|t|repr truth]; try done.
      * destruct (float_of_int (if b then 1 else 0)) as [e'|x] eqn:Hf;
          [|done].
        injection Hd as <-. by apply float_of_int_raises in Hf.
      * destruct (float_of_int n) as [e'|x] eqn:Hf; [|done].
        injection Hd as <-. by apply float_of_int_raises in Hf.
    + eexists _, None. split; [done|by left].
  - exists (equipment_groups st), None. split; [by destruct st|by left].
Qed.

(** The five ways through the body of the loop. *)
Lemma poll_point_cases (point : Point) (st : state) :
  (point_last_poll st !! id point = None
   /\ step point st
      = (State (<[id point :=
                   inject_Z (next_minute current_time - pollInterval point)]>
                  (point_last_poll st))
               (total_reads st) (successful_reads st) (failed_reads st)
               (S (skipped_reads st)) (individual_publishes st)
               (bacnet_log st) (mqtt_log st) (equipment_groups st)
               (batch_publishes st) (batch_log st),
         None))
  \/ (exists last_poll,
        point_last_poll st !! id point = Some last_poll
        /\ not_yet_due current_time last_poll (pollInterval point) = true
        /\ step point st = (skip st, None))
  \/ (exists last_poll tr e,
        point_last_poll st !! id point = Some last_poll
        /\ not_yet_due current_time last_poll (pollInterval point) = false
        /\ read point = (Raise e, tr)
        /\ step point st
           = (State (point_last_poll st) (S (total_reads st))
                    (successful_reads st) (failed_reads st)
                    (skipped_reads st) (individual_publishes st)
                    (bacnet_log st ++ [(id point, tr)]) (mqtt_log st)
                    (equipment_groups st) (batch_publishes st)
                    (batch_log st),
              Some e))
  \/ (exists last_poll tr,
        point_last_poll st !! id point = Some last_poll
        /\ not_yet_due current_time last_poll (pollInterval point) = false
        /\ read point = (Ok VNone, tr)
        /\ step point st
           = (State (point_last_poll st) (S (total_reads st))
                    (successful_reads st) (S (failed_reads st))
                    (skipped_reads st) (individual_publishes st)
                    (bacnet_log st ++ [(id point, tr)]) (mqtt_log st)
                    (equipment_groups st) (batch_publishes st)
                    (batch_log st),
              None))
  \/ (exists last_poll tr value groups e,
        point_last_poll st !! id point = Some last_poll
        /\ not_yet_due current_time last_poll (pollInterval point) = false
        /\ read point = (Ok value, tr)
        /\ value <> VNone
        /\ (e = None \/ e = Some OverflowError)
        /\ step point st
           = (State (<[id point := current_time]> (point_last_poll st))
                    (S (total_reads st)) (S (successful_reads st))
                    (failed_reads st) (skipped_reads st)
                    (if fst (publish_individual_topic mqtt_connected broker
                               point value timestamp)
                     then S (individual_publishes st)
                     else individual_publishes st)
                    (bacnet_log st ++ [(id point, tr)])
                    (mqtt_log st
                     ++ snd (publish_individual_topic mqtt_connected broker
                               point value timestamp))
                    groups (batch_publishes st) (batch_log st),
              e)).
Proof.
  unfold poll_point.
  destruct (point_last_poll st !! id point) as [last_poll|]; [|by left].
  right.
  destruct (not_yet_due _ _ _) eqn:Hdue; [left; by exists last_poll|].
  right.
  destruct (read point) as [[e|value] tr]; [left; by exists last_poll, tr, e|].
  right.
  destruct value as [|b|n|x|t|repr truth];
    [left; by exists last_poll, tr|right..];
    cbv beta iota;
    match goal with
    | |- context [publish_individual_topic _ _ _ ?v _] =>
      destruct (publish_individual_topic mqtt_connected broker point v
                  timestamp) as [published pubs] eqn:Hpub;
      match goal with
      | |- context [prepare_for_batch _ _ ?s] =>
        destruct (prepare_for_batch_cases point v s)
          as (groups & e & -> & He);
        exists last_poll, tr, v, groups, e
      end
    end;
    rewrite Hpub; done.
Qed.

(** A point without an entry is given one and skipped. *)
Lemma poll_point_new (point : Point) (st : state) :
  point_last_poll st !! id point = None ->
  step point st
  = (State (<[id point :=
               inject_Z (next_minute current_time - pollInterval point)]>
              (point_last_poll st))
           (total_reads st) (successful_reads st) (failed_reads st)
           (S (skipped_reads st)) (individual_publishes st)
           (bacnet_log st) (mqtt_log st) (equipment_groups st)
           (batch_publishes st) (batch_log st),
     None).
Proof. intros H. unfold poll_point. by rewrite H. Qed.

(** A point that is due and answers is stamped with the time of the
    tick. *)
Lemma poll_point_success (point : Point) (st : state) (last_poll : Q)
    (value : pyval) :
  point_last_poll st !! id point = Some last_poll ->
  not_yet_due current_time last_poll (pollInterval point) = false ->
  fst (read point) = Ok value ->
  value <> VNone ->
  point_last_poll (fst (step point st))
  = <[id point := current_time]> (point_last_poll st)
  /\ successful_reads (fst (step point st)) = S (successful_reads st).
Proof.
  intros Hlast Hdue Hread Hvalue.
  destruct (poll_point_cases point st)
    as [[Hl _]
       |[(l & Hl & Hd & _)
        |[(l & tr & e & _ & _ & Hr & _)
         |[(l & tr & _ & _ & Hr & _)
          |(l & tr & v & groups & e & _ & _ & Hr & _ & _ & ->)]]]].
  - congruence.
  - congruence.
  - rewrite Hr in Hread. discriminate.
  - rewrite Hr in Hread. cbn [fst] in Hread. unfold Ok in Hread.
    by injection Hread as <-.
  - done.
Qed.

(** One iteration logs at most the read of its own point. *)
Lemma poll_point_log (point : Point) (st : state) :
  bacnet_log (fst (step point st)) = bacnet_log st
  \/ exists tr, bacnet_log (fst (step point st))
                = bacnet_log st ++ [(id point, tr)].
Proof.
  destruct (poll_point_cases point st)
    as [[_ ->]
       |[(l & _ & _ & ->)
        |[(l & tr & e & _ & _ & _ & ->)
         |[(l & tr & _ & _ & _ & ->)
          |(l & tr & v & groups & e & _ & _ & _ & _ & _ & ->)]]]];
    [by left|by left|right; by exists tr..].
Qed.

(** One iteration touches the entry of its own point only. *)
Lemma poll_point_other (point : Point) (st : state) (k : pystr) :
  k <> id point ->
  point_last_poll (fst (step point st)) !! k = point_last_poll st !! k.
Proof.
  intros Hk.
  destruct (poll_point_cases point st)
    as [[_ ->]
       |[(l & _ & _ & ->)
        |[(l & tr & e & _ & _ & _ & ->)
         |[(l & tr & _ & _ & _ & ->)
          |(l & tr & v & groups & e & _ & _ & _ & _ & _ & ->)]]]];
    cbn [fst point_last_poll skip]; try done; by rewrite lookup_insert_ne.
Qed.

Lemma poll_points_other (points : list Point) (st : state) (k : pystr) :
  k ∉ map id points ->
  point_last_poll (fst (steps points st)) !! k = point_last_poll st !! k.
Proof.
  revert st. induction points as [|p rest IH]; intros st Hk; [done|].
  cbn [map] in Hk. apply not_elem_of_cons in Hk as [Hp Hrest].
  cbn [poll_points].
  pose proof (poll_point_other p st k Hp) as Hstep.
  destruct (step p st) as [st' [e|]]; cbn [fst] in *; [done|].
  by rewrite IH.
Qed.

Lemma log_extended (st st' : state) (p : Point) (k : pystr) :
  k <> id p ->
  (bacnet_log st' = bacnet_log st
   \/ exists tr, bacnet_log st' = bacnet_log st ++ [(id p, tr)]) ->
  (forall tr, (k, tr) ∉ bacnet_log st) ->
  forall tr, (k, tr) ∉ bacnet_log st'.
Proof.
  intros Hne [->|[tr' ->]] Hlog tr; [apply Hlog|].
  rewrite elem_of_app, list_elem_of_singleton.
  intros [?|[= ? _]]; [by eapply Hlog|done].
Qed.

(** Points with other identifiers do not log a read of [k]. *)
Lemma poll_points_log_other (points : list Point) (st : state) (k : pystr) :
  k ∉ map id points ->
  (forall tr, (k, tr) ∉ bacnet_log st) ->
  forall tr, (k, tr) ∉ bacnet_log (fst (steps points st)).
Proof.
  revert st. induction points as [|p rest IH]; intros st Hk Hlog; [done|].
  cbn [map] in Hk. apply not_elem_of_cons in Hk as [Hp Hrest].
  cbn [poll_points].
  pose proof (log_extended st (fst (step p st)) p k Hp (poll_point_log p st)
                Hlog) as Hlog'.
  destruct (step p st) as [st' [e|]]; cbn [fst] in *; [done|].
  by apply IH.
Qed.

(** A point that has no entry when the loop reaches it is not read in
    that tick. *)
Lemma poll_points_not_read (points : list Point) (st : state) (k : pystr) :
  NoDup (map id points) ->
  point_last_poll st !! k = None ->
  (forall tr, (k, tr) ∉ bacnet_log st) ->
  forall tr, (k, tr) ∉ bacnet_log (fst (steps points st)).
Proof.
  revert st. induction points as [|p rest IH]; intros st Hnd Hnone Hlog;
    [done|].
  cbn [map] in Hnd. apply NoDup_cons in Hnd as [Hp Hrest].
  cbn [poll_points].
  destruct (decide (k = id p)) as [->|Hne].
  - rewrite (poll_point_new p st Hnone).
    by apply poll_points_log_other.
  - pose proof (log_extended st (fst (step p st)) p k Hne
                  (poll_point_log p st) Hlog) as Hlog'.
    pose proof (poll_point_other p st k Hne) as Hk.
    destruct (step p st) as [st' [e|]]; cbn [fst] in *; [done|].
    apply IH; [done|by rewrite Hk|done].
Qed.

(** A successful read keeps its stamp until the end of the tick. *)
Lemma poll_points_success (points : list Point) (st : state) (point : Point)
    (last_poll : Q) (value : pyval) :
  NoDup (map id points) ->
  point ∈ points ->
  point_last_poll st !! id point = Some last_poll ->
  not_yet_due current_time last_poll (pollInterval point) = false ->
  fst (read point) = Ok value ->
  value <> VNone ->
  snd (steps points st) = None ->
  point_last_poll (fst (steps points st)) !! id point = Some current_time.
Proof.
  revert st. induction points as [|p rest IH];
    intros st Hnd Hin Hlast Hdue Hread Hvalue Hnone;
    [by apply elem_of_nil in Hin|].
  cbn [map] in Hnd. apply NoDup_cons in Hnd as [Hp Hrest].
  cbn [poll_points] in *.
  apply elem_of_cons in Hin as [<-|Hin].
  - destruct (poll_point_success point st last_poll value Hlast Hdue Hread
                Hvalue) as (Hmap & _).
    destruct (step point st) as [st' [e|]]; cbn [fst snd] in *; [done|].
    rewrite poll_points_other by done. rewrite Hmap.
    apply lookup_insert_eq.
  - assert (id point <> id p) as Hne.
    { intros Heq. apply Hp. rewrite <- Heq.
      apply list_elem_of_fmap. by exists point. }
    pose proof (poll_point_other p st (id point) Hne) as Hk.
    destruct (step p st) as [st' [e|]]; cbn [fst snd] in *; [done|].
    apply IH; [done|done|by rewrite Hk|done..].
Qed.

(** The batches change the batch counter and the batch log only. *)
Lemma publish_groups_frame (groups : list (equipment_key * list point_data))
    (st : state) :
  exists n log,
    fold_left (publish_group timestamp batch) groups st
    = State (point_last_poll st) (total_reads st) (successful_reads st)
            (failed_reads st) (skipped_reads st) (individual_publishes st)
            (bacnet_log st) (mqtt_log st) (equipment_groups st) n
            (batch_log st ++ log)
    /\ (n = batch_publishes st + length log)%nat.
Proof.
  revert st. induction groups as [|g groups IH]; intros st.
  - exists (batch_publishes st), []. cbn. rewrite app_nil_r.
    split; [by destruct st|lia].
  - cbn [fold_left].
    destruct (IH (publish_group timestamp batch st g)) as (n & log & -> & Hn).
    unfold publish_group in *. unfold publish_equipment_batch in *.
    destruct (fst g) as [[site_id equipment_type] equipment_id].
    destruct (batch_broker batch _);
      cbn [point_last_poll total_reads successful_reads failed_reads
           skipped_reads individual_publishes bacnet_log mqtt_log
           equipment_groups batch_publishes batch_log] in *.
    + eexists n, (_ :: log). rewrite <- app_assoc. split; [done|].
      cbn [length]. lia.
    + exists n, log. rewrite app_nil_r in *. split; [done|lia].
Qed.

Lemma publish_batches_frame (st : state) :
  exists n log,
    publish_batches timestamp batch st
    = State (point_last_poll st) (total_reads st) (successful_reads st)
            (failed_reads st) (skipped_reads st) (individual_publishes st)
            (bacnet_log st) (mqtt_log st) (equipment_groups st) n
            (batch_log st ++ log)
    /\ (n = batch_publishes st + length log)%nat.
Proof.
  unfold publish_batches. destruct (enable_batch_publishing batch).
  - apply publish_groups_frame.
  - exists (batch_publishes st), []. rewrite app_nil_r.
    split; [by destruct st|cbn; lia].
Qed.

(** What the loop leaves is what the tick leaves, the batches apart. *)
Lemma tick_loop (points : list Point) (last_poll : gmap pystr Q) :
  snd (tick points last_poll) = snd (steps points (start_tick last_poll))
  /\ point_last_poll (fst (tick points last_poll))
     = point_last_poll (fst (steps points (start_tick last_poll)))
  /\ total_reads (fst (tick points last_poll))
     = total_reads (fst (steps points (start_tick last_poll)))
  /\ successful_reads (fst (tick points last_poll))
     = successful_reads (fst (steps points (start_tick last_poll)))
  /\ failed_reads (fst (tick points last_poll))
     = failed_reads (fst (steps points (start_tick last_poll)))
  /\ skipped_reads (fst (tick points last_poll))
     = skipped_reads (fst (steps points (start_tick last_poll)))
  /\ individual_publishes (fst (tick points last_poll))
     = individual_publishes (fst (steps points (start_tick last_poll)))
  /\ bacnet_log (fst (tick points last_poll))
     = bacnet_log (fst (steps points (start_tick last_poll)))
  /\ mqtt_log (fst (tick points last_poll))
     = mqtt_log (fst (steps points (start_tick last_poll))).
Proof.
  unfold poll_and_publish.
  destruct (steps points (start_tick last_poll)) as [st [e|]];
    [by repeat split|].
  destruct (publish_batches_frame st) as (n & log & -> & _).
  by repeat split.
Qed.

(** C3. A point met without an entry is not read in that tick: its
    iteration issues no request and counts it as skipped, and no read of
    it is logged by the whole tick; its entry is set so that it is due
    from the next minute boundary [ceil(t / 60) * 60] on, and not
    before. *)
Theorem first_observation_minute_aligned (point : Point) :
  (forall st,
     point_last_poll st !! id point = None ->
     snd (step point st) = None
     /\ bacnet_log (fst (step point st)) = bacnet_log st
     /\ total_reads (fst (step point st)) = total_reads st
     /\ skipped_reads (fst (step point st)) = S (skipped_reads st)
     /\ exists last_poll,
          point_last_poll (fst (step point st)) !! id point = Some last_poll
          /\ forall t,
               not_yet_due t last_poll (pollInterval point) = false
               <-> (inject_Z (Qceiling (current_time / 60) * 60) <= t)%Q)
  /\ (forall points last_poll,
        NoDup (map id points) ->
        last_poll !! id point = None ->
        forall tr,
          (id point, tr)
          ∉ bacnet_log
              (fst (poll_and_publish int_of_str float_of_str self lib net
                      mqtt_connected broker current_time timestamp batch
                      points last_poll))).
Proof.
  split.
  - intros st Hnone. rewrite (poll_point_new point st Hnone).
    cbn [fst snd bacnet_log total_reads skipped_reads point_last_poll].
    repeat (split; [done|]).
    eexists. split; [apply lookup_insert_eq|].
    intros t. rewrite not_yet_due_false. unfold next_due, next_minute.
    unfold Z.sub. rewrite inject_Z_plus, inject_Z_opp.
    split; intros H; lra.
  - intros points last_poll Hnd Hnone.
    destruct (tick_loop points last_poll)
      as (_ & _ & _ & _ & _ & _ & _ & -> & _).
    apply poll_points_not_read; [done|done|].
    intros tr. apply not_elem_of_nil.
Qed.

(** C2, as amended. A point that is due and read successfully at the time
    [now] of the tick gets [now] as its last poll time, and keeps it to the
    end of the tick: it is due again from [now + pollInterval] on, which
    is later than [now] when the interval is positive. *)
Theorem successful_read_reschedules (point : Point) (last_poll : Q)
    (value : pyval) :
  not_yet_due current_time last_poll (pollInterval point) = false ->
  fst (read point) = Ok value ->
  value <> VNone ->
  (forall st,
     point_last_poll st !! id point = Some last_poll ->
     successful_reads (fst (step point st)) = S (successful_reads st)
     /\ point_last_poll (fst (step point st)) !! id point
        = Some current_time)
  /\ (forall points st,
        NoDup (map id points) ->
        point ∈ points ->
        point_last_poll st !! id point = Some last_poll ->
        snd (steps points st) = None ->
        point_last_poll (fst (steps points st)) !! id point
        = Some current_time)
  /\ (forall t,
        not_yet_due t current_time (pollInterval point) = false
        <-> (current_time + inject_Z (pollInterval point) <= t)%Q)
  /\ ((0 < pollInterval point)%Z ->
      (current_time < next_due current_time (pollInterval point))%Q).
Proof.
  intros Hdue Hread Hvalue. repeat split.
  - by destruct (poll_point_success point st last_poll value H Hdue Hread
                   Hvalue) as (_ & ->).
  - destruct (poll_point_success point st last_poll value H Hdue Hread
                Hvalue) as (-> & _).
    apply lookup_insert_eq.
  - intros points st Hnd Hin Hlast Hnone.
    by apply (poll_points_success points st point last_poll value).
  - by intros ?%not_yet_due_false.
  - by intros ?%not_yet_due_false.
  - intros Hpos. unfold next_due.
    assert (0 < inject_Z (pollInterval point))%Q
      by (change 0%Q with (inject_Z 0); by rewrite <- Zlt_Qlt).
    lra.
Qed.

End SchedulerTheorems.

Section SchedulerExamples.
Import Py Bacnet Retry Publisher Scheduler Examples.

(** C2, counterexample. The point was due at 60 s and is polled every
    60 s; the tick that reads it runs at 62 s. It is then due again at
    122 s: not at 60 + 60, and not at an instant congruent to 60 modulo
    the interval. *)
Lemma next_due_drifts :
  successful_reads
    (fst (poll_and_publish refuse_int refuse_float self_config permissive
            answering true accepting 62 s1_timestamp no_batches [s1_point]
            {[ id s1_point := 0%Q ]})) = 1%nat
  /\ point_last_poll
       (fst (poll_and_publish refuse_int refuse_float self_config permissive
               answering true accepting 62 s1_timestamp no_batches
               [s1_point] {[ id s1_point := 0%Q ]})) !! id s1_point
     = Some 62%Q
  /\ ~ (next_due 62 60 == next_due 0 60 + 60)%Q
  /\ ~ (exists k : Z,
          (next_due 62 60 - next_due 0 60 == inject_Z k * 60)%Q).
Proof.
  split; [vm_compute; reflexivity|].
  split; [vm_compute; reflexivity|].
  split.
  - intros H. vm_compute in H. discriminate.
  - intros [k H]. unfold Qeq in H. cbn in H. lia.
Qed.

(** S5: the point is first seen at 10:00:27 (36027 s). *)
Lemma first_observation_minute_aligned_witness :
  point_last_poll (start_tick ∅) !! id s1_point = None
  /\ skipped_reads
       (fst (poll_point refuse_int refuse_float self_config permissive
               answering true accepting 36027 s1_timestamp s1_point
               (start_tick ∅))) = 1%nat
  /\ bacnet_log
       (fst (poll_point refuse_int refuse_float self_config permissive
               answering true accepting 36027 s1_timestamp s1_point
               (start_tick ∅))) = [].
Proof.
  assert (point_last_poll (start_tick ∅) !! id s1_point = None) as Hnone
    by reflexivity.
  destruct (proj1 (first_observation_minute_aligned refuse_int refuse_float
                     self_config permissive answering true accepting 36027
                     s1_timestamp no_batches s1_point) (start_tick ∅) Hnone)
    as (_ & Hlog & _ & Hskip & _).
  split; [exact Hnone|]. split; [exact Hskip|exact Hlog].
Defined.

(** The tick at 62 s of the point that was due at 60 s. *)
Lemma successful_read_reschedules_witness :
  not_yet_due 62 0 (pollInterval s1_point) = false
  /\ fst (read_with_retry refuse_int refuse_float self_config
            (answering s1_point) permissive (ipAddress s1_point)
            (port s1_point) (objectType s1_point) (objectInstance s1_point))
     = Ok (VFloat (S754_finite false 16121856 (-17)))
  /\ VFloat (S754_finite false 16121856 (-17)) <> VNone
  /\ (0 < pollInterval s1_point)%Z
  /\ (62 < next_due 62 (pollInterval s1_point))%Q.
Proof.
  assert (not_yet_due 62 0 (pollInterval s1_point) = false) as Hdue
    by reflexivity.
  assert (fst (read_with_retry refuse_int refuse_float self_config
                 (answering s1_point) permissive (ipAddress s1_point)
                 (port s1_point) (objectType s1_point)
                 (objectInstance s1_point))
          = Ok (VFloat (S754_finite false 16121856 (-17)))) as Hread
    by reflexivity.
  assert (VFloat (S754_finite false 16121856 (-17)) <> VNone) as Hvalue
    by discriminate.
  assert (0 < pollInterval s1_point)%Z as Hpos by reflexivity.
  destruct (successful_read_reschedules refuse_int refuse_float self_config
              permissive answering true accepting 62 s1_timestamp s1_point
              0 _ Hdue Hread Hvalue) as (_ & _ & _ & Hlater).
  split; [exact Hdue|]. split; [exact Hread|]. split; [exact Hvalue|].
  split; [exact Hpos|]. exact (Hlater Hpos).
Defined.

End SchedulerExamples.

Section SinkFacts.
Import Py Sink SinkSpec.

Context {datetime : Type}.
Variable fromisoformat : pystr -> option datetime.

Local Abbreviation handle := (on_message fromisoformat).

Lemma pop_oldest_drop (n : nat) (seen : list key) :
  pop_oldest n seen = drop n seen.
Proof.
  revert seen. induction n as [|n IH]; intros seen; [done|].
  cbn [pop_oldest]. rewrite IH. destruct seen; cbn; [by destruct n|done].
Qed.

(** A message that does not reach the check changes neither the cache nor
    the table. *)
Lemma on_message_unchecked (w : world datetime) (msg : message)
    (st : state datetime) :
  checked_key fromisoformat w msg = None ->
  seen_messages (handle w msg st) = seen_messages st
  /\ sensor_readings (handle w msg st) = sensor_readings st.
Proof.
  unfold checked_key, on_message. destruct msg as [| |p]; try done.
  by destruct (parse_time fromisoformat w (timestamp p)).
Qed.

(** A message whose key is in the cache is dropped. *)
Lemma on_message_seen (w : world datetime) (msg : message)
    (st : state datetime) (k : key) :
  checked_key fromisoformat w msg = Some k ->
  k ∈ seen_messages st ->
  seen_messages (handle w msg st) = seen_messages st
  /\ sensor_readings (handle w msg st) = sensor_readings st
  /\ messages_written (handle w msg st) = messages_written st
  /\ errors (handle w msg st) = errors st.
Proof.
  unfold checked_key, on_message. destruct msg as [| |p]; try done.
  destruct (parse_time fromisoformat w (timestamp p)) as [dt|]; [|done].
  intros [= <-] Hin. by rewrite bool_decide_eq_true_2.
Qed.

(** A message with a new key: the key is recorded, the cache is trimmed,
    and the insert is tried once. *)
Lemma on_message_new (w : world datetime) (msg : message)
    (st : state datetime) (k : key) :
  checked_key fromisoformat w msg = Some k ->
  k ∉ seen_messages st ->
  seen_messages (handle w msg st)
  = (if (1000 <? length (seen_messages st ++ [k]))%nat
     then drop 100 (seen_messages st ++ [k])
     else seen_messages st ++ [k])
  /\ (exists r, row_key r = k
         /\ sensor_readings (handle w msg st)
            = if insert_succeeds w then sensor_readings st ++ [r]
              else sensor_readings st)
  /\ messages_written (handle w msg st) = S (messages_written st)
  /\ errors (handle w msg st) = errors st.
Proof.
  unfold checked_key, on_message. destruct msg as [| |p]; try done.
  destruct (parse_time fromisoformat w (timestamp p)) as [dt|]; [|done].
  intros [= <-] Hin. rewrite bool_decide_eq_false_2 by done.
  cbn [seen_messages sensor_readings messages_written errors].
  rewrite pop_oldest_drop. split; [done|]. split; [|done].
  exists {| time := dt; source := p |}. split; [done|].
  unfold insert_sensor_reading. done.
Qed.

Lemma distinct_mono (l1 l2 : list key) :
  (forall x, x ∈ l1 -> x ∈ l2) -> (distinct l1 <= distinct l2)%nat.
Proof.
  intros Hsub. unfold distinct. apply subseteq_size.
  intros x. rewrite !elem_of_list_to_set. apply Hsub.
Qed.

Lemma distinct_NoDup (l : list key) : NoDup l -> distinct l = length l.
Proof. apply size_list_to_set. Qed.

Lemma stream_keys_cons (w : world datetime) (msg : message)
    (rest : list (world datetime * message)) :
  stream_keys fromisoformat ((w, msg) :: rest)
  = match checked_key fromisoformat w msg with
    | Some k => k :: stream_keys fromisoformat rest
    | None => stream_keys fromisoformat rest
    end.
Proof. done. Qed.

(** One message keeps the invariant when the cache has room for its key. *)
Lemma on_message_invariant (w : world datetime) (msg : message)
    (st : state datetime) :
  window_invariant st ->
  (forall k, checked_key fromisoformat w msg = Some k ->
             k ∉ seen_messages st -> (length (seen_messages st) < 1000)%nat) ->
  window_invariant (handle w msg st).
Proof.
  intros (Hseen & Hrows & Hsub) Hroom. unfold window_invariant.
  destruct (checked_key fromisoformat w msg) as [k|] eqn:Hk.
  - destruct (decide (k ∈ seen_messages st)) as [Hin|Hnew].
    + destruct (on_message_seen w msg st k Hk Hin) as (-> & -> & _). done.
    + destruct (on_message_new w msg st k Hk Hnew)
        as (-> & (r & Hr & ->) & _).
      specialize (Hroom k eq_refl Hnew).
      destruct (Nat.ltb_spec 1000 (length (seen_messages st ++ [k])))
        as [Hlen|_]; [rewrite length_app in Hlen; cbn in Hlen; lia|].
      assert (NoDup (seen_messages st ++ [k])) as Hseen'.
      { apply NoDup_app. split; [done|]. split; [|apply NoDup_singleton].
        intros x Hx ->%list_elem_of_singleton. done. }
      split; [done|].
      destruct (insert_succeeds w).
      * rewrite map_app. cbn [map]. rewrite Hr. split.
        -- apply NoDup_app. split; [done|]. split; [|apply NoDup_singleton].
           intros x Hx ->%list_elem_of_singleton. by apply Hnew, Hsub.
        -- intros x [Hx|Hx]%elem_of_app; apply elem_of_app; [left|right];
             [by apply Hsub|done].
      * split; [done|]. intros x Hx. apply elem_of_app. left. by apply Hsub.
  - destruct (on_message_unchecked w msg st Hk) as (-> & ->). done.
Qed.

(** As long as the cache and the keys still to come hold at most 1000
    distinct keys, the invariant holds to the end of the stream. *)
Lemma run_invariant (stream : list (world datetime * message))
    (st : state datetime) :
  window_invariant st ->
  (distinct (seen_messages st ++ stream_keys fromisoformat stream) <= 1000)%nat ->
  window_invariant (run fromisoformat stream st).
Proof.
  revert st. induction stream as [|[w msg] rest IH]; intros st Hinv Hsize;
    [done|].
  cbn [run fold_left fst snd]. apply IH.
  - apply on_message_invariant; [done|].
    intros k Hk Hnew. rewrite stream_keys_cons, Hk in Hsize.
    destruct Hinv as (Hseen & _).
    assert (NoDup (seen_messages st ++ [k])) as Hnd.
    { apply NoDup_app. split; [done|]. split; [|apply NoDup_singleton].
      intros x Hx ->%list_elem_of_singleton. done. }
    assert (length (seen_messages st ++ [k]) <= 1000)%nat as Hlen.
    { rewrite <- distinct_NoDup by done.
      etrans; [|exact Hsize]. apply distinct_mono.
      intros x. rewrite !elem_of_app, !elem_of_cons, elem_of_nil. tauto. }
    rewrite length_app in Hlen. cbn in Hlen. lia.
  - rewrite stream_keys_cons in Hsize.
    destruct (checked_key fromisoformat w msg) as [k|] eqn:Hk.
    + destruct (decide (k ∈ seen_messages st)) as [Hin|Hnew].
      * destruct (on_message_seen w msg st k Hk Hin) as (-> & _).
        etrans; [|exact Hsize]. apply distinct_mono.
        intros x. rewrite !elem_of_app, elem_of_cons. tauto.
      * destruct (on_message_new w msg st k Hk Hnew) as (-> & _).
        destruct (1000 <? length (seen_messages st ++ [k]))%nat.
        -- etrans; [|exact Hsize]. apply distinct_mono.
           intros x. rewrite !elem_of_app, elem_of_cons.
           intros [Hx%subseteq_drop|Hx]; [|tauto].
           apply elem_of_app in Hx as [Hx|Hx%list_elem_of_singleton];
             tauto.
        -- by rewrite <- app_assoc.
    + by destruct (on_message_unchecked w msg st Hk) as (-> & _).
Qed.

(** The cache never holds more than 1000 keys after a message. *)
Lemma on_message_bounded (w : world datetime) (msg : message)
    (st : state datetime) :
  (length (seen_messages st) <= 1000)%nat ->
  (length (seen_messages (handle w msg st)) <= 1000)%nat.
Proof.
  intros Hlen.
  destruct (checked_key fromisoformat w msg) as [k|] eqn:Hk.
  - destruct (decide (k ∈ seen_messages st)) as [Hin|Hnew].
    + by destruct (on_message_seen w msg st k Hk Hin) as (-> & _).
    + destruct (on_message_new w msg st k Hk Hnew) as (-> & _).
      destruct (Nat.ltb_spec 1000 (length (seen_messages st ++ [k])))
        as [H|H]; [|done].
      rewrite length_drop, length_app. cbn. lia.
  - by destruct (on_message_unchecked w msg st Hk) as (-> & _).
Qed.

Lemma run_bounded (stream : list (world datetime * message))
    (st : state datetime) :
  (length (seen_messages st) <= 1000)%nat ->
  (length (seen_messages (run fromisoformat stream st)) <= 1000)%nat.
Proof.
  revert st. induction stream as [|[w msg] rest IH]; intros st Hlen; [done|].
  cbn [run fold_left fst snd]. by apply IH, on_message_bounded.
Qed.

End SinkFacts.

Section SinkTheorems.
Import Py Sink SinkSpec.

Context {datetime : Type}.
Variable fromisoformat : pystr -> option datetime.

Local Abbreviation handle := (on_message fromisoformat).

(** C7, as amended. The key of a message is its [haystackName] with the
    first 19 characters of its time stamp as a text (the whole text when it
    is shorter, [None] when there is none). For a stream whose messages
    carry at most 1000 distinct keys, the rows inserted have pairwise
    different keys: at most one row per key. The cache never holds more
    than 1000 keys once a message is handled, and when a new key makes it
    grow past 1000 entries exactly the 100 oldest keys leave it, the
    others staying in their order of arrival. *)
Theorem dedup_window (stream : list (world datetime * message)) :
  (forall p,
     dedup_key p
     = (haystackName p,
        match timestamp p with
        | Some text =>
          if (19 <=? length text)%nat then Some (take 19 text) else Some text
        | None => None
        end))
  /\ ((distinct (stream_keys fromisoformat stream) <= 1000)%nat ->
      NoDup (map row_key
               (sensor_readings (run fromisoformat stream initial))))
  /\ (length (seen_messages (run fromisoformat stream initial)) <= 1000)%nat
  /\ (forall (st : state datetime) w msg k,
        checked_key fromisoformat w msg = Some k ->
        k ∉ seen_messages st ->
        (1000 < length (seen_messages st ++ [k]))%nat ->
        seen_messages st ++ [k]
        = take 100 (seen_messages st) ++ seen_messages (handle w msg st)
        /\ length (take 100 (seen_messages st)) = 100%nat).
Proof.
  split; [|split; [|split]].
  - intros p. unfold dedup_key, timestamp_second.
    by destruct (timestamp p).
  - intros Hsize.
    apply (run_invariant fromisoformat stream initial); [|done].
    repeat split; [apply NoDup_nil_2..|]. by intros k ?%elem_of_nil.
  - apply run_bounded. cbn. lia.
  - intros st w msg k Hk Hnew Hlen.
    destruct (on_message_new fromisoformat w msg st k Hk Hnew) as (-> & _).
    destruct (Nat.ltb_spec 1000 (length (seen_messages st ++ [k])))
      as [_|]; [|lia].
    rewrite length_app in Hlen. cbn in Hlen.
    rewrite <- (take_app_le (seen_messages st) [k] 100) by lia.
    rewrite take_drop. split; [done|].
    rewrite length_take, length_app. cbn [length]. lia.
Qed.

(** C10, as amended. The key is put in the cache before the insert is
    tried, and a failed insert raises nothing: the message is counted as
    written, no row is stored, no error is counted, and the reading is
    not tried again; as long as the key stays in the cache, every later
    message with that key is dropped and leaves the table as it is. *)
Theorem failed_insert_not_retried (w : world datetime) (p : payload)
    (st : state datetime) (dt : datetime) :
  parse_time fromisoformat w (timestamp p) = Some dt ->
  dedup_key p ∉ seen_messages st ->
  insert_succeeds w = false ->
  dedup_key p ∈ seen_messages (handle w (Json p) st)
  /\ sensor_readings (handle w (Json p) st) = sensor_readings st
  /\ errors (handle w (Json p) st) = errors st
  /\ messages_written (handle w (Json p) st) = S (messages_written st)
  /\ (forall (st' : state datetime) w' p',
        dedup_key p' = dedup_key p ->
        dedup_key p ∈ seen_messages st' ->
        sensor_readings (handle w' (Json p') st') = sensor_readings st'
        /\ seen_messages (handle w' (Json p') st') = seen_messages st').
Proof.
  intros Hdt Hnew Hfail.
  assert (checked_key fromisoformat w (Json p) = Some (dedup_key p)) as Hk
    by (cbn; by rewrite Hdt).
  destruct (on_message_new fromisoformat w (Json p) st _ Hk Hnew)
    as (Hseen & (r & _ & Hrows) & Hwritten & Herrors).
  rewrite Hfail in Hrows.
  split; [|split; [done|split; [done|split; [done|]]]].
  - rewrite Hseen.
    destruct (Nat.ltb_spec 1000 (length (seen_messages st ++ [dedup_key p])))
      as [Hlen|_].
    + rewrite length_app in Hlen. cbn in Hlen.
      rewrite drop_app_le by lia. apply elem_of_app. right.
      by apply list_elem_of_singleton.
    + apply elem_of_app. right. by apply list_elem_of_singleton.
  - intros st' w' p' Hsame Hin.
    destruct (checked_key fromisoformat w' (Json p')) as [k|] eqn:Hk'.
    + assert (k = dedup_key p) as ->.
      { unfold checked_key in Hk'.
        destruct (parse_time fromisoformat w' (timestamp p')); [|done].
        injection Hk' as <-. exact Hsame. }
      by destruct (on_message_seen fromisoformat w' (Json p') st' _ Hk' Hin)
        as (-> & -> & _).
    + by destruct (on_message_unchecked fromisoformat w' (Json p') st' Hk')
        as (-> & ->).
Qed.

End SinkTheorems.

Section SinkExamples.
Import Py Sink SinkSpec Examples.

(** S4: two messages within the same second give one row. *)
Lemma dedup_window_witness :
  (distinct (stream_keys iso_text s4_stream) <= 1000)%nat
  /\ length (sensor_readings (run iso_text s4_stream initial)) = 1%nat
  /\ NoDup (map row_key (sensor_readings (run iso_text s4_stream initial))).
Proof.
  assert (distinct (stream_keys iso_text s4_stream) <= 1000)%nat as Hsize
    by (vm_compute; lia).
  split; [exact Hsize|]. split; [reflexivity|].
  exact (proj1 (proj2 (dedup_window iso_text s4_stream)) Hsize).
Defined.

(** C7, counterexample. One reading sent twice, its time stamp written
    with two UTC offsets: the stream has two distinct keys, and two rows
    are inserted for the same point and the same second. *)
Lemma same_second_two_rows :
  (distinct (stream_keys instant_of offsets_stream) <= 1000)%nat
  /\ map (fun r => (haystackName (source r), time r))
       (sensor_readings (run instant_of offsets_stream initial))
     = [ (Some (py "site.ahu.1.sensor.temp"), 1709287200%Z);
         (Some (py "site.ahu.1.sensor.temp"), 1709287200%Z) ]
  /\ ~ NoDup (map (fun r => (haystackName (source r), time r))
                (sensor_readings (run instant_of offsets_stream initial))).
Proof.
  assert (map (fun r => (haystackName (source r), time r))
            (sensor_readings (run instant_of offsets_stream initial))
          = [ (Some (py "site.ahu.1.sensor.temp"), 1709287200%Z);
              (Some (py "site.ahu.1.sensor.temp"), 1709287200%Z) ]) as Hrows
    by (vm_compute; reflexivity).
  split; [vm_compute; lia|]. split; [exact Hrows|].
  rewrite Hrows. intros Hnd. apply NoDup_cons in Hnd as [Hnot _].
  apply Hnot. apply list_elem_of_here.
Qed.

(** C10, counterexample. The insert of a reading fails; a thousand
    readings of other points follow, the last of which evicts its key; the
    same reading then arrives again and is inserted, not dropped. *)
Lemma lost_reading_inserted_after_eviction :
  sensor_readings (run iso_text [(db_down, lost_reading)] initial) = []
  /\ length (sensor_readings (run iso_text flood initial)) = 1000%nat
  /\ bool_decide (dedup_key lost_payload
                  ∈ seen_messages (run iso_text flood initial)) = false
  /\ map row_key
       (drop 1000
          (sensor_readings
             (run iso_text (flood ++ [(db_up, lost_reading)]) initial)))
     = [dedup_key lost_payload].
Proof.
  split; [reflexivity|]. split; [vm_compute; reflexivity|].
  split; vm_compute; reflexivity.
Qed.

(** The insert of the first reading fails. *)
Lemma failed_insert_not_retried_witness :
  parse_time iso_text db_down (timestamp lost_payload)
  = Some (py "2024-03-01T10:00:00.123+00:00")
  /\ (dedup_key lost_payload ∉ seen_messages (@initial pystr))
  /\ insert_succeeds db_down = false
  /\ sensor_readings (on_message iso_text db_down (Json lost_payload) initial)
     = []
  /\ sensor_readings
       (on_message iso_text db_up (Json lost_payload)
          (on_message iso_text db_down (Json lost_payload) initial))
     = [].
Proof.
  assert (parse_time iso_text db_down (timestamp lost_payload)
          = Some (py "2024-03-01T10:00:00.123+00:00")) as Hdt
    by reflexivity.
  assert (dedup_key lost_payload ∉ seen_messages (@initial pystr))
    as Hnew by apply not_elem_of_nil.
  assert (insert_succeeds db_down = false) as Hfail by reflexivity.
  destruct (failed_insert_not_retried iso_text db_down lost_payload initial
              _ Hdt Hnew Hfail) as (Hin & Hrows & _ & _ & Hlater).
  split; [exact Hdt|]. split; [exact Hnew|]. split; [exact Hfail|].
  split; [exact Hrows|].
  destruct (Hlater _ db_up lost_payload eq_refl Hin) as [-> _].
  exact Hrows.
Defined.

End SinkExamples.

(** * Further properties *)

Section RetryMore.
Import Py Codec CodecSpec Bacnet Retry RetrySpec RetryMeasure.
Local Open Scope Z_scope.

Variable int_of_str : pystr -> option Z.
Variable float_of_str : pystr -> option float.
Variable self : retry_config.
Variable net : network.

Local Abbreviation loop := (retry_loop int_of_str float_of_str self net).

Lemma waited_app (tr1 tr2 : list event) :
  waited (tr1 ++ tr2) = waited tr1 + waited tr2.
Proof.
  induction tr1 as [|e tr1 IH]; [done|].
  cbn [app waited fold_right]. fold (waited (tr1 ++ tr2)). fold (waited tr1).
  rewrite IH. destruct e; lia.
Qed.

Lemma waited_sleep (attempt : nat) :
  waited (sleep_before_retry self attempt)
  = if (attempt <? max_retries self)%nat then 500 else 0.
Proof. unfold sleep_before_retry. by destruct (_ <? _)%nat. Qed.

Local Abbreviation budget := (RetryMeasure.budget self).

Lemma timeout_nonneg (attempt : nat) :
  0 <= base_timeout self -> 0 <= timeout_of self attempt.
Proof.
  intros Hbase. unfold timeout_of.
  destruct (exponential_backoff self && (0 <? attempt)%nat); [|done].
  apply Z.mul_nonneg_nonneg; [done|]. apply Z.pow_nonneg. lia.
Qed.

Lemma budget_nonneg (attempts : list nat) :
  0 <= base_timeout self -> 0 <= budget attempts.
Proof.
  intros Hbase. induction attempts as [|a rest IH]; [done|].
  cbn [RetryMeasure.budget fold_right]. fold (budget rest).
  pose proof (timeout_nonneg a Hbase). destruct (a <? max_retries self)%nat; lia.
Qed.

Lemma loop_waited (attempts : list nat) :
  0 <= base_timeout self ->
  waited (snd (loop attempts)) <= budget attempts.
Proof.
  intros Hbase. induction attempts as [|a rest IH]; [done|].
  rewrite loop_step. cbn [RetryMeasure.budget fold_right waited].
  fold (budget rest).
  pose proof (budget_nonneg rest Hbase) as Hrest.
  pose proof (timeout_nonneg a Hbase) as Ha.
  match goal with
  | |- context [fold_right _ 0 ?tr] => change (fold_right _ 0 tr) with (waited tr)
  end.
  destruct (net a (timeout_of self a)) as [| | |pv];
    try destruct (extract_value int_of_str float_of_str pv);
    rewrite ?waited_app, ?waited_sleep; cbn [waited fold_right];
    destruct (a <? max_retries self)%nat; lia.
Qed.

(** The first answer with a [propertyValue] ends the loop. *)
Lemma loop_first_answer (n j k : nat) (pv : bacnet_value) (v : pyval) :
  (j <= k < j + n)%nat ->
  (forall a, (j <= a < k)%nat -> unanswered (net a (timeout_of self a))) ->
  net k (timeout_of self k) = PropertyValue pv ->
  extract_value int_of_str float_of_str pv = Ok v ->
  fst (loop (seq j n)) = v
  /\ requests (snd (loop (seq j n)))
     = map (fun a => (a, timeout_of self a)) (seq j (S k - j)).
Proof.
  revert j. induction n as [|n IH]; intros j Hk Hun Hpv Hv; [lia|].
  cbn [seq].
  destruct (decide (j = k)) as [->|Hne].
  - cbn [retry_loop]. rewrite Hpv, Hv. cbv beta iota delta [Ok].
    replace (S k - k)%nat with 1%nat by lia. done.
  - assert (unanswered (net j (timeout_of self j))) as Hj by (apply Hun; lia).
    destruct (IH (S j)) as [Hfst Hreq];
      [lia|intros a Ha; apply Hun; lia|done|done|].
    replace (S k - j)%nat with (S (S k - S j)) by lia.
    cbn [seq map]. rewrite <- Hreq. rewrite loop_step.
    cbn [retry_loop].
    destruct (net j (timeout_of self j)) as [| | |pv'] eqn:Hnet; [| | |done];
      destruct (loop (seq (S j) n)) as [r tr]; cbn [fst snd] in *;
      (split; [done|]);
      cbn [requests flat_map app];
      fold (requests (sleep_before_retry self j ++ tr)); fold (requests tr);
      by rewrite ?requests_sleep.
Qed.

End RetryMore.

Section RetryBudget.
Import Py Codec CodecSpec Bacnet Retry RetrySpec RetryMeasure.
Local Open Scope Z_scope.

(** X1. Whatever the device does, one call to [read_with_retry] waits at
    most 49.5 s in all: the four timeouts (6 + 6 + 12 + 24 s) and three
    sleeps of 0.5 s. *)
Theorem read_with_retry_budget
    (int_of_str : pystr -> option Z) (float_of_str : pystr -> option float)
    (net : network) (lib : library)
    (ip : pystr) (port : Z) (ty : pystr) (inst : Z) :
  waited (snd (read_with_retry int_of_str float_of_str self_config net
                 lib ip port ty inst)) <= 49500.
Proof.
  unfold read_with_retry.
  destruct (Address lib (VStr ip) port); cbn [negb]; [|done].
  destruct (ObjectIdentifier lib _ _); cbn [negb]; [|done].
  pose proof (loop_waited int_of_str float_of_str self_config net
                (seq 0 4) ltac:(done)) as Hle.
  change (max_retries self_config + 1)%nat with 4%nat.
  destruct (retry_loop int_of_str float_of_str self_config net (seq 0 4))
    as [r tr]. cbn [snd] in *.
  etrans; [exact Hle|]. vm_compute. discriminate.
Qed.

(** X2. The first answer that carries a [propertyValue] ends the call:
    what [extract_value] returns for it is returned, [None] included when
    it cannot be decoded, and no attempt is made after it. *)
Theorem first_answer_ends_call
    (int_of_str : pystr -> option Z) (float_of_str : pystr -> option float)
    (net : network) (lib : library)
    (ip : pystr) (port : Z) (ty : pystr) (inst : Z)
    (k : nat) (pv : bacnet_value) (v : pyval) :
  Address lib (VStr ip) port = true ->
  ObjectIdentifier lib (VStr (map_get obj_type_map_read ty)) (VInt inst)
  = true ->
  (k <= 3)%nat ->
  (forall a, (a < k)%nat -> unanswered (net a (timeout_of self_config a))) ->
  net k (timeout_of self_config k) = PropertyValue pv ->
  extract_value int_of_str float_of_str pv = Ok v ->
  fst (read_with_retry int_of_str float_of_str self_config net lib ip port
         ty inst)
  = extract_value int_of_str float_of_str pv
  /\ requests (snd (read_with_retry int_of_str float_of_str self_config net
                      lib ip port ty inst))
     = attempts_upto self_config k.
Proof.
  intros Haddr Hobj Hk Hun Hpv Hv. unfold read_with_retry.
  rewrite Haddr, Hobj. cbn [negb].
  change (max_retries self_config + 1)%nat with 4%nat.
  destruct (loop_first_answer int_of_str float_of_str self_config net 4 0 k
              pv v) as [Hfst Hreq];
    [lia|intros a Ha; apply Hun; lia|done|done|].
  destruct (retry_loop int_of_str float_of_str self_config net (seq 0 4))
    as [r tr]. cbn [fst snd] in *.
  rewrite Hv, Hfst, Hreq. unfold attempts_upto.
  by replace (S k - 0)%nat with (S k) by lia.
Qed.

Lemma first_answer_ends_call_witness :
  Address Examples.permissive (VStr Examples.device_ip) 47808 = true
  /\ ObjectIdentifier Examples.permissive
       (VStr (map_get obj_type_map_read (py "analog-input"))) (VInt 7) = true
  /\ (2 <= 3)%nat
  /\ (forall a, (a < 2)%nat ->
        unanswered (Examples.slow a (timeout_of self_config a)))
  /\ Examples.slow 2%nat (timeout_of self_config 2%nat)
     = PropertyValue Examples.s1_payload
  /\ extract_value Examples.refuse_int Examples.refuse_float
       Examples.s1_payload
     = Ok (VFloat (S754_finite false 16121856 (-17)))
  /\ requests
       (snd (read_with_retry Examples.refuse_int Examples.refuse_float
               self_config Examples.slow Examples.permissive
               Examples.device_ip 47808 (py "analog-input") 7))
     = [(0%nat, 6000); (1%nat, 6000); (2%nat, 12000)].
Proof.
  assert (forall a, (a < 2)%nat ->
            unanswered (Examples.slow a (timeout_of self_config a))) as Hun.
  { intros [|[|a]] Ha; [exact I|exact I|lia]. }
  split; [reflexivity|]. split; [reflexivity|]. split; [lia|].
  split; [exact Hun|]. split; [reflexivity|]. split; [reflexivity|].
  exact (proj2 (first_answer_ends_call Examples.refuse_int
                  Examples.refuse_float Examples.slow Examples.permissive
                  Examples.device_ip 47808 (py "analog-input") 7 2%nat
                  Examples.s1_payload _ eq_refl eq_refl ltac:(lia) Hun
                  eq_refl eq_refl)).
Defined.

End RetryBudget.

Section CodecMore.
Import Py Codec CodecSpec.
Local Open Scope Z_scope.

Variable int_of_str : pystr -> option Z.
Variable float_of_str : pystr -> option float.

Lemma byte_val_range (b : byte) : 0 <= byte_val b < 256.
Proof. unfold byte_val. pose proof (Byte.to_N_bounded b). lia. Qed.

Lemma big_endian_unsigned_bound (data : list byte) :
  0 <= big_endian_unsigned data < 256 ^ Z.of_nat (length data).
Proof.
  induction data as [|b rest IH]; [done|].
  cbn [big_endian_unsigned length]. rewrite Nat2Z.inj_succ, Z.pow_succ_r by lia.
  pose proof (byte_val_range b). nia.
Qed.

Lemma big_endian_signed_bound (data : list byte) :
  data <> [] ->
  - 2 ^ (8 * Z.of_nat (length data) - 1) <= big_endian_signed data
  < 2 ^ (8 * Z.of_nat (length data) - 1).
Proof.
  intros Hne. unfold big_endian_signed.
  pose proof (big_endian_unsigned_bound data) as Hu.
  assert (0 < Z.of_nat (length data)) as Hlen
    by (destruct data; [done|cbn [length]; lia]).
  assert (256 ^ Z.of_nat (length data)
          = 2 * 2 ^ (8 * Z.of_nat (length data) - 1)) as Hpow.
  { change 256 with (2 ^ 8). rewrite <- Z.pow_mul_r by lia.
    rewrite <- Z.pow_succ_r by lia. f_equal. lia. }
  assert (2 ^ (8 * Z.of_nat (length data))
          = 2 * 2 ^ (8 * Z.of_nat (length data) - 1)) as Hpow'.
  { rewrite <- Z.pow_succ_r by lia. f_equal. lia. }
  destruct (Z.ltb_spec (big_endian_unsigned data)
              (2 ^ (8 * Z.of_nat (length data) - 1))); lia.
Qed.

Lemma first_tag_with_data_nonempty (tags : list tag) n data :
  first_tag_with_data tags = Some (n, data) -> data <> [].
Proof.
  unfold first_tag_with_data.
  destruct (find has_data tags) as [t|] eqn:Hfind; [|done].
  apply find_some in Hfind as [_ Hdata]. unfold has_data in Hdata.
  destruct (tag_number t); [|done].
  destruct (tag_data t) as [[|b d]|]; try done. by intros [= _ <-].
Qed.

(** X3. An unsigned or enumerated value (tags 2 and 9) decoded from [n]
    bytes lies in [0, 256^n); a signed value (tag 3) lies in
    [-2^(8n-1), 2^(8n-1)): the special cases for 1, 2 and 4 bytes and the
    general case agree. *)
Theorem decoded_integer_range (bv : bacnet_value) s tags n data :
  string_form bv = Some (s, Some tags) ->
  is_object_repr s = true ->
  first_tag_with_data tags = Some (n, data) ->
  ((n = 2 \/ n = 9) ->
   exists v, extract_value int_of_str float_of_str bv = Ok (VInt v)
             /\ 0 <= v < 256 ^ Z.of_nat (length data))
  /\ (n = 3 ->
      exists v, extract_value int_of_str float_of_str bv = Ok (VInt v)
                /\ - 2 ^ (8 * Z.of_nat (length data) - 1) <= v
                   < 2 ^ (8 * Z.of_nat (length data) - 1)).
Proof.
  intros Hform Hrepr Hfirst.
  rewrite (extract_value_caught _ _ _ (string_form_formats _ _ _ Hform)),
    (body_string_form _ _ _ _ _ Hform), from_string_spec.
  unfold spec_extract. unfold is_object_repr in Hrepr. rewrite Hrepr, Hfirst.
  split.
  - intros [->| ->]; eexists; (split; [done|]);
      apply big_endian_unsigned_bound.
  - intros ->. eexists. split; [done|].
    apply big_endian_signed_bound.
    by eapply first_tag_with_data_nonempty.
Qed.

Lemma find_skip (pre post : list tag) (t : tag) :
  Forall (fun x => has_data x = false) pre ->
  has_data t = true ->
  find has_data (pre ++ t :: post) = Some t.
Proof.
  intros Hpre Ht. induction Hpre as [|x pre Hx _ IH]; cbn [app find].
  - by rewrite Ht.
  - by rewrite Hx.
Qed.

(** X4. Only the first tag that carries data counts: the tags without data
    before it and all the tags after it change nothing. *)
Theorem first_data_tag_decides (value : option pyval)
    (repr : result pystr) (pre post : list tag) (t : tag) :
  Forall (fun x => has_data x = false) pre ->
  has_data t = true ->
  extract_value int_of_str float_of_str
    (Obj (BacnetObject value repr (Some (pre ++ t :: post))))
  = extract_value int_of_str float_of_str
      (Obj (BacnetObject value repr (Some [t]))).
Proof.
  intros Hpre Ht.
  assert (forall s,
            from_string int_of_str float_of_str s (Some (pre ++ t :: post))
            = from_string int_of_str float_of_str s (Some [t])) as Heq.
  { intros s. unfold from_string. destruct (is_object_repr s); [|done].
    unfold from_tagList, find_data_tag.
    rewrite (find_skip pre post t Hpre Ht).
    change ([t]) with ([] ++ t :: []) at 2.
    rewrite (find_skip [] [] t (Forall_nil_2 _) Ht).
    rewrite length_app. cbn [length].
    by replace (length pre + S (length post) =? 0)%nat with false
      by (symmetry; apply Nat.eqb_neq; lia). }
  unfold extract_value, extract_value_body, format_in_handler.
  cbn [attr_value str_repr attr_tagList].
  destruct repr as [e|s]; cbn [bind]; [done|]. rewrite Heq.
  by destruct value as [v|]; [destruct (is_primitive v)|].
Qed.

Lemma lstrip_head (s : pystr) :
  match lstrip s with
  | [] => True
  | c :: _ => isspace c = false
  end.
Proof.
  induction s as [|c s IH]; [done|].
  cbn [lstrip]. by destruct (isspace c) eqn:Hc.
Qed.

Lemma lstrip_snoc (s : pystr) (c : Z) :
  isspace c = false -> lstrip (s ++ [c]) = lstrip s ++ [c].
Proof.
  intros Hc. induction s as [|d s IH]; cbn [app lstrip].
  - by rewrite Hc.
  - by destruct (isspace d).
Qed.

(** What [strip] leaves has no white space at either end. *)
Lemma strip_ends (s : pystr) :
  match strip s with
  | [] => True
  | c :: _ => isspace c = false
  end
  /\ match last (strip s) with
     | Some c => isspace c = false
     | None => True
     end.
Proof.
  unfold strip. pose proof (lstrip_head s) as Hhead.
  destruct (lstrip s) as [|c rest]; [done|].
  cbn [rev]. rewrite lstrip_snoc by done. rewrite rev_app_distr. cbn [rev app].
  split; [done|].
  pose proof (lstrip_head (rev rest)) as Hlast.
  destruct (lstrip (rev rest)) as [|d rest'] eqn:Hl.
  - done.
  - cbn [rev]. change (c :: (rev rest' ++ [d])) with ((c :: rev rest') ++ [d]).
    by rewrite last_snoc.
Qed.

(** X5. When [extract_value] goes through the string form of its argument
    (the argument is neither a number nor an object whose [.value] is a
    number or a string, which are passed through as they are) and that
    string form is not an object representation, a string it returns is the
    string form stripped: it is shorter than 100 characters and has no
    white space at either end. *)
Theorem clean_string_stripped (bv : bacnet_value) s tl (r : pystr) :
  string_form bv = Some (s, tl) ->
  is_object_repr s = false ->
  extract_value int_of_str float_of_str bv = Ok (VStr r) ->
  r = strip s
  /\ (length r < 100)%nat
  /\ match r with
     | [] => True
     | c :: _ => isspace c = false
     end
  /\ match last r with
     | Some c => isspace c = false
     | None => True
     end.
Proof.
  intros Hform Hrepr.
  rewrite (extract_value_caught _ _ _ (string_form_formats _ _ _ Hform)),
    (body_string_form _ _ _ _ _ Hform), from_string_spec.
  unfold spec_extract. unfold is_object_repr in Hrepr. rewrite Hrepr.
  cbv zeta. unfold numeric_parse.
  assert (forall v : pyval,
            (if (length (strip s) <? 100)%nat then VStr (strip s) else VNone)
            = v -> Ok v = Ok (VStr r) ->
            r = strip s /\ (length r < 100)%nat) as Hfallback.
  { intros v <-. destruct (Nat.ltb_spec (length (strip s)) 100);
      intros [= <-]; done. }
  intros Hres.
  assert (r = strip s /\ (length r < 100)%nat) as [-> Hlen].
  { destruct (contains (py ".") (strip s)).
    - destruct (float_of_str (strip s)); [done|]. by eapply Hfallback.
    - destruct (int_of_str (strip s)); [done|]. by eapply Hfallback. }
  split; [done|]. split; [done|]. apply strip_ends.
Qed.

(** X28. [extract_value] raises in one case only: it needs [str()] of its
    argument, which is neither a number nor an object whose [.value] is a
    number or a string, and [str()] raises. In every other case it returns
    [None], an [int], a [float], a [bool] or a [str]. *)
Theorem extract_value_raises_only_for_str (bv : bacnet_value) :
  (str_raises bv ->
   exists e, extract_value int_of_str float_of_str bv = Raise e)
  /\ (~ str_raises bv ->
      exists v, extract_value int_of_str float_of_str bv = Ok v
                /\ host_or_none v).
Proof. split; [apply body_str_raises|apply extract_value_host]. Qed.

End CodecMore.

Section CodecMoreExamples.
Import Py Codec CodecSpec Examples MoreExamples.
Local Open Scope Z_scope.

(** 0xFFFE read as a signed value of two bytes. *)
Lemma decoded_integer_range_witness :
  string_form signed_payload
  = Some (object_repr, Some [ {| tag_number := Some 3;
                                 tag_data := Some [xff; xfe] |} ])
  /\ is_object_repr object_repr = true
  /\ first_tag_with_data [ {| tag_number := Some 3;
                              tag_data := Some [xff; xfe] |} ]
     = Some (3, [xff; xfe])
  /\ exists v, extract_value refuse_int refuse_float signed_payload
               = Ok (VInt v)
               /\ - 2 ^ (8 * Z.of_nat 2 - 1) <= v < 2 ^ (8 * Z.of_nat 2 - 1).
Proof.
  split; [reflexivity|]. split; [reflexivity|]. split; [reflexivity|].
  exact (proj2 (decoded_integer_range refuse_int refuse_float signed_payload
                  object_repr _ 3 [xff; xfe] eq_refl eq_refl eq_refl)
           eq_refl).
Defined.

(** An empty tag before the real value, a text tag after it. *)
Lemma first_data_tag_decides_witness :
  Forall (fun x => has_data x = false) [empty_tag]
  /\ has_data real_tag = true
  /\ extract_value refuse_int refuse_float
       (Obj (BacnetObject None (Ok object_repr)
               (Some ([empty_tag] ++ real_tag :: [text_tag]))))
     = extract_value refuse_int refuse_float
         (Obj (BacnetObject None (Ok object_repr) (Some [real_tag]))).
Proof.
  assert (Forall (fun x => has_data x = false) [empty_tag]) as Hpre
    by (apply Forall_cons; split; [reflexivity|apply Forall_nil_2]).
  split; [exact Hpre|]. split; [reflexivity|].
  exact (first_data_tag_decides refuse_int refuse_float None
           (Ok object_repr) [empty_tag] [text_tag] real_tag Hpre eq_refl).
Defined.

(** A text between blanks. *)
Lemma clean_string_stripped_witness :
  string_form (Prim (VStr (py "  hello "))) = Some (py "  hello ", None)
  /\ is_object_repr (py "  hello ") = false
  /\ extract_value refuse_int refuse_float (Prim (VStr (py "  hello ")))
     = Ok (VStr (py "hello"))
  /\ py "hello" = strip (py "  hello ")
  /\ (length (py "hello") < 100)%nat.
Proof.
  split; [reflexivity|]. split; [reflexivity|]. split; [reflexivity|].
  destruct (clean_string_stripped refuse_int refuse_float
              (Prim (VStr (py "  hello "))) (py "  hello ") None (py "hello")
              eq_refl eq_refl eq_refl) as (Hr & Hlen & _).
  split; [exact Hr|exact Hlen].
Defined.

(** S1 on one side, the object whose [str()] raises on the other. *)
Lemma extract_value_raises_only_for_str_witness :
  ~ str_raises s1_payload
  /\ str_raises unprintable
  /\ (exists v, extract_value refuse_int refuse_float s1_payload = Ok v
                /\ host_or_none v)
  /\ (exists e, extract_value refuse_int refuse_float unprintable = Raise e).
Proof.
  assert (~ str_raises s1_payload) as Hok
    by (intros [_ [e He]]; discriminate).
  assert (str_raises unprintable) as Hbad
    by (split; [reflexivity|by exists ValueError]).
  split; [exact Hok|]. split; [exact Hbad|].
  split.
  - exact (proj2 (extract_value_raises_only_for_str refuse_int refuse_float
                    s1_payload) Hok).
  - exact (proj1 (extract_value_raises_only_for_str refuse_int refuse_float
                    unprintable) Hbad).
Defined.

End CodecMoreExamples.

Section WriterMore.
Import Py Bacnet Writer.
Local Open Scope Z_scope.

Variable int_of_str : pystr -> option Z.
Variable float_of_str : pystr -> option float.
Variable lib : library.
Variable net : write_request -> write_reply.

Local Abbreviation write :=
  (write_bacnet_value int_of_str float_of_str lib net).
Local Abbreviation execute :=
  (execute_write_command int_of_str float_of_str lib net).
Local Abbreviation process :=
  (process_write_commands int_of_str float_of_str lib net).
Local Abbreviation prepare := (prepare_value int_of_str float_of_str lib).

(** The outcome of [write_bacnet_value] by cases. *)
Lemma write_outcome (ip : pyval) (port : Z) (ty : option pystr)
    (inst v prio rel : pyval) :
  (write ip port ty inst v prio rel = ((false, Some ErrWriteError), []))
  \/ exists req,
       snd (write ip port ty inst v prio rel) = [req]
       /\ fst (write ip port ty inst v prio rel)
          = match net req with
            | WriteAnswered => (true, None)
            | WriteTimeout => (false, Some ErrTimeout)
            | WriteFailed => (false, Some ErrWriteFailed)
            end.
Proof.
  unfold write_bacnet_value.
  destruct (Address lib ip port); cbn [negb]; [|by left].
  destruct (ObjectIdentifier lib _ inst); cbn [negb]; [|by left].
  destruct (prepare ty v rel) as [e|w]; [by left|].
  destruct (propertyValue_accepts lib w); cbn [negb]; [|by left].
  right.
  match goal with
  | |- context [net ?r] => exists r; by destruct (net r)
  end.
Qed.

(** X6. A write is tried once: [write_bacnet_value] hands at most one
    request to the network, reports success exactly when that request was
    answered, and after a timeout reports the timeout without a second
    request. *)
Theorem write_tried_once (ip : pyval) (port : Z) (ty : option pystr)
    (inst v prio rel : pyval) :
  (length (snd (write ip port ty inst v prio rel)) <= 1)%nat
  /\ (fst (fst (write ip port ty inst v prio rel)) = true
      <-> exists req, snd (write ip port ty inst v prio rel) = [req]
                      /\ net req = WriteAnswered)
  /\ (forall req,
        req ∈ snd (write ip port ty inst v prio rel) ->
        net req = WriteTimeout ->
        write ip port ty inst v prio rel
        = ((false, Some ErrTimeout), [req])).
Proof.
  destruct (write_outcome ip port ty inst v prio rel)
    as [Hnone|(req & Hsnd & Hfst)].
  - rewrite Hnone. cbn [fst snd length]. split; [lia|]. split.
    + split; [done|]. by intros (req & ? & _).
    + by intros req ?%elem_of_nil.
  - destruct (write ip port ty inst v prio rel) as [res issued].
    cbn [fst snd] in *. subst issued res. cbn [length]. split; [lia|]. split.
    + split.
      * intros Htrue. exists req. split; [done|].
        by destruct (net req).
      * intros (req' & [= <-] & ->). done.
    + intros req' ->%list_elem_of_singleton Hto. by rewrite Hto.
Qed.

Lemma execute_result (c : WriteCommand) :
  exists r, snd (execute c) = [r]
            /\ r_jobId r = jobId c
            /\ (r_success r = true <-> r_error r = None)
            /\ (r_success r = true
                <-> exists req, fst (execute c) = [req]
                                /\ net req = WriteAnswered).
Proof.
  unfold execute_write_command.
  pose proof (write_outcome (opt_str (deviceIp c)) 47808 (objectType c)
                (opt_int (objectInstance c)) (value c)
                (VInt (default 8 (priority c)))
                (VBool (default false (release c)))) as Hout.
  destruct (write _ _ _ _ _ _ _) as [[success error_msg] issued].
  eexists. split; [done|]. cbn [r_jobId r_success r_error fst snd] in *.
  split; [done|].
  destruct Hout as [[= -> -> ->]|(req & -> & Hfst)].
  - split; [done|]. split; [done|]. by intros (req & ? & _).
  - destruct (net req) eqn:Hnet; injection Hfst as -> ->.
    + split; [done|]. split; [|done]. intros _. by exists req.
    + split; [done|]. split; [done|]. intros (req' & [= <-] & ?). congruence.
    + split; [done|]. split; [done|]. intros (req' & [= <-] & ?). congruence.
Qed.

Lemma process_app (p1 p2 : list WriteCommand) :
  process (p1 ++ p2)
  = (fst (process p1) ++ fst (process p2),
     snd (process p1) ++ snd (process p2)).
Proof.
  induction p1 as [|c p1 IH]; cbn [app process_write_commands].
  - by destruct (process p2).
  - rewrite IH. destruct (execute c) as [i1 r1].
    destruct (process p1) as [i2 r2]. destruct (process p2) as [i3 r3].
    cbn [fst snd]. by rewrite !app_assoc.
Qed.

Lemma process_jobIds (pending : list WriteCommand) :
  map r_jobId (snd (process pending)) = map jobId pending.
Proof.
  induction pending as [|c rest IH]; [done|].
  cbn [process_write_commands map].
  destruct (execute_result c) as (r & Hr & Hjob & _).
  destruct (execute c) as [i1 r1]. destruct (process rest) as [i2 r2].
  cbn [fst snd] in *. subst r1. cbn [app map]. by rewrite Hjob, IH.
Qed.

Lemma execute_issues_at_most_one (c : WriteCommand) :
  (length (fst (execute c)) <= 1)%nat.
Proof.
  rewrite execute_issued.
  destruct (write_outcome (opt_str (deviceIp c)) 47808 (objectType c)
              (opt_int (objectInstance c)) (value c)
              (VInt (default 8 (priority c)))
              (VBool (default false (release c))))
    as [->|(req & -> & _)]; cbn; lia.
Qed.

(** X7. Draining the queue answers every command once, in queue order:
    the results carry the job identifiers of the commands in the same
    order, at most one request is issued per command, and a queue drained
    in one go gives what draining its two halves in turn gives. *)
Theorem write_results_in_order (pending : list WriteCommand) :
  map r_jobId (snd (process pending)) = map jobId pending
  /\ (length (fst (process pending)) <= length pending)%nat
  /\ (forall p1 p2,
        pending = p1 ++ p2 ->
        process pending
        = (fst (process p1) ++ fst (process p2),
           snd (process p1) ++ snd (process p2))).
Proof.
  split; [apply process_jobIds|split].
  - induction pending as [|c rest IH]; [done|].
    cbn [process_write_commands length].
    pose proof (execute_issues_at_most_one c) as Hone.
    destruct (execute c) as [i1 r1]. destruct (process rest) as [i2 r2].
    cbn [fst snd] in *. rewrite length_app. lia.
  - intros p1 p2 ->. apply process_app.
Qed.

(** X8. Every result says whether its write went through: [success] is
    true exactly when the command's request was issued and answered, and
    the [error] field is empty exactly when [success] is true. *)
Theorem write_result_reports (pending : list WriteCommand) (c : WriteCommand) :
  c ∈ pending ->
  exists r, r ∈ snd (process pending)
            /\ r_jobId r = jobId c
            /\ (r_success r = true <-> r_error r = None)
            /\ (r_success r = true
                <-> exists req, fst (execute c) = [req]
                                /\ net req = WriteAnswered).
Proof.
  intros Hin. apply list_elem_of_split in Hin as (p1 & p2 & ->).
  rewrite process_app. cbn [snd process_write_commands].
  destruct (execute_result c) as (r & Hr & Hrest).
  exists r. split; [|done].
  apply elem_of_app. right.
  destruct (execute c) as [i1 r1]. destruct (process p2) as [i2 r2].
  cbn [fst snd] in *. subst r1. apply elem_of_app. left.
  by apply list_elem_of_singleton.
Qed.

(** X9. A text written to a binary point switches it on unless it is
    empty: the texts "false", "0" and "off" are written as 1. *)
Theorem binary_text_is_active (c : WriteCommand) (ty s : pystr)
    (req : write_request) :
  release c <> Some true ->
  objectType c = Some ty ->
  family_of ty = Some Binary ->
  value c = VStr s ->
  s <> [] ->
  req ∈ fst (execute c) ->
  w_value req = Unsigned 1.
Proof.
  intros Hrel Hty Hfam Hval Hs.
  rewrite execute_issued, write_issued.
  destruct (_ && _); [|by intros ?%elem_of_nil].
  destruct (prepare _ _ _) as [e|w] eqn:Hprep; [by intros ?%elem_of_nil|].
  destruct (propertyValue_accepts lib w); [|by intros ?%elem_of_nil].
  intros ->%list_elem_of_singleton. cbn [w_value].
  assert (default false (release c) = false) as Hfalse
    by (destruct (release c) as [[]|]; done).
  rewrite Hfalse in Hprep.
  destruct (prepare_value_family int_of_str float_of_str lib (objectType c)
              (value c) (VBool false)) as [_ Hf].
  destruct (Hf eq_refl ty Hty) as (_ & Hb & _).
  rewrite (Hb Hfam), Hval in Hprep. cbn [truthy] in Hprep.
  destruct s as [|ch s]; [done|]. cbn in Hprep.
  unfold mk_Unsigned in Hprep.
  destruct (Unsigned_accepts lib 1); [|done]. by injection Hprep as <-.
Qed.

(** X27. For a command that is not a release and whose object type is
    one of the nine names of [obj_type_map], once the library has built the
    address and the object identifier: one WriteProperty is issued when
    the value converts for the family of the type and the library takes
    it, none otherwise, and its value is [Real(float(value))] for the
    analog types, [Unsigned(1 if value else 0)] for the binary types and
    [Unsigned(int(value))] for the multi-state types. *)
Theorem write_encoding_by_family (c : WriteCommand) (ty : pystr)
    (f : family) :
  release c <> Some true ->
  objectType c = Some ty ->
  family_of ty = Some f ->
  Address lib (opt_str (deviceIp c)) 47808 = true ->
  ObjectIdentifier lib (map_get_val obj_type_map_write (VStr ty))
    (opt_int (objectInstance c)) = true ->
  fst (execute c)
  = match family_value int_of_str float_of_str lib f (value c) with
    | inr w =>
      if propertyValue_accepts lib w then
        [ {| w_device_ip := opt_str (deviceIp c);
             w_device_port := 47808;
             w_object_type := map_get_val obj_type_map_write (VStr ty);
             w_object_instance := opt_int (objectInstance c);
             w_value := w |} ]
      else []
    | inl _ => []
    end.
Proof.
  intros Hrel Hty Hfam Haddr Hobj.
  rewrite execute_issued, write_issued. rewrite Hty. cbn [opt_str].
  rewrite Haddr, Hobj. cbn [andb].
  assert (default false (release c) = false) as ->
    by (destruct (release c) as [[]|]; done).
  destruct (prepare_value_family int_of_str float_of_str lib (Some ty)
              (value c) (VBool false)) as [_ Hf].
  destruct (Hf eq_refl ty eq_refl) as (Ha & Hb & Hm).
  destruct f; cbn [family_value];
    [rewrite (Ha Hfam)|rewrite (Hb Hfam)|rewrite (Hm Hfam)]; done.
Qed.

End WriterMore.

Section PublisherMore.
Import Py Codec CodecSpec Publisher.

Variable mqtt_connected : bool.
Variable broker : publication -> bool.

Local Abbreviation publish :=
  (publish_individual_topic mqtt_connected broker).

(** What [publish_individual_topic] returns: nothing sent and [False], or
    one message and [True]. *)
Lemma publish_outcome (point : Point) (value : pyval) (timestamp : pystr) :
  publish point value timestamp = (false, [])
  \/ exists clean,
       clean_value value = Ok clean
       /\ mqtt_connected = true
       /\ no_topic point = false
       /\ value <> VNone
       /\ is_object_string value = false
       /\ publish point value timestamp
          = (true,
             [ {| topic := default [] (mqttTopic point);
                  message := {| p_value := clean;
                                p_timestamp := timestamp;
                                p_units := units point;
                                p_quality := py "good";
                                p_dis := dis point;
                                p_haystackName := haystackPointName point;
                                p_deviceIp := ipAddress point;
                                p_deviceId := deviceId point;
                                p_objectType := objectType point;
                                p_objectInstance := objectInstance point |};
                  pub_qos := qos point;
                  retain := false |} ]).
Proof.
  unfold publish_individual_topic.
  destruct (no_topic point) eqn:Htopic; [by left|].
  destruct mqtt_connected; [|by left]. cbn [orb negb].
  destruct value as [|b|n|x|s|repr truth]; [by left|..];
    (destruct (is_object_string _) eqn:Hobj; [by left|]);
    (destruct (clean_value _) as [e|clean] eqn:Hclean; [by left|]);
    (destruct (broker _) eqn:Hb; [|by left]);
    right; exists clean; repeat split; done.
Qed.

(** X10. [publish_individual_topic] returns [True] exactly when it sent
    one message, and [False] exactly when it sent none; the message goes to
    the topic of the point at its quality of service, is not retained and
    carries the time stamp of the tick. *)
Theorem publish_reports (point : Point) (value : pyval) (timestamp : pystr) :
  (fst (publish point value timestamp) = true
   <-> exists pub, snd (publish point value timestamp) = [pub])
  /\ (fst (publish point value timestamp) = false
      <-> snd (publish point value timestamp) = [])
  /\ (forall pub,
        pub ∈ snd (publish point value timestamp) ->
        mqttTopic point = Some (topic pub)
        /\ topic pub <> []
        /\ pub_qos pub = qos point
        /\ retain pub = false
        /\ p_timestamp (message pub) = timestamp).
Proof.
  destruct (publish_outcome point value timestamp)
    as [->|(clean & _ & _ & Htopic & _ & _ & ->)]; cbn [fst snd].
  - split; [split; [done|by intros [pub ?]]|]. split; [done|].
    by intros pub ?%elem_of_nil.
  - split; [split; [eauto|done]|]. split; [done|].
    intros pub ->%list_elem_of_singleton.
    cbn [topic pub_qos retain message p_timestamp].
    unfold no_topic in Htopic.
    destruct (mqttTopic point) as [[|c t]|]; done.
Qed.

(** X11. What is published for a decoded value is a float or a text: an
    [int] and a [bool] go out as floats, and a text that contains
    "bacpypes3" or "object at" never goes out. *)
Theorem published_value_is_clean (point : Point) (value : pyval)
    (timestamp : pystr) (pub : publication) :
  host_or_none value ->
  pub ∈ snd (publish point value timestamp) ->
  (exists x, p_value (message pub) = VFloat x)
  \/ (exists s, p_value (message pub) = VStr s
                /\ value = VStr s
                /\ contains (py "bacpypes3") s = false
                /\ contains (py "object at") s = false).
Proof.
  intros Hhost.
  destruct (publish_outcome point value timestamp)
    as [->|(clean & Hclean & _ & _ & Hnone & Hobj & ->)]; cbn [snd];
    [by intros ?%elem_of_nil|].
  intros ->%list_elem_of_singleton. cbn [message p_value].
  destruct value as [|b|n|x|s|repr truth]; try done; cbn in Hclean.
  - left. destruct (float_of_int _); [done|]. injection Hclean as <-. eauto.
  - left. destruct (float_of_int _); [done|]. injection Hclean as <-. eauto.
  - left. injection Hclean as <-. eauto.
  - right. injection Hclean as <-. exists s. cbn in Hobj.
    apply orb_false_elim in Hobj as [? ?]. done.
Qed.

End PublisherMore.

Section SchedulerMore.
Import Py Bacnet Retry Publisher Scheduler TickMeasure.

Variable int_of_str : pystr -> option Z.
Variable float_of_str : pystr -> option float.
Variable self : retry_config.
Variable lib : library.
Variable net : Point -> network.
Variable mqtt_connected : bool.
Variable broker : publication -> bool.
Variable current_time : Q.
Variable timestamp : pystr.
Variable batch : batch_settings.

Local Abbreviation step :=
  (poll_point int_of_str float_of_str self lib net mqtt_connected broker
     current_time timestamp).
Local Abbreviation steps :=
  (poll_points int_of_str float_of_str self lib net mqtt_connected broker
     current_time timestamp).
Local Abbreviation read p :=
  (read_with_retry int_of_str float_of_str self (net p) lib (ipAddress p)
     (port p) (objectType p) (objectInstance p)).
Local Abbreviation tick :=
  (poll_and_publish int_of_str float_of_str self lib net mqtt_connected
     broker current_time timestamp batch).
Local Abbreviation cases :=
  (poll_point_cases int_of_str float_of_str self lib net mqtt_connected
     broker current_time timestamp).
Local Abbreviation loop_of_tick :=
  (tick_loop int_of_str float_of_str self lib net mqtt_connected broker
     current_time timestamp batch).

(** The loop over two lists in a row. *)
Lemma poll_points_app (l1 l2 : list Point) (st : state) :
  steps (l1 ++ l2) st
  = match steps l1 st with
    | (st', None) => steps l2 st'
    | (st', Some e) => (st', Some e)
    end.
Proof.
  revert st. induction l1 as [|p l1 IH]; intros st; [done|].
  cbn [app poll_points]. destruct (step p st) as [st' [e|]]; [done|].
  apply IH.
Qed.

(** A read raises only what the library raises when it refuses the
    address or the object identifier. *)
Lemma read_raises_library (point : Point) (e : exn) (tr : list event) :
  read point = (Raise e, tr) -> e = LibraryError.
Proof.
  unfold read_with_retry.
  destruct (Address lib _ _); cbn [negb]; [|by intros [= <- _]].
  destruct (ObjectIdentifier lib _ _); cbn [negb]; [|by intros [= <- _]].
  by destruct (retry_loop _ _ _ _ _).
Qed.

(** A read is logged only for a point that has an entry and is due. *)
Lemma poll_point_log_due (point : Point) (st : state) :
  bacnet_log (fst (step point st)) = bacnet_log st
  \/ exists tr last_poll,
       bacnet_log (fst (step point st)) = bacnet_log st ++ [(id point, tr)]
       /\ point_last_poll st !! id point = Some last_poll
       /\ not_yet_due current_time last_poll (pollInterval point) = false.
Proof.
  destruct (cases point st)
    as [[_ ->]
       |[(l & _ & _ & ->)
        |[(l & tr & e & Hl & Hd & _ & ->)
         |[(l & tr & Hl & Hd & _ & ->)
          |(l & tr & v & groups & e & Hl & Hd & _ & _ & _ & ->)]]]];
    [by left|by left|right; by exists tr, l..].
Qed.

(** How one iteration moves the counters. *)
Lemma poll_point_counts (point : Point) (st : state) :
  (length (bacnet_log (fst (step point st))) + total_reads st
   = length (bacnet_log st) + total_reads (fst (step point st)))%nat
  /\ (individual_publishes (fst (step point st)) + length (mqtt_log st)
      = individual_publishes st + length (mqtt_log (fst (step point st))))%nat
  /\ (total_reads (fst (step point st)) + successful_reads st + failed_reads st
      = total_reads st + successful_reads (fst (step point st))
        + failed_reads (fst (step point st))
        + raised_reads (snd (step point st)))%nat
  /\ (snd (step point st) = None ->
      (skipped_reads (fst (step point st)) + total_reads (fst (step point st))
       = skipped_reads st + total_reads st + 1)%nat)
  /\ batch_publishes (fst (step point st)) = batch_publishes st
  /\ batch_log (fst (step point st)) = batch_log st.
Proof.
  destruct (cases point st)
    as [[_ ->]
       |[(l & _ & _ & ->)
        |[(l & tr & e & _ & _ & Hr & ->)
         |[(l & tr & _ & _ & _ & ->)
          |(l & tr & v & groups & e & _ & _ & _ & _ & He & ->)]]]].
  - cbn. repeat split; lia.
  - cbn. repeat split; lia.
  - apply read_raises_library in Hr as ->.
    cbn. rewrite length_app. cbn. repeat split; (lia || done).
  - cbn. rewrite length_app. cbn. repeat split; lia.
  - destruct (publish_outcome mqtt_connected broker point v timestamp)
      as [->|(clean & _ & _ & _ & _ & _ & ->)];
      destruct He as [-> | ->];
      cbn; rewrite !length_app; cbn; repeat split; (lia || done).
Qed.

Lemma poll_points_counts (points : list Point) (st : state) :
  (length (bacnet_log (fst (steps points st))) + total_reads st
   = length (bacnet_log st) + total_reads (fst (steps points st)))%nat
  /\ (individual_publishes (fst (steps points st)) + length (mqtt_log st)
      = individual_publishes st
        + length (mqtt_log (fst (steps points st))))%nat
  /\ (total_reads (fst (steps points st)) + successful_reads st
      + failed_reads st
      = total_reads st + successful_reads (fst (steps points st))
        + failed_reads (fst (steps points st))
        + raised_reads (snd (steps points st)))%nat
  /\ (snd (steps points st) = None ->
      (skipped_reads (fst (steps points st))
       + total_reads (fst (steps points st))
       = skipped_reads st + total_reads st + length points)%nat)
  /\ batch_publishes (fst (steps points st)) = batch_publishes st
  /\ batch_log (fst (steps points st)) = batch_log st.
Proof.
  revert st. induction points as [|p rest IH]; intros st;
    [cbn; repeat split; lia|].
  cbn [poll_points length].
  pose proof (poll_point_counts p st) as (H1 & H2 & H3 & H4 & H5 & H6).
  destruct (step p st) as [st' [e|]]; cbn [fst snd] in *.
  - split; [lia|]. split; [lia|]. split; [lia|]. done.
  - destruct (IH st') as (I1 & I2 & I3 & I4 & I5 & I6).
    cbn [raised_reads] in H3.
    split; [lia|]. split; [lia|]. split; [lia|].
    split; [|split; congruence].
    intros Hnone. specialize (H4 eq_refl). specialize (I4 Hnone). lia.
Qed.

(** X12. The counters of a tick add up: every read is logged once and
    counted in [total_reads]; every individual publication and every batch
    is counted; every read is a success or a failure, but for the one
    whose exception left the loop (a read followed by the [OverflowError]
    of the batch preparation is a success); and when the loop ends without
    an exception every point was either read or skipped. *)
Theorem tick_counters_add_up (points : list Point)
    (last_poll : gmap pystr Q) :
  let result := tick points last_poll in
  length (bacnet_log (fst result)) = total_reads (fst result)
  /\ individual_publishes (fst result) = length (mqtt_log (fst result))
  /\ batch_publishes (fst result) = length (batch_log (fst result))
  /\ (total_reads (fst result)
      = successful_reads (fst result) + failed_reads (fst result)
        + raised_reads (snd result))%nat
  /\ (successful_reads (fst result) + failed_reads (fst result)
      <= total_reads (fst result)
      <= successful_reads (fst result) + failed_reads (fst result) + 1)%nat
  /\ (snd result = None ->
      (skipped_reads (fst result) + total_reads (fst result)
       = length points)%nat).
Proof.
  cbv zeta.
  destruct (poll_points_counts points (start_tick last_poll))
    as (H1 & H2 & H3 & H4 & H5 & H6).
  assert (batch_publishes (fst (tick points last_poll))
          = length (batch_log (fst (tick points last_poll)))) as Hbatch.
  { unfold poll_and_publish.
    destruct (steps points (start_tick last_poll)) as [st [e|]];
      cbn [fst snd] in *.
    - by rewrite H5, H6.
    - destruct (publish_batches_frame timestamp batch st)
        as (n & log & -> & ->).
      cbn [batch_publishes batch_log]. rewrite H5, H6. done. }
  destruct (loop_of_tick points last_poll)
    as (-> & _ & -> & -> & -> & -> & -> & -> & ->).
  cbn [start_tick bacnet_log total_reads individual_publishes mqtt_log
       successful_reads failed_reads skipped_reads length] in *.
  assert (raised_reads (snd (steps points (start_tick last_poll))) <= 1)%nat
    as Hraised by (destruct (snd _) as [[]|]; cbn; lia).
  split; [lia|]. split; [lia|]. split; [done|]. split; [lia|].
  split; [lia|].
  intros Hnone. specialize (H4 Hnone). lia.
Qed.

Lemma poll_points_log_ids (points : list Point) (st : state) :
  NoDup (map fst (bacnet_log st) ++ map id points) ->
  NoDup (map fst (bacnet_log (fst (steps points st)))).
Proof.
  revert st. induction points as [|p rest IH]; intros st Hnd.
  - cbn in *. by rewrite app_nil_r in Hnd.
  - cbn [poll_points map] in *.
    assert (NoDup (map fst (bacnet_log (fst (step p st))) ++ map id rest))
      as Hnd'.
    { destruct (poll_point_log int_of_str float_of_str self lib net
                  mqtt_connected broker current_time timestamp p st)
        as [->|[tr ->]].
      - apply NoDup_app in Hnd as (H1 & H2 & H3).
        apply NoDup_cons in H3 as [_ H3].
        apply NoDup_app. split; [done|]. split; [|done].
        intros x Hx Hin. apply (H2 x Hx). by apply elem_of_cons; right.
      - rewrite map_app. cbn [map fst]. by rewrite <- app_assoc. }
    destruct (step p st) as [st' [e|]]; cbn [fst] in *.
    + by apply NoDup_app in Hnd' as (? & _).
    + by apply IH.
Qed.

(** X13. No point is read twice in a tick: the reads logged by a tick
    belong to pairwise different points. *)
Theorem one_read_per_point (points : list Point)
    (last_poll : gmap pystr Q) :
  NoDup (map id points) ->
  NoDup (map fst (bacnet_log (fst (tick points last_poll)))).
Proof.
  intros Hnd.
  destruct (loop_of_tick points last_poll)
    as (_ & _ & _ & _ & _ & _ & _ & -> & _).
  by apply poll_points_log_ids.
Qed.

Lemma poll_points_read_due (points : list Point) (st : state) (k : pystr)
    (tr : list event) :
  NoDup (map id points) ->
  (k, tr) ∈ bacnet_log (fst (steps points st)) ->
  (k, tr) ∈ bacnet_log st
  \/ exists p last_poll,
       p ∈ points /\ id p = k
       /\ point_last_poll st !! k = Some last_poll
       /\ not_yet_due current_time last_poll (pollInterval p) = false.
Proof.
  revert st. induction points as [|p rest IH]; intros st Hnd Hin;
    [by left|].
  cbn [map] in Hnd. apply NoDup_cons in Hnd as [Hp Hrest].
  cbn [poll_points] in Hin.
  assert ((k, tr) ∈ bacnet_log (fst (step p st)) ->
          (k, tr) ∈ bacnet_log st
          \/ exists p0 last_poll,
               p0 ∈ p :: rest /\ id p0 = k
               /\ point_last_poll st !! k = Some last_poll
               /\ not_yet_due current_time last_poll (pollInterval p0)
                  = false) as Hstep.
  { destruct (poll_point_log_due p st)
      as [->|(tr' & last_poll & -> & Hlast & Hdue)]; [by left|].
    rewrite elem_of_app, list_elem_of_singleton.
    intros [?|[= -> ->]]; [by left|]. right.
    exists p, last_poll. split; [by apply elem_of_cons; left|done]. }
  pose proof (poll_point_other int_of_str float_of_str self lib net
                mqtt_connected broker current_time timestamp p st) as Hother.
  destruct (step p st) as [st' [e|]]; cbn [fst] in *; [by apply Hstep|].
  destruct (IH st' Hrest Hin) as [Hin'|(q & last_poll & Hq & <- & Hlast & Hdue)];
    [by apply Hstep|].
  right. exists q, last_poll. split; [by apply elem_of_cons; right|].
  split; [done|]. split; [|done].
  rewrite <- Hother; [done|]. intros Heq. apply Hp. rewrite <- Heq.
  apply list_elem_of_fmap. by exists q.
Qed.

(** X14. A tick reads only points that are due: every read it logs is the
    read of a point that had an entry before the tick, whose interval had
    elapsed at the time of the tick. *)
Theorem only_due_points_read (points : list Point)
    (last_poll : gmap pystr Q) (k : pystr) (tr : list event) :
  NoDup (map id points) ->
  (k, tr) ∈ bacnet_log (fst (tick points last_poll)) ->
  exists p last,
    p ∈ points /\ id p = k
    /\ last_poll !! k = Some last
    /\ (next_due last (pollInterval p) <= current_time)%Q.
Proof.
  intros Hnd Hin.
  destruct (loop_of_tick points last_poll)
    as (_ & _ & _ & _ & _ & _ & _ & Hlog & _).
  rewrite Hlog in Hin.
  destruct (poll_points_read_due points (start_tick last_poll) k tr Hnd Hin)
    as [Hempty|(p & last & Hp & Hid & Hlast & Hdue)];
    [by apply elem_of_nil in Hempty|].
  exists p, last. repeat split; try done. by apply not_yet_due_false.
Qed.

(** X15. A read that fails leaves the schedule as it was: the point keeps
    its last poll time, nothing is published, the failure is counted, and
    the point is due again at every later tick until a read succeeds. *)
Theorem failed_read_stays_due (point : Point) (st : state) (last_poll : Q) :
  point_last_poll st !! id point = Some last_poll ->
  not_yet_due current_time last_poll (pollInterval point) = false ->
  fst (read point) = Ok VNone ->
  snd (step point st) = None
  /\ point_last_poll (fst (step point st)) = point_last_poll st
  /\ failed_reads (fst (step point st)) = S (failed_reads st)
  /\ successful_reads (fst (step point st)) = successful_reads st
  /\ mqtt_log (fst (step point st)) = mqtt_log st
  /\ (forall t, (current_time <= t)%Q ->
                not_yet_due t last_poll (pollInterval point) = false).
Proof.
  intros Hlast Hdue Hread. unfold poll_point. rewrite Hlast, Hdue.
  destruct (read point) as [r tr]. cbn [fst] in Hread. subst r.
  cbv beta iota delta [Ok]. cbn [fst snd point_last_poll failed_reads
    successful_reads mqtt_log].
  repeat split. intros t Ht.
  apply not_yet_due_false. apply not_yet_due_false in Hdue.
  eapply Qle_trans; [exact Hdue|exact Ht].
Qed.

(** X16. A point whose address or object identifier the library refuses
    stops the tick: the exception leaves the loop, the points after it are
    neither read nor skipped nor given an entry, and its own entry is left
    as it was, so that it is due again at the next tick. *)
Theorem refused_point_stops_tick (before after : list Point) (point : Point)
    (st : state) (last_poll : Q) :
  snd (steps before st) = None ->
  point_last_poll (fst (steps before st)) !! id point = Some last_poll ->
  not_yet_due current_time last_poll (pollInterval point) = false ->
  Address lib (VStr (ipAddress point)) (port point) = false
  \/ ObjectIdentifier lib
       (VStr (map_get obj_type_map_read (objectType point)))
       (VInt (objectInstance point)) = false ->
  snd (steps (before ++ point :: after) st) = Some LibraryError
  /\ point_last_poll (fst (steps (before ++ point :: after) st))
     = point_last_poll (fst (steps before st))
  /\ skipped_reads (fst (steps (before ++ point :: after) st))
     = skipped_reads (fst (steps before st))
  /\ bacnet_log (fst (steps (before ++ point :: after) st))
     = bacnet_log (fst (steps before st)) ++ [(id point, [])]
  /\ mqtt_log (fst (steps (before ++ point :: after) st))
     = mqtt_log (fst (steps before st)).
Proof.
  intros Hbefore Hlast Hdue Hrefused. rewrite poll_points_app.
  destruct (steps before st) as [st1 e1]. cbn [fst snd] in *. subst e1.
  cbn [poll_points]. unfold poll_point. rewrite Hlast, Hdue.
  assert (read point = (Raise LibraryError, [])) as ->.
  { unfold read_with_retry. destruct Hrefused as [->| ->]; [done|].
    by destruct (Address lib _ _). }
  done.
Qed.

Lemma poll_points_disconnected (points : list Point) (st : state) :
  mqtt_connected = false ->
  mqtt_log (fst (steps points st)) = mqtt_log st
  /\ individual_publishes (fst (steps points st)) = individual_publishes st.
Proof.
  intros Hoff. revert st. induction points as [|p rest IH]; intros st; [done|].
  cbn [poll_points].
  assert (mqtt_log (fst (step p st)) = mqtt_log st
          /\ individual_publishes (fst (step p st)) = individual_publishes st)
    as [Hlog Hcount].
  { destruct (cases p st)
      as [[_ ->]
         |[(l & _ & _ & ->)
          |[(l & tr & e & _ & _ & _ & ->)
           |[(l & tr & _ & _ & _ & ->)
            |(l & tr & v & groups & e & _ & _ & _ & _ & _ & ->)]]]];
      try done.
    destruct (publish_outcome mqtt_connected broker p v timestamp)
      as [->|(clean & _ & Hon & _)]; [|congruence].
    cbn. by rewrite app_nil_r. }
  destruct (step p st) as [st' [e|]]; cbn [fst] in *; [done|].
  destruct (IH st') as [-> ->]. done.
Qed.

(** X29. A reading that is an [int] too large for a [float] stops the
    tick when its point carries the three equipment tags: the read is
    counted as a success and the point is rescheduled, nothing is published
    for it, and the [OverflowError] of the batch preparation leaves the
    loop, so that the points after it are neither read nor skipped. *)
Theorem huge_reading_stops_tick (before after : list Point) (point : Point)
    (st : state) (last_poll : Q) (n : Z) :
  snd (steps before st) = None ->
  point_last_poll (fst (steps before st)) !! id point = Some last_poll ->
  not_yet_due current_time last_poll (pollInterval point) = false ->
  fst (read point) = Ok (VInt n) ->
  float_of_int n = Raise OverflowError ->
  is_Some (equipment_key_of point) ->
  snd (steps (before ++ point :: after) st) = Some OverflowError
  /\ successful_reads (fst (steps (before ++ point :: after) st))
     = S (successful_reads (fst (steps before st)))
  /\ point_last_poll (fst (steps (before ++ point :: after) st))
     = <[id point := current_time]> (point_last_poll (fst (steps before st)))
  /\ mqtt_log (fst (steps (before ++ point :: after) st))
     = mqtt_log (fst (steps before st))
  /\ equipment_groups (fst (steps (before ++ point :: after) st))
     = equipment_groups (fst (steps before st))
  /\ skipped_reads (fst (steps (before ++ point :: after) st))
     = skipped_reads (fst (steps before st)).
Proof.
  intros Hbefore Hlast Hdue Hread Hhuge [key Hkey].
  rewrite poll_points_app.
  destruct (steps before st) as [st1 e1]. cbn [fst snd] in *. subst e1.
  cbn [poll_points]. unfold poll_point. rewrite Hlast, Hdue.
  destruct (read point) as [r tr]. cbn [fst] in Hread. subst r.
  cbv beta iota delta [Ok].
  assert (publish_individual_topic mqtt_connected broker point (VInt n)
            timestamp = (false, [])) as ->.
  { unfold publish_individual_topic.
    destruct (no_topic point || negb mqtt_connected); [done|].
    cbn [is_object_string clean_value]. by rewrite Hhuge. }
  unfold prepare_for_batch, point_data_of, batch_value.
  rewrite Hkey, Hhuge. cbn. by rewrite app_nil_r.
Qed.

End SchedulerMore.

Section ConnectionMore.
Import Py Bacnet Retry Publisher Scheduler TickMeasure.

Variable int_of_str : pystr -> option Z.
Variable float_of_str : pystr -> option float.
Variable self : retry_config.
Variable lib : library.
Variable net : Point -> network.
Variable broker : publication -> bool.
Variable current_time : Q.
Variable timestamp : pystr.
Variable batch : batch_settings.

Local Abbreviation step connected :=
  (poll_point int_of_str float_of_str self lib net connected broker
     current_time timestamp).
Local Abbreviation steps connected :=
  (poll_points int_of_str float_of_str self lib net connected broker
     current_time timestamp).
Local Abbreviation tick connected :=
  (poll_and_publish int_of_str float_of_str self lib net connected broker
     current_time timestamp batch).

Local Ltac same_fields :=
  unfold same_but_individual in *; cbn in *;
  repeat match goal with H : _ /\ _ |- _ => destruct H end;
  repeat split; congruence.

Lemma prepare_for_batch_same (point : Point) (value : pyval)
    (st1 st2 : state) :
  same_but_individual st1 st2 ->
  same_but_individual (fst (prepare_for_batch point value st1))
    (fst (prepare_for_batch point value st2))
  /\ snd (prepare_for_batch point value st1)
     = snd (prepare_for_batch point value st2).
Proof.
  intros Hsame. unfold prepare_for_batch.
  destruct (equipment_key_of point) as [key|]; [|by split].
  destruct (point_data_of point value) as [e|d]; [by split|].
  split; [|done]. same_fields.
Qed.

(** Whether the broker is connected changes nothing in an iteration but
    the individual publications. *)
Lemma poll_point_same (c1 c2 : bool) (point : Point) (st1 st2 : state) :
  same_but_individual st1 st2 ->
  same_but_individual (fst (step c1 point st1)) (fst (step c2 point st2))
  /\ snd (step c1 point st1) = snd (step c2 point st2).
Proof.
  intros Hsame.
  assert (point_last_poll st1 = point_last_poll st2) as Hmap
    by (by destruct Hsame).
  unfold poll_point. rewrite Hmap.
  destruct (point_last_poll st2 !! id point) as [last_poll|];
    [|split; [same_fields|done]].
  destruct (not_yet_due _ _ _); [split; [same_fields|done]|].
  destruct (read_with_retry _ _ _ _ _ _ _ _ _) as [[e|value] tr];
    [split; [same_fields|done]|].
  destruct value as [|b|n|x|t|repr truth];
    [split; [same_fields|done]|..];
    cbv beta iota;
    destruct (publish_individual_topic c1 _ _ _ _);
    destruct (publish_individual_topic c2 _ _ _ _);
    apply prepare_for_batch_same; same_fields.
Qed.

Lemma poll_points_same (c1 c2 : bool) (points : list Point)
    (st1 st2 : state) :
  same_but_individual st1 st2 ->
  same_but_individual (fst (steps c1 points st1)) (fst (steps c2 points st2))
  /\ snd (steps c1 points st1) = snd (steps c2 points st2).
Proof.
  revert st1 st2. induction points as [|p rest IH]; intros st1 st2 Hsame;
    [done|].
  cbn [poll_points].
  destruct (poll_point_same c1 c2 p st1 st2 Hsame) as [Hst He].
  destruct (step c1 p st1) as [st1' e1].
  destruct (step c2 p st2) as [st2' e2]. cbn [fst snd] in *. subst e2.
  destruct e1 as [e|]; [done|]. by apply IH.
Qed.

Lemma publish_groups_same (groups : list (equipment_key * list point_data))
    (st1 st2 : state) :
  batch_publishes st1 = batch_publishes st2 ->
  batch_log st1 = batch_log st2 ->
  batch_publishes (fold_left (publish_group timestamp batch) groups st1)
  = batch_publishes (fold_left (publish_group timestamp batch) groups st2)
  /\ batch_log (fold_left (publish_group timestamp batch) groups st1)
     = batch_log (fold_left (publish_group timestamp batch) groups st2).
Proof.
  revert st1 st2. induction groups as [|g groups IH]; intros st1 st2 Hn Hlog;
    [done|].
  cbn [fold_left]. apply IH; unfold publish_group;
    destruct (publish_equipment_batch _ _ _ _) as [published pubs]; cbn;
    by rewrite ?Hn, ?Hlog.
Qed.

(** The batches of a tick, and the exception that leaves it, are the same
    whether the broker is connected or not. *)
Lemma tick_batches_same (c1 c2 : bool) (points : list Point)
    (last_poll : gmap pystr Q) :
  batch_log (fst (tick c1 points last_poll))
  = batch_log (fst (tick c2 points last_poll))
  /\ batch_publishes (fst (tick c1 points last_poll))
     = batch_publishes (fst (tick c2 points last_poll))
  /\ snd (tick c1 points last_poll) = snd (tick c2 points last_poll).
Proof.
  unfold poll_and_publish.
  destruct (poll_points_same c1 c2 points (start_tick last_poll)
              (start_tick last_poll))
    as [(H1 & H2 & H3 & H4 & H5 & H6 & H7 & H8 & H9) He];
    [by repeat split|].
  destruct (steps c1 points (start_tick last_poll)) as [st1 e1].
  destruct (steps c2 points (start_tick last_poll)) as [st2 e2].
  cbn [fst snd] in *. subst e2. destruct e1 as [e|]; [done|].
  cbn [fst snd]. unfold publish_batches.
  destruct (enable_batch_publishing batch); [|done].
  rewrite H7.
  destruct (publish_groups_same (equipment_groups st2) st1 st2 H8 H9)
    as [-> ->].
  done.
Qed.

End ConnectionMore.

Section PlaneMore.
Import Py Bacnet Retry Writer Publisher Scheduler TickMeasure Plane.
Local Open Scope Z_scope.

Lemma arrived_message (topic : pystr) (payload : command_payload)
    (events : list mqtt_event) :
  arrived (Message topic payload :: events)
  = match payload with
    | CommandObject c =>
      if pystr_eqb topic command_topic then c :: arrived events
      else arrived events
    | _ => arrived events
    end.
Proof.
  unfold arrived. cbn [omap list_omap].
  destruct payload; try done. by destruct (pystr_eqb topic command_topic).
Qed.

Lemma deliver_pending (events : list mqtt_event) (self : plane) :
  pending_write_commands (deliver_all events self)
  = pending_write_commands self ++ arrived events.
Proof.
  revert self. induction events as [|e events IH]; intros self.
  - cbn. by rewrite app_nil_r.
  - cbn [deliver_all fold_left]. fold (deliver_all events (deliver self e)).
    rewrite IH. destruct e as [rc|rc|topic payload]; cbn [deliver].
    + unfold on_mqtt_connect. by destruct (rc =? 0).
    + unfold on_mqtt_disconnect. by destruct (negb (rc =? 0)).
    + rewrite arrived_message. unfold on_mqtt_message.
      destruct payload as [| | |c]; destruct (pystr_eqb topic command_topic);
        try done.
      cbn [pending_write_commands]. by rewrite <- app_assoc.
Qed.

(** X17. Write commands are answered in the order they arrive: when the
    queue is drained, the results carry the job identifiers of the command
    objects received on [bacnet/write/command], in order of arrival;
    messages on other topics and payloads that are not a JSON object leave
    no trace. *)
Theorem write_commands_fifo
    (int_of_str : pystr -> option Z) (float_of_str : pystr -> option float)
    (lib : library) (net : write_request -> write_reply)
    (events : list mqtt_event) (self : plane) :
  pending_write_commands self = [] ->
  pending_write_commands (deliver_all events self) = arrived events
  /\ map r_jobId
       (snd (process_write_commands int_of_str float_of_str lib net
               (pending_write_commands (deliver_all events self))))
     = map jobId (arrived events).
Proof.
  intros Hempty. rewrite deliver_pending, Hempty. cbn [app].
  split; [done|]. apply process_jobIds.
Qed.

Lemma deliver_disconnected (later : list mqtt_event) (self : plane) :
  mqtt_connected self = false ->
  (forall rc, Connected rc ∈ later -> rc <> 0) ->
  mqtt_connected (deliver_all later self) = false.
Proof.
  revert self. induction later as [|e later IH]; intros self Hoff Hno; [done|].
  cbn [deliver_all fold_left]. fold (deliver_all later (deliver self e)).
  apply IH; [|intros rc Hin; apply Hno; by apply elem_of_cons; right].
  destruct e as [rc|rc|topic payload]; cbn [deliver].
  - unfold on_mqtt_connect. destruct (Z.eqb_spec rc 0) as [->|]; [|done].
    exfalso. apply (Hno 0); [by apply elem_of_cons; left|done].
  - unfold on_mqtt_disconnect. by destruct (negb (rc =? 0)).
  - unfold on_mqtt_message.
    by destruct payload; destruct (pystr_eqb topic command_topic).
Qed.

(** X18. After an unexpected disconnection (a non-zero reason code) and
    until the broker is connected again, a tick publishes no individual
    topic: yet it still reads the points that are due, and a reading that
    succeeds is counted and moves the point's schedule, so that it never
    reaches its individual topic. The equipment batches are not held back:
    they are those of the tick of a connected worker. *)
Theorem readings_lost_while_disconnected
    (int_of_str : pystr -> option Z) (float_of_str : pystr -> option float)
    (self_retry : retry_config) (lib : library) (net : Point -> network)
    (broker : publication -> bool) (current_time : Q) (timestamp : pystr)
    (batch : batch_settings)
    (rc : Z) (later : list mqtt_event) (self : plane)
    (points : list Point) (last_poll : gmap pystr Q) :
  rc <> 0 ->
  (forall rc', Connected rc' ∈ later -> rc' <> 0) ->
  let connected :=
    mqtt_connected (deliver_all (Disconnected rc :: later) self) in
  let result :=
    poll_and_publish int_of_str float_of_str self_retry lib net connected
      broker current_time timestamp batch points last_poll in
  connected = false
  /\ mqtt_log (fst result) = []
  /\ individual_publishes (fst result) = 0%nat
  /\ (forall point last value,
        NoDup (map id points) ->
        point ∈ points ->
        last_poll !! id point = Some last ->
        not_yet_due current_time last (pollInterval point) = false ->
        fst (read_with_retry int_of_str float_of_str self_retry (net point)
               lib (ipAddress point) (port point) (objectType point)
               (objectInstance point)) = Ok value ->
        value <> VNone ->
        snd result = None ->
        point_last_poll (fst result) !! id point = Some current_time)
  /\ batch_log (fst result)
     = batch_log
         (fst (poll_and_publish int_of_str float_of_str self_retry lib net
                 true broker current_time timestamp batch points
                 last_poll)).
Proof.
  intros Hrc Hlater. cbv zeta.
  assert (mqtt_connected (deliver_all (Disconnected rc :: later) self)
          = false) as Hoff.
  { cbn [deliver_all fold_left deliver].
    fold (deliver_all later (on_mqtt_disconnect rc self)).
    apply deliver_disconnected; [|done].
    unfold on_mqtt_disconnect. by destruct (Z.eqb_spec rc 0). }
  rewrite Hoff. split; [done|].
  destruct (tick_loop int_of_str float_of_str self_retry lib net false
              broker current_time timestamp batch points last_poll)
    as (Hsnd & Hmap & _ & _ & _ & _ & Hcount & _ & Hlog).
  destruct (poll_points_disconnected int_of_str float_of_str self_retry lib
              net false broker current_time timestamp points
              (start_tick last_poll) eq_refl) as [Hlog' Hcount'].
  split; [by rewrite Hlog, Hlog'|]. split; [by rewrite Hcount, Hcount'|].
  split.
  - intros point last value Hnd Hin Hlast Hdue Hread Hvalue Hnone.
    rewrite Hmap. rewrite Hsnd in Hnone.
    by apply (poll_points_success int_of_str float_of_str self_retry lib net
                false broker current_time timestamp points
                (start_tick last_poll) point last value).
  - apply (tick_batches_same int_of_str float_of_str self_retry lib net
             broker current_time timestamp batch false true).
Qed.

End PlaneMore.

Section SinkMore.
Import Py Sink SinkSpec.

Context {datetime : Type}.
Variable fromisoformat : pystr -> option datetime.

Local Abbreviation handle := (on_message fromisoformat).

(** How one message moves the counters and the table. *)
Lemma on_message_counters (w : world datetime) (msg : message)
    (st : state datetime) :
  messages_received (handle w msg st) = S (messages_received st)
  /\ ((messages_written (handle w msg st) = messages_written st
       /\ errors (handle w msg st) = S (errors st)
       /\ sensor_readings (handle w msg st) = sensor_readings st)
      \/ (messages_written (handle w msg st) = messages_written st
          /\ errors (handle w msg st) = errors st
          /\ sensor_readings (handle w msg st) = sensor_readings st)
      \/ (messages_written (handle w msg st) = S (messages_written st)
          /\ errors (handle w msg st) = errors st
          /\ exists r,
               sensor_readings (handle w msg st)
               = if insert_succeeds w then sensor_readings st ++ [r]
                 else sensor_readings st)).
Proof.
  unfold on_message. destruct msg as [| |p]; [by split; [|left]..|].
  destruct (parse_time fromisoformat w (timestamp p)) as [dt|];
    [|by split; [|left]].
  destruct (bool_decide _); [by split; [|right; left]|].
  split; [done|]. right. right. cbn. repeat split.
  eexists. unfold insert_sensor_reading. done.
Qed.

Lemma run_cons (w : world datetime) (msg : message)
    (rest : list (world datetime * message)) (st : state datetime) :
  run fromisoformat ((w, msg) :: rest) st
  = run fromisoformat rest (handle w msg st).
Proof. done. Qed.

Lemma run_counters (stream : list (world datetime * message))
    (st : state datetime) :
  messages_received (run fromisoformat stream st)
  = (messages_received st + length stream)%nat
  /\ (length (sensor_readings st) <= messages_written st ->
      messages_written st + errors st <= messages_received st ->
      length (sensor_readings (run fromisoformat stream st))
      <= messages_written (run fromisoformat stream st)
      /\ messages_written (run fromisoformat stream st)
         + errors (run fromisoformat stream st)
         <= messages_received (run fromisoformat stream st))%nat
  /\ (Forall (fun wm => insert_succeeds (fst wm) = true) stream ->
      length (sensor_readings st) = messages_written st ->
      length (sensor_readings (run fromisoformat stream st))
      = messages_written (run fromisoformat stream st)).
Proof.
  revert st. induction stream as [|[w msg] rest IH]; intros st.
  - cbn. split; [lia|]. split; done.
  - rewrite run_cons. destruct (IH (handle w msg st)) as (I1 & I2 & I3).
    destruct (on_message_counters w msg st) as (Hrecv & Hcases).
    split; [rewrite I1, Hrecv; cbn [length]; lia|]. split.
    + intros Hrows Hsum. apply I2.
      * destruct Hcases as [(-> & _ & ->)|[(-> & _ & ->)|(-> & _ & r & ->)]];
          try lia.
        destruct (insert_succeeds w); rewrite ?length_app; cbn [length]; lia.
      * destruct Hcases as [(-> & -> & _)|[(-> & -> & _)|(-> & -> & _)]];
          lia.
    + intros Hall Hrows. apply Forall_cons in Hall as [Hw Hall].
      cbn [fst] in Hw. apply I3; [done|].
      destruct Hcases as [(-> & _ & ->)|[(-> & _ & ->)|(-> & _ & r & ->)]];
        try done.
      rewrite Hw, length_app. cbn [length]. lia.
Qed.

(** X19. The statistics of the bridge add up: every message is counted as
    received; the messages counted as written and as errors are never more
    than those received; the table never holds more rows than messages
    counted as written, and holds exactly that many when no insert
    fails. *)
Theorem sink_counters_add_up (stream : list (world datetime * message)) :
  messages_received (run fromisoformat stream initial) = length stream
  /\ (length (sensor_readings (run fromisoformat stream initial))
      <= messages_written (run fromisoformat stream initial))%nat
  /\ (messages_written (run fromisoformat stream initial)
      + errors (run fromisoformat stream initial)
      <= length stream)%nat
  /\ (Forall (fun wm => insert_succeeds (fst wm) = true) stream ->
      length (sensor_readings (run fromisoformat stream initial))
      = messages_written (run fromisoformat stream initial)).
Proof.
  destruct (run_counters stream initial) as (Hrecv & Hle & Heq).
  cbn [initial messages_received messages_written errors sensor_readings
       length] in *.
  destruct (Hle ltac:(lia) ltac:(lia)) as [Hrows Hsum].
  split; [lia|]. split; [done|]. split; [lia|].
  intros Hall. by apply Heq.
Qed.

Lemma on_message_NoDup (w : world datetime) (msg : message)
    (st : state datetime) :
  NoDup (seen_messages st) -> NoDup (seen_messages (handle w msg st)).
Proof.
  intros Hnd.
  destruct (checked_key fromisoformat w msg) as [k|] eqn:Hk.
  - destruct (decide (k ∈ seen_messages st)) as [Hin|Hnew].
    + by destruct (on_message_seen fromisoformat w msg st k Hk Hin)
        as (-> & _).
    + destruct (on_message_new fromisoformat w msg st k Hk Hnew) as (-> & _).
      assert (NoDup (seen_messages st ++ [k])) as Hnd'.
      { apply NoDup_app. split; [done|]. split; [|apply NoDup_singleton].
        intros x Hx ->%list_elem_of_singleton. done. }
      destruct (1000 <? length (seen_messages st ++ [k]))%nat; [|done].
      eapply sublist_NoDup; [exact Hnd'|apply sublist_drop].
  - by destruct (on_message_unchecked fromisoformat w msg st Hk) as (-> & _).
Qed.

(** X20. The cache never holds a key twice, whatever the stream and
    however often keys were evicted. *)
Theorem seen_never_repeats (stream : list (world datetime * message)) :
  NoDup (seen_messages (run fromisoformat stream initial)).
Proof.
  assert (forall st : state datetime,
            NoDup (seen_messages st) ->
            NoDup (seen_messages (run fromisoformat stream st))) as Hgen.
  { induction stream as [|[w msg] rest IH]; intros st Hnd; [done|].
    rewrite run_cons. by apply IH, on_message_NoDup. }
  apply Hgen. apply NoDup_nil_2.
Qed.

(** The key of a message that reached the check is in the cache when the
    message has been handled. *)
Lemma key_recorded (w : world datetime) (msg : message)
    (st : state datetime) (k : key) :
  checked_key fromisoformat w msg = Some k ->
  k ∈ seen_messages (handle w msg st).
Proof.
  intros Hk. destruct (decide (k ∈ seen_messages st)) as [Hin|Hnew].
  - by destruct (on_message_seen fromisoformat w msg st k Hk Hin)
      as (-> & _).
  - destruct (on_message_new fromisoformat w msg st k Hk Hnew) as (-> & _).
    destruct (Nat.ltb_spec 1000 (length (seen_messages st ++ [k])))
      as [Hlen|_].
    + rewrite length_app in Hlen. cbn in Hlen.
      rewrite drop_app_le by lia. apply elem_of_app. right.
      by apply list_elem_of_singleton.
    + apply elem_of_app. right. by apply list_elem_of_singleton.
Qed.

(** A message that follows one with the same key stores nothing. *)
Lemma follower_dropped (w1 w2 : world datetime) (p1 p2 : payload)
    (st : state datetime) :
  is_Some (parse_time fromisoformat w1 (timestamp p1)) ->
  dedup_key p2 = dedup_key p1 ->
  sensor_readings (handle w2 (Json p2) (handle w1 (Json p1) st))
  = sensor_readings (handle w1 (Json p1) st)
  /\ seen_messages (handle w2 (Json p2) (handle w1 (Json p1) st))
     = seen_messages (handle w1 (Json p1) st).
Proof.
  intros [dt Hdt] Hsame.
  assert (checked_key fromisoformat w1 (Json p1) = Some (dedup_key p1))
    as Hk1 by (cbn; by rewrite Hdt).
  pose proof (key_recorded w1 (Json p1) st _ Hk1) as Hin.
  destruct (checked_key fromisoformat w2 (Json p2)) as [k|] eqn:Hk2.
  - assert (k = dedup_key p1) as ->.
    { unfold checked_key in Hk2.
      destruct (parse_time fromisoformat w2 (timestamp p2)); [|done].
      injection Hk2 as <-. exact Hsame. }
    by destruct (on_message_seen fromisoformat w2 (Json p2) _ _ Hk2 Hin)
      as (-> & -> & _).
  - by destruct (on_message_unchecked fromisoformat w2 (Json p2)
                   (handle w1 (Json p1) st) Hk2) as (-> & ->).
Qed.

(** X21. Two readings of one point whose time stamps agree on their first
    19 characters (the same second as written, whatever the fraction and
    the UTC offset that follow) count as one: the second, arriving right
    after the first, stores no row. *)
Theorem same_second_stored_once (w1 w2 : world datetime) (p1 p2 : payload)
    (t1 t2 : pystr) (st : state datetime) :
  haystackName p1 = haystackName p2 ->
  timestamp p1 = Some t1 ->
  timestamp p2 = Some t2 ->
  19 <= length t1 ->
  19 <= length t2 ->
  take 19 t1 = take 19 t2 ->
  is_Some (parse_time fromisoformat w1 (timestamp p1)) ->
  dedup_key p1 = dedup_key p2
  /\ sensor_readings (handle w2 (Json p2) (handle w1 (Json p1) st))
     = sensor_readings (handle w1 (Json p1) st).
Proof.
  intros Hname Ht1 Ht2 Hl1 Hl2 Htake Hparse.
  assert (dedup_key p1 = dedup_key p2) as Hkey.
  { unfold dedup_key, timestamp_second. rewrite Hname, Ht1, Ht2.
    destruct (Nat.leb_spec 19 (length t1)); [|lia].
    destruct (Nat.leb_spec 19 (length t2)); [|lia]. by rewrite Htake. }
  split; [done|]. by apply follower_dropped.
Qed.

(** X22. A reading without a time stamp is stamped with the clock of the
    bridge, but its key has no time in it: of two such readings of one
    point, the second, arriving right after the first, stores no row,
    however much later it comes. *)
Theorem untimed_stored_once (w1 w2 : world datetime) (p1 p2 : payload)
    (st : state datetime) :
  haystackName p1 = haystackName p2 ->
  timestamp p1 = None ->
  timestamp p2 = None ->
  sensor_readings (handle w2 (Json p2) (handle w1 (Json p1) st))
  = sensor_readings (handle w1 (Json p1) st)
  /\ (dedup_key p1 ∉ seen_messages st ->
      insert_succeeds w1 = true ->
      sensor_readings (handle w1 (Json p1) st)
      = sensor_readings st ++ [ {| time := utcnow w1; source := p1 |} ]).
Proof.
  intros Hname Ht1 Ht2. split.
  - apply follower_dropped.
    + rewrite Ht1. by eexists.
    + unfold dedup_key. by rewrite Hname, Ht1, Ht2.
  - intros Hnew Hok. unfold on_message. rewrite Ht1. cbn [parse_time].
    rewrite bool_decide_eq_false_2 by done.
    cbn [sensor_readings]. unfold insert_sensor_reading. by rewrite Hok.
Qed.

End SinkMore.

Section SinkMainMore.
Import Py SinkMain.
Local Open Scope Z_scope.

Lemma slept_app (tr1 tr2 : list event) :
  slept (tr1 ++ tr2) = slept tr1 + slept tr2.
Proof.
  induction tr1 as [|e tr1 IH]; [done|].
  cbn [app slept fold_right]. fold (slept (tr1 ++ tr2)). fold (slept tr1).
  rewrite IH. destruct e; lia.
Qed.

Lemma connects_app (tr1 tr2 : list event) :
  connects (tr1 ++ tr2) = connects tr1 ++ connects tr2.
Proof. apply flat_map_app. Qed.

(** The five attempts. *)
Lemma connect_loop_five (w : startup) :
  (length (connects (snd (connect_loop w 5 (seq 0 5)))) <= 5)%nat
  /\ 0 <= slept (snd (connect_loop w 5 (seq 0 5))) <= 8
  /\ (LoopForever ∉ snd (connect_loop w 5 (seq 0 5)))
  /\ (fst (connect_loop w 5 (seq 0 5)) = true
      <-> exists a, (a < 5)%nat /\ broker_ok w a = true).
Proof.
  assert (forall tr : list event,
            Forall (fun e => e <> LoopForever) tr -> LoopForever ∉ tr)
    as Hnot.
  { intros tr Hall Hin. rewrite Forall_forall in Hall.
    by apply (Hall _ Hin). }
  cbn [seq connect_loop Nat.sub Nat.ltb Nat.leb].
  destruct (broker_ok w 0) eqn:H0.
  { cbn. split; [lia|]. split; [lia|]. split; [apply Hnot; by repeat constructor|].
    split; [|done]. intros _. exists 0%nat. split; [lia|done]. }
  destruct (broker_ok w 1) eqn:H1.
  { cbn. split; [lia|]. split; [lia|]. split; [apply Hnot; by repeat constructor|].
    split; [|done]. intros _. exists 1%nat. split; [lia|done]. }
  destruct (broker_ok w 2) eqn:H2.
  { cbn. split; [lia|]. split; [lia|]. split; [apply Hnot; by repeat constructor|].
    split; [|done]. intros _. exists 2%nat. split; [lia|done]. }
  destruct (broker_ok w 3) eqn:H3.
  { cbn. split; [lia|]. split; [lia|]. split; [apply Hnot; by repeat constructor|].
    split; [|done]. intros _. exists 3%nat. split; [lia|done]. }
  destruct (broker_ok w 4) eqn:H4.
  { cbn. split; [lia|]. split; [lia|]. split; [apply Hnot; by repeat constructor|].
    split; [|done]. intros _. exists 4%nat. split; [lia|done]. }
  cbn. split; [lia|]. split; [lia|]. split; [apply Hnot; by repeat constructor|].
  split; [done|]. intros (a & Ha & Hok).
  destruct a as [|[|[|[|[|a]]]]]; [congruence..|lia].
Qed.

(** The broker part of the start-up, in closed form. *)
Lemma connect_loop_trace (w : startup) :
  snd (connect_loop w 5 (seq 0 5))
  ++ (if fst (connect_loop w 5 (seq 0 5)) then [LoopForever] else [])
  = match find (broker_ok w) (seq 0 5) with
    | Some n => failed_attempts n ++ [MqttConnect n; LoopForever]
    | None => failed_attempts 4 ++ [MqttConnect 4]
    end.
Proof.
  cbn [seq find connect_loop Nat.sub Nat.ltb Nat.leb].
  destruct (broker_ok w 0); [reflexivity|].
  destruct (broker_ok w 1); [reflexivity|].
  destruct (broker_ok w 2); [reflexivity|].
  destruct (broker_ok w 3); [reflexivity|].
  destruct (broker_ok w 4); reflexivity.
Qed.

(** X23. The bridge tries the broker at most five times, sleeping 2 s
    after each failure but the last (8 s at most in all); it enters its
    message loop exactly when the time-series database was reached and one
    of the five attempts succeeded, and does not try the broker at all
    when the database was not reached. When the database was reached, what
    follows is exactly: every attempt before the first that succeeds,
    each with its sleep of 2 s, then the attempt that succeeds and the
    message loop; or, when none of the five succeeds, four attempts with
    their sleep and the fifth attempt, after which the bridge returns. *)
Theorem bridge_startup (w : startup) :
  (length (connects (main w)) <= 5)%nat
  /\ 0 <= slept (main w) <= 8
  /\ (LoopForever ∈ main w
      <-> db_ok w = true /\ exists a, (a < 5)%nat /\ broker_ok w a = true)
  /\ (db_ok w = false -> connects (main w) = [])
  /\ (db_ok w = true ->
      main w
      = (if config_db_ok w then [ConnectConfigDb; LoadMqttConfig]
         else [ConnectConfigDb])
        ++ ConnectDb ::
           match find (broker_ok w) (seq 0 5) with
           | Some n => failed_attempts n ++ [MqttConnect n; LoopForever]
           | None => failed_attempts 4 ++ [MqttConnect 4]
           end).
Proof.
  assert (db_ok w = true ->
          main w
          = (if config_db_ok w then [ConnectConfigDb; LoadMqttConfig]
             else [ConnectConfigDb])
            ++ ConnectDb ::
               match find (broker_ok w) (seq 0 5) with
               | Some n => failed_attempts n ++ [MqttConnect n; LoopForever]
               | None => failed_attempts 4 ++ [MqttConnect 4]
               end) as Htrace.
  { intros Hdb. unfold main. rewrite Hdb, <- connect_loop_trace.
    by destruct (connect_loop w 5 (seq 0 5)). }
  unfold main in *.
  assert (forall tr : list event,
            connects ((if config_db_ok w
                       then [ConnectConfigDb; LoadMqttConfig]
                       else [ConnectConfigDb]) ++ ConnectDb :: tr)
            = connects tr
            /\ slept ((if config_db_ok w
                       then [ConnectConfigDb; LoadMqttConfig]
                       else [ConnectConfigDb]) ++ ConnectDb :: tr)
               = slept tr
            /\ (LoopForever ∈ (if config_db_ok w
                               then [ConnectConfigDb; LoadMqttConfig]
                               else [ConnectConfigDb]) ++ ConnectDb :: tr
                <-> LoopForever ∈ tr)) as Hprefix.
  { intros tr. destruct (config_db_ok w); cbn; (split; [done|]);
      (split; [done|]); rewrite ?elem_of_cons;
      (split;
       [ intros H; repeat (destruct H as [H|H]; [discriminate|]); exact H
       | intros H; repeat (first [exact H|right]) ]). }
  destruct (db_ok w).
  - destruct (connect_loop_five w) as (Hlen & Hslept & Hnot & Hok).
    destruct (connect_loop w 5 (seq 0 5)) as [ok tr]. cbn [fst snd] in *.
    destruct (Hprefix (tr ++ (if ok then [LoopForever] else [])))
      as (-> & -> & ->).
    rewrite connects_app, slept_app, length_app, elem_of_app.
    destruct ok; cbn.
    + split; [lia|]. split; [lia|]. split; [|split; [done|exact Htrace]].
      split; [intros _; split; [done|]; by apply Hok|].
      intros _. right. by apply list_elem_of_singleton.
    + split; [lia|]. split; [lia|]. split; [|split; [done|exact Htrace]].
      split; [intros [?|?%elem_of_nil]; done|].
      intros [_ Hex]. by apply Hok in Hex.
  - destruct (Hprefix []) as (-> & -> & ->). cbn.
    split; [lia|]. split; [lia|]. split; [|split; [done|done]].
    split; [by intros ?%elem_of_nil|by intros [[=] _]].
Qed.

End SinkMainMore.

Section DiscoveryMore.
Import Py Discovery.
Local Open Scope Z_scope.

Lemma split_cons (sep : Z) (s : pystr) :
  exists part parts, split sep s = part :: parts.
Proof.
  induction s as [|c s (part & parts & IH)]; [by eexists _, _|].
  cbn [split]. destruct (c =? sep); [by eexists _, _|].
  rewrite IH. by eexists _, _.
Qed.

(** A piece without the separator, then the separator: the piece is the
    first field. *)
Lemma split_app (sep : Z) (a rest : pystr) :
  sep ∉ a -> split sep (a ++ sep :: rest) = a :: split sep rest.
Proof.
  intros Ha. induction a as [|c a IH]; cbn [app split].
  - by rewrite Z.eqb_refl.
  - apply not_elem_of_cons in Ha as [Hc Ha].
    destruct (Z.eqb_spec c sep) as [->|_]; [done|]. by rewrite IH.
Qed.

Lemma split_whole (sep : Z) (a : pystr) : sep ∉ a -> split sep a = [a].
Proof.
  intros Ha. induction a as [|c a IH]; [done|]. cbn [split].
  apply not_elem_of_cons in Ha as [Hc Ha].
  destruct (Z.eqb_spec c sep) as [->|_]; [done|]. by rewrite IH.
Qed.

(** The fields are one more than the separators. *)
Lemma split_length (sep : Z) (s : pystr) :
  length (split sep s) = S (count_occ Z.eq_dec s sep).
Proof.
  induction s as [|c s IH]; [done|]. cbn [split].
  destruct (Z.eqb_spec c sep) as [->|Hne].
  - rewrite count_occ_cons_eq by done. cbn [length]. by rewrite IH.
  - rewrite count_occ_cons_neq by done.
    destruct (split sep s) as [|part parts]; [done|]. by rewrite <- IH.
Qed.

(** The first field has no separator in it, and the string is that field
    alone or that field, the separator and a rest. *)
Lemma split_head (sep : Z) (s : pystr) :
  (sep ∉ hd [] (split sep s))
  /\ (s = hd [] (split sep s)
      \/ exists rest, s = hd [] (split sep s) ++ sep :: rest).
Proof.
  induction s as [|c s [IHno IHeq]];
    [split; [apply not_elem_of_nil|by left]|].
  cbn [split]. destruct (Z.eqb_spec c sep) as [->|Hne].
  - cbn [hd]. split; [apply not_elem_of_nil|]. right. by exists s.
  - destruct (split_cons sep s) as (part & parts & Hsplit).
    rewrite Hsplit in *. cbn [hd] in *. split.
    + apply not_elem_of_cons. split; [congruence|done].
    + destruct IHeq as [->|[rest ->]]; [by left|]. right. by exists rest.
Qed.

Lemma contains_char (c : Z) (s : pystr) :
  contains [c] s = true <-> c ∈ s.
Proof.
  induction s as [|x s IH]; cbn [contains starts_with].
  - split; [done|by intros ?%elem_of_nil].
  - rewrite orb_true_iff, IH, elem_of_cons, andb_true_r, Z.eqb_eq. tauto.
Qed.

(** X24. The broadcast address keeps the first three dot-separated fields
    of the configured address and puts 255 after them, whatever follows
    the third field and also when nothing does; an address with fewer than
    two dots makes the computation fail. *)
Theorem broadcast_keeps_three_fields :
  (forall a b c rest : pystr,
     46 ∉ a -> 46 ∉ b -> 46 ∉ c ->
     broadcast_ip (a ++ py "." ++ b ++ py "." ++ c ++ py "." ++ rest)
     = Some (a ++ py "." ++ b ++ py "." ++ c ++ py ".255"))
  /\ (forall a b c : pystr,
        46 ∉ a -> 46 ∉ b -> 46 ∉ c ->
        broadcast_ip (a ++ py "." ++ b ++ py "." ++ c)
        = Some (a ++ py "." ++ b ++ py "." ++ c ++ py ".255"))
  /\ (forall ip : pystr,
        broadcast_ip ip = None
        <-> (count_occ Z.eq_dec ip 46%Z < 2)%nat).
Proof.
  split; [|split].
  - intros a b c rest Ha Hb Hc. unfold broadcast_ip.
    change (py ".") with [46]. cbn [app].
    rewrite (split_app 46 a) by done. rewrite (split_app 46 b) by done.
    rewrite (split_app 46 c) by done. done.
  - intros a b c Ha Hb Hc. unfold broadcast_ip.
    change (py ".") with [46]. cbn [app].
    rewrite (split_app 46 a) by done. rewrite (split_app 46 b) by done.
    rewrite (split_whole 46 c) by done. done.
  - intros ip. unfold broadcast_ip.
    pose proof (split_length 46 ip) as Hlen.
    destruct (split 46 ip) as [|p0 [|p1 [|p2 parts]]]; cbn [length] in Hlen;
      split; try done; try lia.
Qed.

(** X25. The device address kept for a point has no port in it: it holds
    no colon, and the address received is that text alone or that text, a
    colon and a rest. *)
Theorem device_ip_has_no_port (device_address : pystr) :
  contains (py ":") (device_ip device_address) = false
  /\ (device_address = device_ip device_address
      \/ exists rest,
           device_address = device_ip device_address ++ py ":" ++ rest).
Proof.
  unfold device_ip. change (py ":") with [58].
  destruct (contains [58] device_address) eqn:Hc.
  - destruct (split_head 58 device_address) as [Hno Heq].
    split; [|done].
    destruct (contains [58] (hd [] (split 58 device_address))) eqn:Hc';
      [|done].
    by apply contains_char in Hc'.
  - split; [done|by left].
Qed.

Lemma broadcast_keeps_three_fields_witness :
  (46 ∉ py "192") /\ (46 ∉ py "168") /\ (46 ∉ py "1")
  /\ broadcast_ip (py "192.168.1.50") = Some (py "192.168.1.255").
Proof.
  assert (46 ∉ py "192") as Ha by (by apply (bool_decide_unpack _)).
  assert (46 ∉ py "168") as Hb by (by apply (bool_decide_unpack _)).
  assert (46 ∉ py "1") as Hc by (by apply (bool_decide_unpack _)).
  split; [exact Ha|]. split; [exact Hb|]. split; [exact Hc|].
  exact (proj1 broadcast_keeps_three_fields (py "192") (py "168") (py "1")
           (py "50") Ha Hb Hc).
Defined.

End DiscoveryMore.

Section WriterWitnesses.
Import Py Bacnet Writer Examples MoreExamples.
Local Open Scope Z_scope.

(** A write that times out. *)
Lemma write_tried_once_witness :
  analog_request
  ∈ snd (write_bacnet_value refuse_int refuse_float permissive timing_out
           (VStr device_ip) 47808 (Some (py "analog-output")) (VInt 2)
           (VInt 21) (VInt 8) (VBool false))
  /\ timing_out analog_request = WriteTimeout
  /\ write_bacnet_value refuse_int refuse_float permissive timing_out
       (VStr device_ip) 47808 (Some (py "analog-output")) (VInt 2)
       (VInt 21) (VInt 8) (VBool false)
     = ((false, Some ErrTimeout), [analog_request]).
Proof.
  assert (analog_request
          ∈ snd (write_bacnet_value refuse_int refuse_float permissive
                   timing_out (VStr device_ip) 47808
                   (Some (py "analog-output")) (VInt 2) (VInt 21) (VInt 8)
                   (VBool false))) as Hin
    by (apply list_elem_of_singleton; reflexivity).
  split; [exact Hin|]. split; [reflexivity|].
  exact (proj2 (proj2 (write_tried_once refuse_int refuse_float permissive
                         timing_out (VStr device_ip) 47808
                         (Some (py "analog-output")) (VInt 2) (VInt 21)
                         (VInt 8) (VBool false)))
           analog_request Hin eq_refl).
Defined.

(** The queue of S3 and of the write with priority 99. *)
Lemma write_results_in_order_witness :
  [s3_command; priority_99_command] = [s3_command] ++ [priority_99_command]
  /\ map r_jobId
       (snd (process_write_commands refuse_int refuse_float permissive
               acknowledging [s3_command; priority_99_command]))
     = [Some (py "j1"); Some (py "j2")]
  /\ process_write_commands refuse_int refuse_float permissive acknowledging
       [s3_command; priority_99_command]
     = (fst (process_write_commands refuse_int refuse_float permissive
               acknowledging [s3_command])
        ++ fst (process_write_commands refuse_int refuse_float permissive
                  acknowledging [priority_99_command]),
        snd (process_write_commands refuse_int refuse_float permissive
               acknowledging [s3_command])
        ++ snd (process_write_commands refuse_int refuse_float permissive
                  acknowledging [priority_99_command])).
Proof.
  destruct (write_results_in_order refuse_int refuse_float permissive
              acknowledging [s3_command; priority_99_command])
    as (Hjobs & _ & Hsplit).
  split; [reflexivity|]. split; [exact Hjobs|].
  exact (Hsplit [s3_command] [priority_99_command] eq_refl).
Defined.

Lemma write_result_reports_witness :
  s3_command ∈ [s3_command; priority_99_command]
  /\ exists r,
       r ∈ snd (process_write_commands refuse_int refuse_float permissive
                  acknowledging [s3_command; priority_99_command])
       /\ r_jobId r = Some (py "j1")
       /\ (r_success r = true <-> r_error r = None).
Proof.
  assert (s3_command ∈ [s3_command; priority_99_command]) as Hin
    by apply list_elem_of_here.
  split; [exact Hin|].
  destruct (write_result_reports refuse_int refuse_float permissive
              acknowledging [s3_command; priority_99_command] s3_command Hin)
    as (r & Hr & Hjob & Herr & _).
  exists r. split; [exact Hr|]. split; [exact Hjob|exact Herr].
Defined.

(** The text "false" switches binary-output 3 on. *)
Lemma binary_text_is_active_witness :
  release binary_text_command <> Some true
  /\ objectType binary_text_command = Some (py "binary-output")
  /\ family_of (py "binary-output") = Some Binary
  /\ value binary_text_command = VStr (py "false")
  /\ py "false" <> []
  /\ map w_value
       (fst (execute_write_command refuse_int refuse_float permissive
               acknowledging binary_text_command))
     = [Unsigned 1].
Proof.
  split; [discriminate|]. split; [reflexivity|]. split; [reflexivity|].
  split; [reflexivity|]. split; [discriminate|].
  assert (exists req,
            fst (execute_write_command refuse_int refuse_float permissive
                   acknowledging binary_text_command) = [req])
    as [req Hreq] by (eexists; reflexivity).
  rewrite Hreq. cbn [map]. f_equal.
  apply (binary_text_is_active refuse_int refuse_float permissive
           acknowledging binary_text_command (py "binary-output")
           (py "false") req);
    [discriminate|reflexivity|reflexivity|reflexivity|discriminate|].
  rewrite Hreq. apply list_elem_of_here.
Defined.

(** 3.5 written to a multi-state value goes out as [Unsigned(3)]. *)
Lemma write_encoding_by_family_witness :
  release multi_state_command <> Some true
  /\ family_of (py "multi-state-value") = Some MultiState
  /\ fst (execute_write_command refuse_int refuse_float permissive
            acknowledging multi_state_command)
     = [ {| w_device_ip := VStr device_ip;
            w_device_port := 47808;
            w_object_type := VStr (py "multiStateValue");
            w_object_instance := VInt 4;
            w_value := Unsigned 3 |} ].
Proof.
  assert (release multi_state_command <> Some true) as Hrel
    by discriminate.
  split; [exact Hrel|]. split; [reflexivity|].
  exact (write_encoding_by_family refuse_int refuse_float permissive
           acknowledging multi_state_command (py "multi-state-value")
           MultiState Hrel eq_refl eq_refl eq_refl eq_refl).
Defined.

End WriterWitnesses.

Section PublisherWitnesses.
Import Py Codec Publisher Examples MoreExamples.
Local Open Scope Z_scope.

(** The reading of S1 is published once. *)
Lemma publish_reports_witness :
  s1_publication (VFloat (S754_finite false 16121856 (-17)))
  ∈ snd (publish_individual_topic true accepting s1_point
           (VFloat (S754_finite false 16121856 (-17))) s1_timestamp)
  /\ pub_qos (s1_publication (VFloat (S754_finite false 16121856 (-17))))
     = qos s1_point
  /\ retain (s1_publication (VFloat (S754_finite false 16121856 (-17))))
     = false.
Proof.
  assert (s1_publication (VFloat (S754_finite false 16121856 (-17)))
          ∈ snd (publish_individual_topic true accepting s1_point
                   (VFloat (S754_finite false 16121856 (-17)))
                   s1_timestamp)) as Hin
    by (apply list_elem_of_singleton; reflexivity).
  destruct (proj2 (proj2 (publish_reports true accepting s1_point
                            (VFloat (S754_finite false 16121856 (-17)))
                            s1_timestamp)) _ Hin)
    as (_ & _ & Hqos & Hretain & _).
  split; [exact Hin|]. split; [exact Hqos|exact Hretain].
Defined.

(** The integer 1 goes out as the float 1.0. *)
Lemma published_value_is_clean_witness :
  CodecSpec.host_or_none (VInt 1)
  /\ s1_publication (VFloat (S754_finite false 4503599627370496 (-52)))
     ∈ snd (publish_individual_topic true accepting s1_point (VInt 1)
              s1_timestamp)
  /\ ((exists x,
         p_value
           (message
              (s1_publication
                 (VFloat (S754_finite false 4503599627370496 (-52)))))
         = VFloat x)
      \/ (exists s,
            p_value
              (message
                 (s1_publication
                    (VFloat (S754_finite false 4503599627370496 (-52)))))
            = VStr s
            /\ VInt 1 = VStr s
            /\ contains (py "bacpypes3") s = false
            /\ contains (py "object at") s = false)).
Proof.
  assert (s1_publication (VFloat (S754_finite false 4503599627370496 (-52)))
          ∈ snd (publish_individual_topic true accepting s1_point (VInt 1)
                   s1_timestamp)) as Hin
    by (apply list_elem_of_singleton; reflexivity).
  split; [exact I|]. split; [exact Hin|].
  exact (published_value_is_clean true accepting s1_point (VInt 1)
           s1_timestamp _ I Hin).
Defined.

End PublisherWitnesses.

Section SchedulerWitnesses.
Import Py Bacnet Retry Publisher Scheduler TickMeasure Examples MoreExamples.

(** The tick at 62 s over the point last polled at 0 s, with batch
    publishing enabled: one read, one individual topic, one batch. *)
Lemma tick_counters_add_up_witness :
  snd (poll_and_publish refuse_int refuse_float self_config permissive
         answering true accepting 62 s1_timestamp batching [s1_point]
         polled_at_0)
  = None
  /\ (skipped_reads
        (fst (poll_and_publish refuse_int refuse_float self_config permissive
                answering true accepting 62 s1_timestamp batching [s1_point]
                polled_at_0))
      + total_reads
          (fst (poll_and_publish refuse_int refuse_float self_config
                  permissive answering true accepting 62 s1_timestamp
                  batching [s1_point] polled_at_0))
      = length [s1_point])%nat
  /\ batch_publishes
       (fst (poll_and_publish refuse_int refuse_float self_config permissive
               answering true accepting 62 s1_timestamp batching [s1_point]
               polled_at_0)) = 1%nat.
Proof.
  assert (snd (poll_and_publish refuse_int refuse_float self_config permissive
                 answering true accepting 62 s1_timestamp batching [s1_point]
                 polled_at_0) = None) as Hnone
    by (vm_compute; reflexivity).
  split; [exact Hnone|].
  split; [|vm_compute; reflexivity].
  exact (proj2 (proj2 (proj2 (proj2 (proj2
           (tick_counters_add_up refuse_int refuse_float self_config
              permissive answering true accepting 62 s1_timestamp batching
              [s1_point] polled_at_0))))) Hnone).
Defined.

Lemma one_read_per_point_witness :
  NoDup (map id [s1_point])
  /\ NoDup (map fst
              (bacnet_log
                 (fst (poll_and_publish refuse_int refuse_float self_config
                         permissive answering true accepting 62 s1_timestamp
                         no_batches [s1_point] polled_at_0)))).
Proof.
  assert (NoDup (map id [s1_point])) as Hnd by apply NoDup_singleton.
  split; [exact Hnd|].
  exact (one_read_per_point refuse_int refuse_float self_config permissive
           answering true accepting 62 s1_timestamp no_batches [s1_point]
           polled_at_0 Hnd).
Defined.

Lemma only_due_points_read_witness :
  NoDup (map id [s1_point])
  /\ (id s1_point, [Request 0 6000])
     ∈ bacnet_log
         (fst (poll_and_publish refuse_int refuse_float self_config permissive
                 answering true accepting 62 s1_timestamp no_batches
                 [s1_point] polled_at_0))
  /\ exists p last,
       p ∈ [s1_point] /\ id p = id s1_point
       /\ polled_at_0 !! id s1_point = Some last
       /\ (next_due last (pollInterval p) <= 62)%Q.
Proof.
  assert (NoDup (map id [s1_point])) as Hnd by apply NoDup_singleton.
  assert ((id s1_point, [Request 0 6000])
          ∈ bacnet_log
              (fst (poll_and_publish refuse_int refuse_float self_config
                      permissive answering true accepting 62 s1_timestamp
                      no_batches [s1_point] polled_at_0))) as Hin.
  { assert (bacnet_log
              (fst (poll_and_publish refuse_int refuse_float self_config
                      permissive answering true accepting 62 s1_timestamp
                      no_batches [s1_point] polled_at_0))
            = [(id s1_point, [Request 0 6000])]) as ->
      by (vm_compute; reflexivity).
    apply list_elem_of_here. }
  split; [exact Hnd|]. split; [exact Hin|].
  exact (only_due_points_read refuse_int refuse_float self_config permissive
           answering true accepting 62 s1_timestamp no_batches [s1_point]
           polled_at_0 _ _ Hnd Hin).
Defined.

(** The device answers 2^1024 at 62 s; a second point follows. *)
Lemma huge_reading_stops_tick_witness :
  snd (poll_points refuse_int refuse_float self_config permissive
         answering_huge true accepting 62 s1_timestamp []
         (start_tick polled_at_0)) = None
  /\ fst (read_with_retry refuse_int refuse_float self_config
            (answering_huge s1_point) permissive (ipAddress s1_point)
            (port s1_point) (objectType s1_point) (objectInstance s1_point))
     = Ok (VInt (2 ^ 1024))
  /\ float_of_int (2 ^ 1024) = Raise OverflowError
  /\ is_Some (equipment_key_of s1_point)
  /\ snd (poll_points refuse_int refuse_float self_config permissive
            answering_huge true accepting 62 s1_timestamp
            ([] ++ s1_point :: [s1_point]) (start_tick polled_at_0))
     = Some OverflowError.
Proof.
  assert (point_last_poll
            (fst (poll_points refuse_int refuse_float self_config permissive
                    answering_huge true accepting 62 s1_timestamp []
                    (start_tick polled_at_0)))
          !! id s1_point = Some 0%Q) as Hlast by (vm_compute; reflexivity).
  assert (fst (read_with_retry refuse_int refuse_float self_config
                 (answering_huge s1_point) permissive (ipAddress s1_point)
                 (port s1_point) (objectType s1_point)
                 (objectInstance s1_point))
          = Ok (VInt (2 ^ 1024))) as Hread by reflexivity.
  assert (float_of_int (2 ^ 1024) = Raise OverflowError) as Hhuge
    by (vm_compute; reflexivity).
  assert (is_Some (equipment_key_of s1_point)) as Hkey
    by (eexists; reflexivity).
  split; [reflexivity|]. split; [exact Hread|]. split; [exact Hhuge|].
  split; [exact Hkey|].
  exact (proj1 (huge_reading_stops_tick refuse_int refuse_float self_config
                  permissive answering_huge true accepting 62 s1_timestamp
                  [] [s1_point] s1_point (start_tick polled_at_0) 0
                  (2 ^ 1024) eq_refl Hlast eq_refl Hread Hhuge Hkey)).
Defined.

(** The device does not answer at 62 s. *)
Lemma failed_read_stays_due_witness :
  point_last_poll (start_tick polled_at_0) !! id s1_point = Some 0%Q
  /\ not_yet_due 62 0 (pollInterval s1_point) = false
  /\ fst (read_with_retry refuse_int refuse_float self_config
            (silent s1_point) permissive (ipAddress s1_point)
            (port s1_point) (objectType s1_point) (objectInstance s1_point))
     = Ok VNone
  /\ failed_reads
       (fst (poll_point refuse_int refuse_float self_config permissive silent
               true accepting 62 s1_timestamp s1_point
               (start_tick polled_at_0))) = 1%nat.
Proof.
  assert (point_last_poll (start_tick polled_at_0) !! id s1_point
          = Some 0%Q) as Hlast by (vm_compute; reflexivity).
  assert (not_yet_due 62 0 (pollInterval s1_point) = false) as Hdue
    by reflexivity.
  assert (fst (read_with_retry refuse_int refuse_float self_config
                 (silent s1_point) permissive (ipAddress s1_point)
                 (port s1_point) (objectType s1_point)
                 (objectInstance s1_point)) = Ok VNone) as Hread
    by reflexivity.
  destruct (failed_read_stays_due refuse_int refuse_float self_config
              permissive silent true accepting 62 s1_timestamp s1_point
              (start_tick polled_at_0) 0 Hlast Hdue Hread)
    as (_ & _ & Hfailed & _).
  split; [exact Hlast|]. split; [exact Hdue|]. split; [exact Hread|].
  exact Hfailed.
Defined.

(** The library refuses the address of the first of two points. *)
Lemma refused_point_stops_tick_witness :
  snd (poll_points refuse_int refuse_float self_config strict answering true
         accepting 62 s1_timestamp [] (start_tick polled_at_0)) = None
  /\ point_last_poll
       (fst (poll_points refuse_int refuse_float self_config strict answering
               true accepting 62 s1_timestamp [] (start_tick polled_at_0)))
     !! id s1_point = Some 0%Q
  /\ not_yet_due 62 0 (pollInterval s1_point) = false
  /\ Address strict (VStr (ipAddress s1_point)) (port s1_point) = false
  /\ snd (poll_points refuse_int refuse_float self_config strict answering
            true accepting 62 s1_timestamp ([] ++ s1_point :: [s1_point])
            (start_tick polled_at_0)) = Some LibraryError.
Proof.
  assert (point_last_poll
            (fst (poll_points refuse_int refuse_float self_config strict
                    answering true accepting 62 s1_timestamp []
                    (start_tick polled_at_0)))
          !! id s1_point = Some 0%Q) as Hlast by (vm_compute; reflexivity).
  split; [reflexivity|]. split; [exact Hlast|]. split; [reflexivity|].
  split; [reflexivity|].
  exact (proj1 (refused_point_stops_tick refuse_int refuse_float self_config
                  strict answering true accepting 62 s1_timestamp []
                  [s1_point] s1_point (start_tick polled_at_0) 0 eq_refl
                  Hlast eq_refl (or_introl eq_refl))).
Defined.

End SchedulerWitnesses.

Section PlaneWitnesses.
Import Py Bacnet Retry Writer Scheduler Plane Examples MoreExamples.
Local Open Scope Z_scope.

Lemma write_commands_fifo_witness :
  pending_write_commands idle_plane = []
  /\ map r_jobId
       (snd (process_write_commands refuse_int refuse_float permissive
               acknowledging
               (pending_write_commands (deliver_all two_commands idle_plane))))
     = [Some (py "j1"); Some (py "j2")].
Proof.
  split; [reflexivity|].
  exact (proj2 (write_commands_fifo refuse_int refuse_float permissive
                  acknowledging two_commands idle_plane eq_refl)).
Defined.

(** The connection drops with reason code 1, batch publishing is
    enabled: the reading goes out in its batch only. *)
Lemma readings_lost_while_disconnected_witness :
  1 <> 0
  /\ (forall rc', Connected rc' ∈ [] -> rc' <> 0)
  /\ mqtt_log
       (fst (poll_and_publish refuse_int refuse_float self_config permissive
               answering
               (mqtt_connected (deliver_all [Disconnected 1] idle_plane))
               accepting 62 s1_timestamp batching [s1_point] polled_at_0))
     = []
  /\ length
       (batch_log
          (fst (poll_and_publish refuse_int refuse_float self_config
                  permissive answering
                  (mqtt_connected (deliver_all [Disconnected 1] idle_plane))
                  accepting 62 s1_timestamp batching [s1_point]
                  polled_at_0))) = 1%nat.
Proof.
  assert (1 <> 0) as Hrc by discriminate.
  assert (forall rc', Connected rc' ∈ [] -> rc' <> 0) as Hlater
    by (intros rc' Hin; by apply elem_of_nil in Hin).
  split; [exact Hrc|]. split; [exact Hlater|].
  destruct (readings_lost_while_disconnected refuse_int refuse_float
              self_config permissive answering accepting 62 s1_timestamp
              batching 1 [] idle_plane [s1_point] polled_at_0 Hrc Hlater)
    as (_ & Hlog & _ & _ & Hbatch).
  split; [exact Hlog|]. rewrite Hbatch. vm_compute. reflexivity.
Defined.

End PlaneWitnesses.

Section SinkWitnesses.
Import Py Sink SinkSpec SinkMain Examples MoreExamples.
Local Open Scope Z_scope.

Lemma sink_counters_add_up_witness :
  Forall (fun wm : world pystr * message => insert_succeeds (fst wm) = true)
    s4_stream
  /\ length (sensor_readings (run iso_text s4_stream initial))
     = messages_written (run iso_text s4_stream initial).
Proof.
  assert (Forall (fun wm : world pystr * message =>
                    insert_succeeds (fst wm) = true) s4_stream) as Hall
    by (repeat constructor).
  split; [exact Hall|].
  exact (proj2 (proj2 (proj2 (sink_counters_add_up iso_text s4_stream)))
           Hall).
Defined.

(** S4, in general: 10:00:00.123Z and 10:00:00.987Z. *)
Lemma same_second_stored_once_witness :
  haystackName (reading_payload (py "site.ahu.1.sensor.temp")
                  (py "2024-03-01T10:00:00.123Z"))
  = haystackName (reading_payload (py "site.ahu.1.sensor.temp")
                    (py "2024-03-01T10:00:00.987Z"))
  /\ (19 <= length (py "2024-03-01T10:00:00.123Z"))%nat
  /\ (19 <= length (py "2024-03-01T10:00:00.987Z"))%nat
  /\ take 19 (py "2024-03-01T10:00:00.123Z")
     = take 19 (py "2024-03-01T10:00:00.987Z")
  /\ is_Some (parse_time iso_text db_up
                (timestamp (reading_payload (py "site.ahu.1.sensor.temp")
                              (py "2024-03-01T10:00:00.123Z"))))
  /\ sensor_readings
       (on_message iso_text db_up
          (Json (reading_payload (py "site.ahu.1.sensor.temp")
                   (py "2024-03-01T10:00:00.987Z")))
          (on_message iso_text db_up
             (Json (reading_payload (py "site.ahu.1.sensor.temp")
                      (py "2024-03-01T10:00:00.123Z"))) initial))
     = sensor_readings
         (on_message iso_text db_up
            (Json (reading_payload (py "site.ahu.1.sensor.temp")
                     (py "2024-03-01T10:00:00.123Z"))) initial).
Proof.
  assert (is_Some (parse_time iso_text db_up
                     (timestamp
                        (reading_payload (py "site.ahu.1.sensor.temp")
                           (py "2024-03-01T10:00:00.123Z"))))) as Hparse
    by (eexists; reflexivity).
  assert (19 <= length (py "2024-03-01T10:00:00.123Z"))%nat as Hl1
    by (vm_compute; lia).
  assert (19 <= length (py "2024-03-01T10:00:00.987Z"))%nat as Hl2
    by (vm_compute; lia).
  split; [reflexivity|]. split; [exact Hl1|]. split; [exact Hl2|].
  split; [reflexivity|]. split; [exact Hparse|].
  exact (proj2 (same_second_stored_once iso_text db_up db_up
                  (reading_payload (py "site.ahu.1.sensor.temp")
                     (py "2024-03-01T10:00:00.123Z"))
                  (reading_payload (py "site.ahu.1.sensor.temp")
                     (py "2024-03-01T10:00:00.987Z"))
                  _ _ initial eq_refl eq_refl eq_refl Hl1 Hl2 eq_refl
                  Hparse)).
Defined.

Lemma untimed_stored_once_witness :
  haystackName (untimed (py "site.ahu.1.sensor.temp"))
  = haystackName (untimed (py "site.ahu.1.sensor.temp"))
  /\ timestamp (untimed (py "site.ahu.1.sensor.temp")) = None
  /\ length
       (sensor_readings
          (on_message iso_text db_up
             (Json (untimed (py "site.ahu.1.sensor.temp")))
             (on_message iso_text db_up
                (Json (untimed (py "site.ahu.1.sensor.temp"))) initial)))
     = 1%nat.
Proof.
  split; [reflexivity|]. split; [reflexivity|].
  rewrite (proj1 (untimed_stored_once iso_text db_up db_up
                    (untimed (py "site.ahu.1.sensor.temp"))
                    (untimed (py "site.ahu.1.sensor.temp")) initial
                    eq_refl eq_refl eq_refl)).
  reflexivity.
Defined.

(** The time-series database is not reached; and the broker is reached
    at the third attempt. *)
Lemma bridge_startup_witness :
  db_ok no_database = false
  /\ connects (main no_database) = []
  /\ db_ok late_broker = true
  /\ main late_broker
     = [ ConnectConfigDb; LoadMqttConfig; ConnectDb;
         MqttConnect 0; SleepSeconds 2; MqttConnect 1; SleepSeconds 2;
         MqttConnect 2; LoopForever ].
Proof.
  split; [reflexivity|].
  split; [exact (proj1 (proj2 (proj2 (proj2 (bridge_startup no_database))))
                   eq_refl)|].
  split; [reflexivity|].
  exact (proj2 (proj2 (proj2 (proj2 (bridge_startup late_broker))))
           eq_refl).
Defined.

End SinkWitnesses.
